(** * Bayesian config flow: a shallow embedding of
      [homeassistant/components/bayesian/config_flow.py]

    The development has three layers.
    - [Python values]: the fragment of Python's data model that the flow
      callbacks compute with: exceptions, scalars, [==], truthiness, [int()],
      true division and multiplication by [100] on [bool]/[int]/[float],
      list indexing with negative positions.
    - [The module]: the conversion helpers, the validators, the step choosers
      and the websocket preview handler, one definition per source function,
      under the source's names.
    - [Properties]: the statements proved about them. *)

From Stdlib Require Import ZArith Lia Ascii String.
From Stdlib Require Import DecimalString DecimalPos DecimalFacts.
From Stdlib Require Import Uint63 PrimFloat SpecFloat FloatOps.
From stdpp Require Import gmap strings list fin_maps.

Local Open Scope string_scope.
Local Open Scope Z_scope.

(* ===================================================================== *)
(** ** Python values *)
(* ===================================================================== *)

(** The exceptions the module can raise or let through. *)
Inductive exn : Type :=
| KeyError (key : string)
| IndexError
| TypeError
| ValueError
| AttributeError
| OverflowError
| NameError (name : string)
| SchemaFlowError (error_key : string)
| HomeAssistantError
| UnknownFlow.

(** The outcome of an expression: a value, or a raised exception. *)
Inductive result (A : Type) : Type :=
| Ok (a : A)
| Raise (e : exn).
Arguments Ok {A} a.
Arguments Raise {A} e.

Definition rbind {A B} (r : result A) (k : A → result B) : result B :=
  match r with
  | Ok a => k a
  | Raise e => Raise e
  end.

Definition rmap {A B} (f : A → B) (r : result A) : result B :=
  rbind r (λ a, Ok (f a)).

#[global] Instance result_ret : MRet result := @Ok.
#[global] Instance result_bind : MBind result := λ A B k r, rbind r k.
#[global] Instance result_fmap : FMap result := @rmap.

Definition is_Ok {A} (r : result A) : Prop := ∃ a, r = Ok a.

Definition returns {A} (r : result A) : bool :=
  match r with
  | Ok _ => true
  | Raise _ => false
  end.

(** Form-field values. [bool] is a subclass of [int] in Python, [int] is
    unbounded, [float] is IEEE binary64 (Rocq's primitive floats). *)
Inductive pyval : Type :=
| VNone
| VBool (b : bool)
| VInt (z : Z)
| VFloat (f : float)
| VStr (s : string).

(** A [dict[str, Any]] of form fields: a user input or a stored observation. *)
Abbreviation pydict := (gmap string pyval).

(** [isinstance(value, (int, float))]; it holds of [bool] too. *)
Definition isinstance_int_float (v : pyval) : bool :=
  match v with
  | VBool _ | VInt _ | VFloat _ => true
  | VNone | VStr _ => false
  end.

(** The integer a [bool] or [int] stands for. *)
Definition as_int (v : pyval) : option Z :=
  match v with
  | VBool b => Some (Z.b2z b)
  | VInt z => Some z
  | _ => None
  end.

(** An [int] as an exact (unrounded) binary float, the input of a correctly
    rounded operation. *)
Definition Z2SF (z : Z) : spec_float :=
  match z with
  | Z0 => S754_zero false
  | Zpos p => S754_finite false p 0
  | Zneg p => S754_finite true p 0
  end.

(** [a / b] on two [int]s: the quotient correctly rounded to binary64
    (round to nearest, ties to even); [OverflowError] when it is too large
    for a [float]. The source only ever divides by [100]. *)
Definition int_truediv (a b : Z) : result float :=
  match SFdiv prec emax (Z2SF a) (Z2SF b) with
  | S754_infinity _ | S754_nan => Raise OverflowError
  | q => Ok (SF2Prim q)
  end.

Definition float_100 : float := 100%float.

(** [value / 100] for a [value] that passed [isinstance_int_float]. *)
Definition truediv_100 (v : pyval) : result pyval :=
  match v with
  | VBool b => VFloat <$> int_truediv (Z.b2z b) 100
  | VInt z => VFloat <$> int_truediv z 100
  | VFloat f => Ok (VFloat (PrimFloat.div f float_100))
  | VNone | VStr _ => Raise TypeError
  end.

(** [value * 100] for a [value] that passed [isinstance_int_float]: exact on
    [int] and [bool], rounded on [float]. It never raises on numbers. *)
Definition mul_100 (v : pyval) : pyval :=
  match v with
  | VBool b => VInt (Z.b2z b * 100)
  | VInt z => VInt (z * 100)
  | VFloat f => VFloat (PrimFloat.mul f float_100)
  | VNone => VNone
  | VStr s => VStr s
  end.

(** The value of a finite float as an integer, when it is one. *)
Definition float_integral (f : float) : option Z :=
  match Prim2SF f with
  | S754_zero _ => Some 0
  | S754_finite s m e =>
      let sgn := if s then -1 else 1 in
      if 0 <=? e then Some (sgn * (Z.pos m * 2 ^ e))
      else if Z.pos m mod 2 ^ (- e) =? 0 then Some (sgn * (Z.pos m / 2 ^ (- e)))
      else None
  | S754_infinity _ | S754_nan => None
  end.

(** Python's [==] on scalars. Numbers compare by value across [bool], [int]
    and [float] (exactly, without rounding the [int]); [nan] equals nothing;
    values of unrelated types are unequal. *)
Definition py_eq (x y : pyval) : bool :=
  match x, y with
  | VNone, VNone => true
  | VStr s, VStr t => bool_decide (s = t)
  | VFloat f, VFloat g => PrimFloat.eqb f g
  | VFloat f, (VBool _ | VInt _) =>
      match float_integral f, as_int y with
      | Some a, Some b => a =? b
      | _, _ => false
      end
  | (VBool _ | VInt _), VFloat g =>
      match as_int x, float_integral g with
      | Some a, Some b => a =? b
      | _, _ => false
      end
  | (VBool _ | VInt _), (VBool _ | VInt _) =>
      match as_int x, as_int y with
      | Some a, Some b => a =? b
      | _, _ => false
      end
  | _, _ => false
  end.

(** Truth value testing ([if value:]). *)
Definition py_truthy (v : pyval) : bool :=
  match v with
  | VNone => false
  | VBool b => b
  | VInt z => negb (z =? 0)
  | VFloat f => negb (PrimFloat.eqb f 0%float)
  | VStr s => negb (bool_decide (s = ""))
  end.

(** [int(x)] on a float: truncation toward zero. *)
Definition float_trunc (f : float) : result Z :=
  match Prim2SF f with
  | S754_zero _ => Ok 0
  | S754_finite s m e =>
      let a := if 0 <=? e then Z.pos m * 2 ^ e else Z.pos m / 2 ^ (- e) in
      Ok (if s then - a else a)
  | S754_infinity _ => Raise OverflowError
  | S754_nan => Raise ValueError
  end.

(** [int(s)] on a string, for ASCII decimal literals: optional surrounding
    whitespace, an optional sign, then digits, with single underscores
    allowed between digits, and at most 4300 digits (the interpreter's
    default limit). Anything else is a [ValueError]. Digits and spaces
    outside ASCII, which Python also reads, are not modelled. *)
Definition is_space (c : ascii) : bool :=
  let n := nat_of_ascii c in
  ((9 <=? n) && (n <=? 13) || (n =? 32))%nat.

Definition digit_of (c : ascii) : option Z :=
  let n := nat_of_ascii c in
  if ((48 <=? n) && (n <=? 57))%nat then Some (Z.of_nat n - 48) else None.

Fixpoint lstrip (s : list ascii) : list ascii :=
  match s with
  | c :: s' => if is_space c then lstrip s' else s
  | [] => []
  end.

Definition strip (s : list ascii) : list ascii :=
  rev (lstrip (rev (lstrip s))).

(** [digits acc after_digit s]: the digits of [s] appended to [acc];
    [after_digit] tells whether the previous character was a digit, the only
    place where an underscore or the end of the literal may come. *)
Fixpoint digits (acc : Z) (after_digit : bool) (s : list ascii) : option Z :=
  match s with
  | [] => if after_digit then Some acc else None
  | c :: s' =>
      match digit_of c with
      | Some d => digits (10 * acc + d) true s'
      | None =>
          if (c =? "_")%char && after_digit then digits acc false s' else None
      end
  end.

Definition max_str_digits : nat := 4300.

Definition within_digit_limit (s : list ascii) : bool :=
  (length (filter (λ c, is_Some (digit_of c)) s) <=? max_str_digits)%nat.

Definition int_of_str (s : string) : result Z :=
  let stripped := strip (list_ascii_of_string s) in
  let parsed :=
    match stripped with
    | "-"%char :: body => Z.opp <$> digits 0 false body
    | "+"%char :: body => digits 0 false body
    | body => digits 0 false body
    end in
  match parsed with
  | Some z => if within_digit_limit stripped then Ok z else Raise ValueError
  | None => Raise ValueError
  end.

(** [int(x)]. *)
Definition py_int (v : pyval) : result Z :=
  match v with
  | VNone => Raise TypeError
  | VBool b => Ok (Z.b2z b)
  | VInt z => Ok z
  | VFloat f => float_trunc f
  | VStr s => int_of_str s
  end.

(** [str(z)] on an [int]: its decimal digits, after a [-] when negative;
    [ValueError] beyond the interpreter's default limit of 4300 digits, the
    limit [int(s)] has. *)
Definition str_of_int (z : Z) : result string :=
  let s := NilZero.string_of_int (Z.to_int z) in
  if within_digit_limit (list_ascii_of_string s) then Ok s else Raise ValueError.

(** [d[key]]. *)
Definition getitem {A} (d : gmap string A) (key : string) : result A :=
  match d !! key with
  | Some v => Ok v
  | None => Raise (KeyError key)
  end.

(** Python list positions: [i] counts from the end when negative. The
    result is the position from the front, when [i] is in range. *)
Definition list_index {A} (l : list A) (i : Z) : option nat :=
  let n := Z.of_nat (length l) in
  if (0 <=? i) && (i <? n) then Some (Z.to_nat i)
  else if (- n <=? i) && (i <? 0) then Some (Z.to_nat (i + n))
  else None.

(** [l[i]]. *)
Definition list_getitem {A} (l : list A) (i : Z) : result A :=
  match list_index l i ≫= (l !!.) with
  | Some x => Ok x
  | None => Raise IndexError
  end.

(** [l[i] = x]. *)
Definition list_setitem {A} (l : list A) (i : Z) (x : A) : result (list A) :=
  match list_index l i with
  | Some n => Ok (<[n := x]> l)
  | None => Raise IndexError
  end.

(** A dict comprehension [{key: f(key, value) for key, value in d.items()}]
    whose element expression may raise. *)
Definition dict_comprehension {A B}
    (f : string → A → result B) (d : gmap string A) : result (gmap string B) :=
  map_fold
    (λ key value acc, out ← acc; v ← f key value; Ok (<[key := v]> out))
    (Ok ∅) d.

(** What a comprehension has built, or why it stopped, after the items of
    [m]: the invariant of its loop. *)
Definition comprehended {A B} (f : string → A → result B)
    (r : result (gmap string B)) (m : gmap string A) : Prop :=
  match r with
  | Ok out => ∀ k, Ok <$> out !! k = f k <$> m !! k
  | Raise e => ∃ k v, m !! k = Some v ∧ f k v = Raise e
  end.

(* ===================================================================== *)
(** ** The module: constants, enumerations, schemas *)
(* ===================================================================== *)

(** Modelled from the spec: the key constants that the module imports from
    [homeassistant.const] and from the integration's [const] module, neither
    of which is part of the sources at hand. Each is the dictionary key the
    flow stores the field under; the four probability keys are pairwise
    distinct, and so are the three observation types. *)
Definition CONF_P_GIVEN_T : string := "prob_given_true".
Definition CONF_P_GIVEN_F : string := "prob_given_false".
Definition CONF_PRIOR : string := "prior".
Definition CONF_PROBABILITY_THRESHOLD : string := "probability_threshold".
Definition CONF_OBSERVATIONS : string := "observations".
Definition CONF_PLATFORM : string := "platform".
Definition CONF_NAME : string := "name".
Definition CONF_STATE : string := "state".
Definition CONF_TEMPLATE : string := "template".
Definition CONF_VALUE_TEMPLATE : string := "value_template".

(** [class ObservationTypes(StrEnum)]. *)
Inductive ObservationTypes : Type := STATE | NUMERIC_STATE | TEMPLATE.

(** [str(member)], the member's value. *)
Definition ObservationTypes_str (t : ObservationTypes) : string :=
  match t with
  | STATE => CONF_STATE
  | NUMERIC_STATE => "numeric_state"
  | TEMPLATE => CONF_TEMPLATE
  end.

(** [class ConfigFlowSteps(StrEnum)]. *)
Inductive ConfigFlowSteps : Type := USER | OBSERVATION_SELECTOR.

(** The three per-type observation schemas, by name. *)
Inductive subschema : Type :=
| STATE_SUBSCHEMA
| NUMERIC_STATE_SUBSCHEMA
| TEMPLATE_SUBSCHEMA.

(** A value of [handler.options]: a plain field, or the list stored under
    [CONF_OBSERVATIONS] (annotated [list[dict[str, Any]]] in the source). *)
Inductive optval : Type :=
| Field (v : pyval)
| Observations (l : list pydict).

(** [handler.options], a [dict[str, Any]]. *)
Abbreviation options_dict := (gmap string optval).

Definition optval_truthy (o : optval) : bool :=
  match o with
  | Field v => py_truthy v
  | Observations l => negb (bool_decide (l = []))
  end.

(** [int(o)]; a list is not convertible. *)
Definition optval_int (o : optval) : result Z :=
  match o with
  | Field v => py_int v
  | Observations _ => Raise TypeError
  end.

(* ===================================================================== *)
(** ** The module: percentage and fraction conversion *)
(* ===================================================================== *)

Definition percentages : list string :=
  [CONF_P_GIVEN_T; CONF_P_GIVEN_F; CONF_PRIOR; CONF_PROBABILITY_THRESHOLD].

(** [isinstance(value, (int, float)) and key in percentages], the condition
    of both comprehensions. *)
Definition is_percentage (key : string) (value : pyval) : bool :=
  isinstance_int_float value && bool_decide (key ∈ percentages).

(** The element expression of the comprehension in
    [_convert_percentages_to_fractions]. *)
Definition percentage_to_fraction (key : string) (value : pyval) : result pyval :=
  if is_percentage key value then truediv_100 value else Ok value.

Definition _convert_percentages_to_fractions (data : pydict) : result pydict :=
  dict_comprehension percentage_to_fraction data.

(** The element expression of the comprehension in
    [_convert_fractions_to_percentages]. *)
Definition fraction_to_percentage (key : string) (value : pyval) : result pyval :=
  if is_percentage key value then Ok (mul_100 value) else Ok value.

Definition _convert_fractions_to_percentages (data : pydict) : result pydict :=
  dict_comprehension fraction_to_percentage data.

(* ===================================================================== *)
(** ** The module: schema and step choosers *)
(* ===================================================================== *)

(** [observations[selected_idx][CONF_PLATFORM]], for whatever is stored under
    the ["observations"] key. Indexing a string yields a one-character
    string, which a string key cannot index; other scalars cannot be indexed
    at all. *)
Definition selected_platform (observations : optval) (selected_idx : Z)
    : result pyval :=
  match observations with
  | Observations l =>
      obs ← list_getitem l selected_idx; getitem obs CONF_PLATFORM
  | Field (VStr s) =>
      list_getitem (list_ascii_of_string s) selected_idx;; Raise TypeError
  | Field _ => Raise TypeError
  end.

(** The result is [None] when no branch returns (the function falls off its
    end). *)
Definition _get_edit_observation_schema (options : options_dict)
    : result (option subschema) :=
  observations ← getitem options "observations";
  index ← getitem options "index";
  selected_idx ← optval_int index;
  platform ← selected_platform observations selected_idx;
  if py_eq platform (VStr (ObservationTypes_str STATE))
  then Ok (Some STATE_SUBSCHEMA) else
  platform ← selected_platform observations selected_idx;
  if py_eq platform (VStr (ObservationTypes_str NUMERIC_STATE))
  then Ok (Some NUMERIC_STATE_SUBSCHEMA) else
  platform ← selected_platform observations selected_idx;
  if py_eq platform (VStr (ObservationTypes_str TEMPLATE))
  then Ok (Some TEMPLATE_SUBSCHEMA) else
  Ok None.

(** [user_input.get(key, default)]. *)
Definition dict_get (d : pydict) (key : string) (default : pyval) : pyval :=
  match d !! key with
  | Some v => v
  | None => default
  end.

Definition _choose_observation_step (user_input : pydict)
    : option ConfigFlowSteps :=
  if py_truthy (dict_get user_input "add_another" (VBool false))
  then Some OBSERVATION_SELECTOR
  else None.

(* ===================================================================== *)
(** ** The module: the forms of the options flow *)
(* ===================================================================== *)

Section Format.
(** [repr] of a [float], the shortest decimal that reads back as the float.
    The interpreter computes it; the module only pastes it into a label. *)
Variable float_repr : float → string.

(** [format(value, "")], the text that a field [{value}] of an f-string
    contributes; on these types it is [str(value)]. *)
Definition py_format (v : pyval) : result string :=
  match v with
  | VNone => Ok "None"
  | VBool b => Ok (if b then "True" else "False")
  | VInt z => str_of_int z
  | VFloat f => Ok (float_repr f)
  | VStr s => Ok s
  end.

(** [f"{config[CONF_PLATFORM]} observation: {config.get(CONF_NAME)}"]: each
    field is evaluated and formatted before the next one is looked at. *)
Definition observation_label (config : pydict) : result string :=
  platform ← getitem config CONF_PLATFORM;
  platform ← py_format platform;
  name ← py_format (dict_get config CONF_NAME VNone);
  Ok (String.append platform (String.append " observation: " name)).

(** The dict comprehension over [enumerate(observations)], from position
    [index] on, added to [choices]: the key [str(index)] is evaluated first,
    then the label. *)
Fixpoint observation_choices (index : nat) (observations : list pydict)
    (choices : gmap string string) : result (gmap string string) :=
  match observations with
  | [] => Ok choices
  | config :: rest =>
      key ← str_of_int (Z.of_nat index);
      label ← observation_label config;
      observation_choices (S index) rest (<[key := label]> choices)
  end.

(** The same for whatever is stored under [CONF_OBSERVATIONS]. Enumerating
    a string yields its characters, which a string key cannot index; the
    other scalars are not iterable. *)
Definition enumerate_choices (observations : optval)
    : result (gmap string string) :=
  match observations with
  | Observations l => observation_choices 0 l ∅
  | Field (VStr s) => if bool_decide (s = "") then Ok ∅ else Raise TypeError
  | Field _ => Raise TypeError
  end.

(** The validator of the one field, ["index"], of the two schemas that let
    the user pick observations: [vol.In(container)] or
    [cv.multi_select(options)], each over a dictionary from choice to label. *)
Inductive index_validator : Type :=
| vol_In (container : gmap string string)
| cv_multi_select (choices : gmap string string).

Definition _get_select_observation_schema (options : options_dict)
    : result index_validator :=
  observations ← getitem options CONF_OBSERVATIONS;
  vol_In <$> enumerate_choices observations.

Definition _get_remove_observation_schema (options : options_dict)
    : result index_validator :=
  observations ← getitem options CONF_OBSERVATIONS;
  cv_multi_select <$> enumerate_choices observations.
End Format.

(** [dict(observations[idx])], for whatever is stored under
    [CONF_OBSERVATIONS]: a copy of the observation. A character of a string
    is no sequence of pairs. *)
Definition selected_observation (observations : optval) (idx : Z)
    : result pydict :=
  match observations with
  | Observations l => list_getitem l idx
  | Field (VStr s) =>
      list_getitem (list_ascii_of_string s) idx;; Raise ValueError
  | Field _ => Raise TypeError
  end.

Definition _get_edit_observation_suggested_values (options : options_dict)
    : result pydict :=
  index ← getitem options "index";
  idx ← optval_int index;
  observations ← getitem options CONF_OBSERVATIONS;
  observation ← selected_observation observations idx;
  _convert_fractions_to_percentages observation.

(** The element expression of [_convert_fractions_to_percentages] on a value
    of [handler.options]: a list is no number and is passed on as it is. *)
Definition option_to_percentage (key : string) (value : optval)
    : result optval :=
  match value with
  | Field v => Field <$> fraction_to_percentage key v
  | Observations l => Ok (Observations l)
  end.

(** [_convert_fractions_to_percentages(dict(handler.options))]: the
    comprehension runs over a copy of the options, whose values are fields
    or the list of observations. *)
Definition _get_base_suggested_values (options : options_dict)
    : result options_dict :=
  dict_comprehension option_to_percentage options.

(* ===================================================================== *)
(** ** The module: validators *)
(* ===================================================================== *)

(** [_validate_user] reads its input only; [handler] is unused. The result
    [{**user_input}] is a copy of the converted dictionary. *)
Definition _validate_user (handler : options_dict) (user_input : pydict)
    : result pydict :=
  prior ← getitem user_input CONF_PRIOR;
  if py_eq prior (VInt 0) then Raise (SchemaFlowError "prior_low_error") else
  prior ← getitem user_input CONF_PRIOR;
  if py_eq prior (VInt 100) then Raise (SchemaFlowError "prior_high_error") else
  threshold ← getitem user_input CONF_PROBABILITY_THRESHOLD;
  if py_eq threshold (VInt 0) then Raise (SchemaFlowError "threshold_low_error") else
  threshold ← getitem user_input CONF_PROBABILITY_THRESHOLD;
  if py_eq threshold (VInt 100) then Raise (SchemaFlowError "threshold_high_error") else
  user_input ← _convert_percentages_to_fractions user_input;
  Ok user_input.

(** [_validate_observation_setup] mutates two objects it does not own: the
    caller's [user_input] (through [pop]) and [handler.options] (through
    [setdefault], and through the list it holds). Both are threaded as the
    state of a small state-and-exception monad; the state at a raise is the
    state the caller is left with. *)
Record store : Type := Store {
  options : options_dict;   (* handler.options *)
  passed_input : pydict     (* the dictionary object passed as user_input *)
}.

Definition M (A : Type) : Type := store → result A * store.

Definition ret {A} (a : A) : M A := λ s, (Ok a, s).

Definition raise {A} (e : exn) : M A := λ s, (Raise e, s).

Definition bind {A B} (m : M A) (k : A → M B) : M B :=
  λ s, match m s with
       | (Ok a, s') => k a s'
       | (Raise e, s') => (Raise e, s')
       end.

#[global] Instance M_ret : MRet M := @ret.
#[global] Instance M_bind : MBind M := λ A B k m, bind m k.

(** An expression without effect on the store. *)
Definition pure {A} (r : result A) : M A := λ s, (r, s).

(** [user_input[key]]. *)
Definition user_input_getitem (key : string) : M pyval :=
  λ s, (getitem (passed_input s) key, s).

(** [user_input.pop(key, default)]. *)
Definition user_input_pop (key : string) (default : pyval) : M pyval :=
  λ s, (Ok (dict_get (passed_input s) key default),
        Store (options s) (delete key (passed_input s))).

(** The dictionary object passed as [user_input], as it stands. *)
Definition user_input_read : M pydict := λ s, (Ok (passed_input s), s).

(** [handler.options.setdefault(key, [])]. The list it returns is the one
    held by [handler.options], so the later writes through [observations]
    are writes to [handler.options[key]]: the reference is the key. *)
Definition options_setdefault_list (key : string) : M string :=
  λ s, match options s !! key with
       | Some _ => (Ok key, s)
       | None =>
           (Ok key, Store (<[key := Observations []]> (options s)) (passed_input s))
       end.

(** [handler.options.get(key)], [None] when the key is missing. *)
Definition options_get (key : string) : M optval :=
  λ s, (Ok (default (Field VNone) (options s !! key)), s).

(** [observations[i] = x], through the reference. A scalar does not support
    item assignment. *)
Definition ref_setitem (ref : string) (i : Z) (x : pydict) : M unit :=
  λ s, match options s !! ref with
       | Some (Observations l) =>
           match list_setitem l i x with
           | Ok l' =>
               (Ok (), Store (<[ref := Observations l']> (options s)) (passed_input s))
           | Raise e => (Raise e, s)
           end
       | Some (Field _) => (Raise TypeError, s)
       | None => (Raise (KeyError ref), s)
       end.

(** [observations.append(x)], through the reference. A scalar has no
    [append]. *)
Definition ref_append (ref : string) (x : pydict) : M unit :=
  λ s, match options s !! ref with
       | Some (Observations l) =>
           (Ok (),
            Store (<[ref := Observations (l ++ [x])]> (options s)) (passed_input s))
       | Some (Field _) => (Raise AttributeError, s)
       | None => (Raise (KeyError ref), s)
       end.

(** The three platform tests look the key up and do nothing else. The local
    rebinding [user_input = _convert_percentages_to_fractions(user_input)]
    names a new dictionary and leaves the passed one as [pop] left it. *)
Definition _validate_observation_setup : M pydict :=
  p_given_t ← user_input_getitem CONF_P_GIVEN_T;
  p_given_f ← user_input_getitem CONF_P_GIVEN_F;
  if py_eq p_given_t p_given_f
  then raise (SchemaFlowError "equal_probabilities") else
  platform ← user_input_getitem CONF_PLATFORM;
  (if py_eq platform (VStr (ObservationTypes_str STATE)) then ret () else ret ());;
  platform ← user_input_getitem CONF_PLATFORM;
  (if py_eq platform (VStr (ObservationTypes_str NUMERIC_STATE)) then ret () else ret ());;
  platform ← user_input_getitem CONF_PLATFORM;
  (if py_eq platform (VStr (ObservationTypes_str TEMPLATE)) then ret () else ret ());;
  add_another ← user_input_pop "add_another" (VBool false);
  popped ← user_input_read;
  user_input ← pure (_convert_percentages_to_fractions popped);
  observations ← options_setdefault_list CONF_OBSERVATIONS;
  idx ← options_get "index";
  (if optval_truthy idx
   then i ← pure (optval_int idx); ref_setitem observations i user_input
   else ref_append observations user_input);;
  ret (if py_truthy add_another
       then {[ "add_another" := VBool true ]}
       else ∅).

(* ===================================================================== *)
(** ** The module: the websocket preview handler *)
(* ===================================================================== *)

(** A value of a voluptuous schema dictionary: a validator, called on the
    field's value, which returns or raises [vol.Invalid(msg)] ([Some msg]);
    or a static object, which marks a required constant and is not
    callable. *)
Inductive schema_entry : Type :=
| Validator (validate : pyval → option string)
| Static (v : pyval).

(** [schema.schema]: markers to entries. A [vol.Marker] hashes and compares
    as the key it wraps ([key.schema]), so the dictionary is keyed by it. *)
Abbreviation vol_schema := (gmap string schema_entry).

(** [errors], field name to message. *)
Abbreviation error_dict := (gmap string string).

(** The body of the loop of [_validate], for one item of the schema. *)
Definition _validate_item (user_input : pydict)
    (key : string) (validator : schema_entry) (errors : error_dict)
    : result error_dict :=
  match user_input !! key with
  | None => Ok errors                                   (* continue *)
  | Some value =>
      if bool_decide (key = CONF_PLATFORM) then Ok errors  (* continue *)
      else match validator with
           | Validator validate =>
               match validate value with
               | Some msg => Ok (<[key := msg]> errors)
               | None => Ok errors
               end
           | Static _ => Raise TypeError
           end
  end.

(** The inner function [_validate] of [ws_start_preview]. *)
Definition _validate (schema : vol_schema) (user_input : pydict)
    : result error_dict :=
  map_fold
    (λ key validator acc, errors ← acc; _validate_item user_input key validator errors)
    (Ok ∅) schema.

(** [Schema.extend]: the entries of both, the extension's on a clash. *)
Definition extend (schema extension : vol_schema) : vol_schema :=
  extension ∪ schema.

(** The fields of the websocket message the handler reads. *)
Record ws_msg : Type := WsMsg {
  msg_id : Z;
  msg_flow_id : string;
  msg_flow_type : string;
  msg_user_input : pydict
}.

(** What the handler reads from [hass]: the two flow managers, the config
    entries and the entity registry. A flow status is its ["handler"] field;
    a registry entry is named by its entity id. *)
Record HomeAssistant : Type := Hass {
  flow_async_get : string → result string;
  options_async_get : string → result string;
  async_get_entry : string → option string;
  async_entries_for_config_entry : string → list string
}.

(** A message sent over the connection:
    [{"id": id, "type": TYPE_RESULT, "success": False,
      "error": {"code": code, "message": message}}],
    or the success result of [connection.send_result(id)]. *)
Inductive ws_out : Type :=
| ErrorResult (id : Z) (code : string) (message : error_dict)
| SuccessResult (id : Z).

(** A preview sensor made by [async_create_preview_sensor]. *)
Record preview_entity : Type := Preview {
  preview_name : string;
  template_config : pydict;
  registry_entry : option string
}.

(** What the handler acts on: the connection's outbox and subscriptions,
    and the preview entities created so far. *)
Record world : Type := World {
  sent : list ws_out;
  subscriptions : gmap Z preview_entity;
  previews : list preview_entity
}.

Section Preview.
(** The host's selectors and [cv.boolean], as validators. *)
Variables TemplateSelector NumberSelector TextSelector cv_boolean
  : pyval → option string.

Definition SUBSCHEMA_BOILERPLATE : vol_schema :=
  {[ CONF_P_GIVEN_T := Validator NumberSelector;
     CONF_P_GIVEN_F := Validator NumberSelector;
     CONF_NAME := Validator TextSelector ]}.

Definition ADD_ANOTHER_BOX_SCHEMA : vol_schema :=
  {[ "add_another" := Validator cv_boolean ]}.

Definition TEMPLATE_SUBSCHEMA_schema : vol_schema :=
  extend
    {[ CONF_PLATFORM := Static (VStr (ObservationTypes_str TEMPLATE));
       CONF_VALUE_TEMPLATE := Validator TemplateSelector ]}
    SUBSCHEMA_BOILERPLATE.

(** [CONFIG_FLOW[str(ObservationTypes.TEMPLATE)].schema]. [OPTIONS_FLOW]
    holds the same step, through [OPTIONS_FLOW.update(CONFIG_FLOW)]. *)
Definition template_step_schema : vol_schema :=
  extend TEMPLATE_SUBSCHEMA_schema ADD_ANOTHER_BOX_SCHEMA.

(** The first part of [ws_start_preview]: the form step's schema and the
    registry entry to attach to the preview, by flow type. *)
Definition preview_form_step (hass : HomeAssistant) (msg : ws_msg)
    : result (vol_schema * option string) :=
  if bool_decide (msg_flow_type msg = "config_flow")
  then
    flow_async_get hass (msg_flow_id msg);;
    Ok (template_step_schema, None)
  else
    flow_status ← options_async_get hass (msg_flow_id msg);
    match async_get_entry hass flow_status with
    | None => Raise HomeAssistantError
    | Some config_entry =>
        Ok (template_step_schema,
            head (async_entries_for_config_entry hass flow_status))
    end.

Definition ws_start_preview (hass : HomeAssistant) (msg : ws_msg) (w : world)
    : result unit * world :=
  let user_input := msg_user_input msg in
  match preview_form_step hass msg with
  | Raise e => (Raise e, w)
  | Ok (schema, entity_registry_entry) =>
  match _validate schema user_input with
  | Raise e => (Raise e, w)
  | Ok errors =>
  if negb (bool_decide (errors = ∅))
  then
    (Ok (),
     World (sent w ++ [ErrorResult (msg_id msg) "invalid_user_input" errors])
           (subscriptions w) (previews w))
  else
  match getitem user_input "value_template" with
  | Raise e => (Raise e, w)
  | Ok value_template =>
      let preview_entity :=
        Preview "Observation" {[ CONF_STATE := value_template ]}
                entity_registry_entry in
      (Ok (),
       World (sent w ++ [SuccessResult (msg_id msg)])
             (<[msg_id msg := preview_entity]> (subscriptions w))
             (previews w ++ [preview_entity]))
  end end end.
End Preview.

(* ===================================================================== *)
(** ** The module: its top-level statements *)
(* ===================================================================== *)

(** Importing the module runs its top-level statements in order. A
    statement evaluates some global names, in order, and may bind names. A
    [def] evaluates its decorators and annotations and binds its name, not
    running its body; an assignment evaluates its right-hand side; a [class]
    runs its body. Reading a name that is neither bound nor a builtin raises
    [NameError]. *)
Inductive statement : Type :=
| Import (names : list string)
| Bind (name : string) (reads : list string)
| Expr (reads : list string).

Definition builtins : gset string :=
  list_to_set ["str"; "int"; "float"; "bool"; "dict"; "list"; "set";
               "isinstance"; "enumerate"; "staticmethod"].

(** The globals a module starts with; [__name__] is the one this module
    reads. *)
Definition module_globals : gset string := {[ "__name__" ]}.

Definition undefined (globals : gset string) (reads : list string)
    : option string :=
  head (filter (λ name, name ∉ globals ∪ builtins) reads).

Definition exec_statement (globals : gset string) (st : statement)
    : result (gset string) :=
  match st with
  | Import names => Ok (list_to_set names ∪ globals)
  | Bind name reads =>
      match undefined globals reads with
      | Some missing => Raise (NameError missing)
      | None => Ok ({[ name ]} ∪ globals)
      end
  | Expr reads =>
      match undefined globals reads with
      | Some missing => Raise (NameError missing)
      | None => Ok globals
      end
  end.

Fixpoint exec (globals : gset string) (body : list statement)
    : result (gset string) :=
  match body with
  | [] => Ok globals
  | st :: rest => globals' ← exec_statement globals st; exec globals' rest
  end.

(** The names a statement binds. *)
Definition binds (st : statement) : list string :=
  match st with
  | Import names => names
  | Bind name _ => [name]
  | Expr _ => []
  end.

(** Lines 3 to 57: the imports and the logger. *)
Definition module_imports : list statement :=
  [ Import ["Mapping"]; Import ["StrEnum"]; Import ["logging"];
    Import ["Any"; "cast"]; Import ["vol"]; Import ["websocket_api"];
    Import ["BINARY_SENSOR_DOMAIN"; "BinarySensorDeviceClass"];
    Import ["INPUT_BOLEAN_DOMAIN"]; Import ["INPUT_NUMBER_DOMAIN"];
    Import ["NUMBER_DOMAIN"]; Import ["SENSOR_DOMAIN"];
    Import ["async_create_preview_sensor"];
    Import ["CONF_ABOVE"; "CONF_BELOW"; "CONF_DEVICE_CLASS"; "CONF_ENTITY_ID";
            "CONF_NAME"; "CONF_PLATFORM"; "CONF_STATE"; "CONF_VALUE_TEMPLATE"];
    Import ["HomeAssistant"; "callback"]; Import ["HomeAssistantError"];
    Import ["er"; "selector"]; Import ["cv"];
    Import ["SchemaCommonFlowHandler"; "SchemaConfigFlowHandler";
            "SchemaFlowError"; "SchemaFlowFormStep"; "SchemaFlowMenuStep";
            "SchemaFlowStep"];
    Import ["result_as_boolean"];
    Import ["CONF_OBSERVATIONS"; "CONF_P_GIVEN_F"; "CONF_P_GIVEN_T";
            "CONF_PRIOR"; "CONF_PROBABILITY_THRESHOLD"; "CONF_TEMPLATE";
            "CONF_TO_STATE"; "DEFAULT_NAME"; "DEFAULT_PROBABILITY_THRESHOLD";
            "DOMAIN"];
    Bind "_LOGGER" ["logging"; "__name__"] ].

(** Lines 60 to 213: the enumerations and the schemas. *)
Definition module_schemas : list statement :=
  [ Bind "ObservationTypes"
      ["StrEnum"; "CONF_STATE"; "CONF_TEMPLATE"; "staticmethod"; "list"; "str"];
    Bind "OPTIONS_SCHEMA"
      ["vol"; "CONF_PROBABILITY_THRESHOLD"; "DEFAULT_PROBABILITY_THRESHOLD";
       "selector"; "CONF_PRIOR"; "CONF_DEVICE_CLASS"; "BinarySensorDeviceClass"];
    Bind "CONFIG_SCHEMA"
      ["vol"; "CONF_NAME"; "DEFAULT_NAME"; "selector"; "OPTIONS_SCHEMA"];
    Bind "SUBSCHEMA_BOILERPLATE"
      ["vol"; "CONF_P_GIVEN_T"; "selector"; "CONF_P_GIVEN_F"; "CONF_NAME"];
    Bind "ADD_ANOTHER_BOX_SCHEMA" ["vol"; "cv"];
    Bind "STATE_SUBSCHEMA"
      ["vol"; "CONF_PLATFORM"; "CONF_STATE"; "CONF_ENTITY_ID"; "selector";
       "SENSOR_DOMAIN"; "BINARY_SENSOR_DOMAIN"; "INPUT_BOLEAN_DOMAIN";
       "CONF_TO_STATE"; "SUBSCHEMA_BOILERPLATE"];
    Bind "NUMERIC_STATE_SUBSCHEMA"
      ["vol"; "CONF_PLATFORM"; "str"; "ObservationTypes"; "CONF_ENTITY_ID";
       "selector"; "SENSOR_DOMAIN"; "INPUT_NUMBER_DOMAIN"; "NUMBER_DOMAIN";
       "CONF_ABOVE"; "CONF_BELOW"; "SUBSCHEMA_BOILERPLATE"];
    Bind "TEMPLATE_SUBSCHEMA"
      ["vol"; "CONF_PLATFORM"; "str"; "ObservationTypes";
       "CONF_VALUE_TEMPLATE"; "selector"; "SUBSCHEMA_BOILERPLATE"];
    Bind "ConfigFlowSteps" ["StrEnum"];
    Bind "OptionsFlowSteps"
      ["StrEnum"; "str"; "ConfigFlowSteps"; "staticmethod"; "list"] ].

(** Lines 216 to 382: the functions. Only their annotations are evaluated. *)
Definition module_functions : list statement :=
  [ Bind "_convert_percentages_to_fractions" ["dict"; "str"; "float"; "int"];
    Bind "_convert_fractions_to_percentages" ["dict"; "str"; "float"];
    Bind "_get_select_observation_schema" ["SchemaCommonFlowHandler"; "vol"];
    Bind "_get_remove_observation_schema" ["SchemaCommonFlowHandler"; "vol"];
    Bind "_get_edit_observation_schema" ["SchemaCommonFlowHandler"; "vol"];
    Bind "_choose_observation_step" ["dict"; "str"; "Any"; "ConfigFlowSteps"];
    Bind "_get_base_suggested_values"
      ["SchemaCommonFlowHandler"; "dict"; "str"; "Any"];
    Bind "_get_edit_observation_suggested_values"
      ["SchemaCommonFlowHandler"; "dict"; "str"; "Any"];
    Bind "_validate_user" ["SchemaCommonFlowHandler"; "dict"; "str"; "Any"];
    Bind "_validate_observation_setup"
      ["SchemaCommonFlowHandler"; "dict"; "str"; "Any"] ].

(** Lines 385 to 413. *)
Definition CONFIG_FLOW_statement : statement :=
  Bind "CONFIG_FLOW"
    ["str"; "ConfigFlowSteps"; "SchemaFlowFormStep"; "CONFIG_SCHEMA";
     "_validate_user"; "SchemaFlowMenuStep"; "ObservationTypes";
     "STATE_SUBSCHEMA"; "ADD_ANOTHER_BOX_SCHEMA"; "_choose_observation_step";
     "_validate_observation_setup"; "NUMERIC_STATE_SUBSCHEMA";
     "TEMPLATE_SUBSCHEMA"].

(** Lines 415 to 439: the dictionary display is evaluated item by item, each
    call's arguments left to right; the annotation of the target comes after
    the value. *)
Definition OPTIONS_FLOW_statement : statement :=
  Bind "OPTIONS_FLOW"
    ["str"; "OptionsFlowSteps"; "SchemaFlowMenuStep";
     "SchemaFlowFormStep"; "OPTIONS_SCHEMA"; "_get_base_suggested_values";
     "_validate_user";
     "_get_select_observation_schema";
     "_get_edit_observation_schema"; "_get_edit_observation_suggested_values";
     "_validate_observation_setup";
     "_get_remove_observation_schema"; "_validate_remove_observation";
     "dict"; "SchemaFlowStep"].

(** Lines 440 to 571: what comes after [OPTIONS_FLOW]. *)
Definition module_rest : list statement :=
  [ Expr ["OPTIONS_FLOW"; "CONFIG_FLOW"];
    Bind "BayesianConfigFlowHandler"
      ["SchemaConfigFlowHandler"; "DOMAIN"; "CONFIG_FLOW"; "OPTIONS_FLOW";
       "Mapping"; "str"; "staticmethod"; "HomeAssistant"];
    Bind "ws_start_preview"
      ["websocket_api"; "vol"; "str"; "dict"; "callback"; "HomeAssistant";
       "Any"] ].

(** Everything up to the definition of [OPTIONS_FLOW]. *)
Definition module_before_OPTIONS_FLOW : list statement :=
  module_imports ++ module_schemas ++ module_functions ++ [CONFIG_FLOW_statement].

Definition config_flow_module : list statement :=
  module_before_OPTIONS_FLOW ++ OPTIONS_FLOW_statement :: module_rest.

(** The names a statement evaluates. *)
Definition reads (st : statement) : list string :=
  match st with
  | Import _ => []
  | Bind _ names => names
  | Expr names => names
  end.

(** The names a sequence of statements binds. *)
Definition bound (body : list statement) : list string :=
  concat (binds <$> body).

(* ===================================================================== *)
(** ** Vocabulary of the statements *)
(* ===================================================================== *)

(** Percentages to fractions and back, the round trip made by a form that
    is stored and then shown again. *)
Definition roundtrip (data : pydict) : result pydict :=
  fractions ← _convert_percentages_to_fractions data;
  _convert_fractions_to_percentages fractions.

(** Python's [==] on two dictionaries of scalars: the same keys, holding
    [==] values. *)
Definition dict_eq (d1 d2 : pydict) : bool :=
  bool_decide (dom d1 = dom d2)
  && forallb (λ item, match d2 !! item.1 with
                      | Some w => py_eq item.2 w
                      | None => false
                      end)
             (map_to_list d1).

(** [handler.options] once [setdefault(CONF_OBSERVATIONS, [])] has run. *)
Definition with_observations (opts : options_dict) : options_dict :=
  match opts !! CONF_OBSERVATIONS with
  | Some _ => opts
  | None => <[CONF_OBSERVATIONS := Observations []]> opts
  end.

(** The list of observations held by [handler.options], empty when there is
    none yet. *)
Definition observation_list (opts : options_dict) : list pydict :=
  match opts !! CONF_OBSERVATIONS with
  | Some (Observations l) => l
  | _ => []
  end.

(** The dictionary [_validate_observation_setup] returns for a flag. *)
Definition add_another_result (flag : pyval) : pydict :=
  if py_truthy flag then {[ "add_another" := VBool true ]} else ∅.

(** The tail of [_validate_observation_setup], from the [pop] on, written
    out on the store: [flag] is the popped value, [popped] the passed
    dictionary after the [pop]. *)
Definition store_observation (opts : options_dict) (flag : pyval)
    (popped : pydict) : result pydict * store :=
  match _convert_percentages_to_fractions popped with
  | Raise e => (Raise e, Store opts popped)
  | Ok converted =>
      let opts' := with_observations opts in
      let idx := default (Field VNone) (opts' !! "index") in
      if optval_truthy idx then
        match optval_int idx with
        | Raise e => (Raise e, Store opts' popped)
        | Ok i =>
            match opts' !! CONF_OBSERVATIONS with
            | Some (Observations l) =>
                match list_setitem l i converted with
                | Ok l' =>
                    (Ok (add_another_result flag),
                     Store (<[CONF_OBSERVATIONS := Observations l']> opts') popped)
                | Raise e => (Raise e, Store opts' popped)
                end
            | Some (Field _) => (Raise TypeError, Store opts' popped)
            | None => (Raise (KeyError CONF_OBSERVATIONS), Store opts' popped)
            end
        end
      else
        match opts' !! CONF_OBSERVATIONS with
        | Some (Observations l) =>
            (Ok (add_another_result flag),
             Store (<[CONF_OBSERVATIONS := Observations (l ++ [converted])]> opts')
                   popped)
        | Some (Field _) => (Raise AttributeError, Store opts' popped)
        | None => (Raise (KeyError CONF_OBSERVATIONS), Store opts' popped)
        end
  end.

(** The exceptions the module raises itself, as opposed to Python's own. *)
Definition is_schema_error (e : exn) : Prop :=
  match e with
  | SchemaFlowError _ => True
  | _ => False
  end.

(** An observation that does not carry the flow-control flag. *)
Definition lacks_add_another (observation : pydict) : Prop :=
  observation !! "add_another" = None.

(** What [_validate] has collected. *)
Definition collected (schema : vol_schema) (user_input : pydict)
    (errors : error_dict) : Prop :=
  ∀ key msg,
    errors !! key = Some msg ↔
      key ≠ CONF_PLATFORM
      ∧ ∃ validate value,
          schema !! key = Some (Validator validate)
          ∧ user_input !! key = Some value
          ∧ validate value = Some msg.

(** No static object of the schema is called: each sits under the platform
    key or under a key the input lacks. *)
Definition statics_skipped (schema : vol_schema) (user_input : pydict) : Prop :=
  ∀ key static,
    schema !! key = Some (Static static) →
    key = CONF_PLATFORM ∨ user_input !! key = None.

(** Whether a number comes back [==] to itself from the round trip. *)
Definition roundtrips (value : pyval) : bool :=
  match truediv_100 value with
  | Ok q => py_eq (mul_100 q) value
  | Raise _ => false
  end.

(** The whole percentages that do not. *)
Definition inexact_percentages : list Z := [7; 14; 28; 29; 55; 56; 57; 58].

(** [float(z)] for a small [int]. *)
Definition float_of_int (z : Z) : float := SF2Prim (Z2SF z).

(** The four probability keys, spelled out. *)
Definition probability_keys : list string :=
  ["prob_given_true"; "prob_given_false"; "prior"; "probability_threshold"].

(** The characters of a decimal numeral. *)
Definition uint_chars (d : Decimal.uint) : list ascii :=
  list_ascii_of_string (NilEmpty.string_of_uint d).

(** What converting percentages to fractions makes of a dictionary, entry
    by entry: the numbers under the probability keys are divided by [100],
    everything else is kept. *)
Definition converted_entries (data out : pydict) : Prop :=
  dom out = dom data
  ∧ ∀ key value, data !! key = Some value →
      (key ∉ probability_keys → out !! key = Some value)
      ∧ (key ∈ probability_keys →
         match value with
         | VFloat f => out !! key = Some (VFloat (PrimFloat.div f 100%float))
         | VInt z =>
             out !! key
             = Some (VFloat (SF2Prim (SFdiv prec emax (Z2SF z) (Z2SF 100))))
             ∧ (0 ≤ z ≤ 100 →
                out !! key
                = Some (VFloat (PrimFloat.div
                                  (PrimFloat.of_uint63 (Uint63.of_Z z)) 100%float)))
         | VBool b =>
             out !! key
             = Some (VFloat (PrimFloat.div (if b then 1%float else 0%float)
                                           100%float))
         | VNone | VStr _ => out !! key = Some value
         end).

(** What the selection form offers for a list of observations: each
    position under its decimal string, with the label of the observation
    there, and nothing else. *)
Definition offers (float_repr : float → string) (l : list pydict)
    (choices : gmap string string) : Prop :=
  (∀ n config, l !! n = Some config →
     ∃ key label,
       str_of_int (Z.of_nat n) = Ok key
       ∧ observation_label float_repr config = Ok label
       ∧ choices !! key = Some label)
  ∧ (∀ key, is_Some (choices !! key) →
       ∃ n, (n < length l)%nat ∧ str_of_int (Z.of_nat n) = Ok key)
  ∧ size choices = length l.

(** The schema [_get_edit_observation_schema] returns for a platform. *)
Definition platform_schema (platform : pyval) : option subschema :=
  if py_eq platform (VStr (ObservationTypes_str STATE))
  then Some STATE_SUBSCHEMA
  else if py_eq platform (VStr (ObservationTypes_str NUMERIC_STATE))
  then Some NUMERIC_STATE_SUBSCHEMA
  else if py_eq platform (VStr (ObservationTypes_str TEMPLATE))
  then Some TEMPLATE_SUBSCHEMA
  else None.

(** The fraction that the flow stores for a whole percentage [z], the float
    [float(z) / 100.0]. *)
Definition fraction_of_percent (z : Z) : float :=
  PrimFloat.div (PrimFloat.of_uint63 (Uint63.of_Z z)) 100%float.

(** A stored value that is such a fraction. *)
Definition stored_fraction (z : Z) (v : pyval) : Prop :=
  0 ≤ z ≤ 100 ∧ v = VFloat (fraction_of_percent z).

(** A stored dictionary whose numbers under the probability keys all are
    such fractions. *)
Definition stores_whole_percentages (stored : pydict) : Prop :=
  ∀ key value, key ∈ probability_keys → stored !! key = Some value →
    (∃ z, stored_fraction z value) ∨ value = VNone ∨ ∃ s, value = VStr s.

(** Whether the fractions stored for [a] and [b] are shown as percentages
    that are [==]. *)
Definition shown_equal (a b : Z) : bool :=
  py_eq (VFloat (PrimFloat.mul (fraction_of_percent a) 100%float))
        (VFloat (PrimFloat.mul (fraction_of_percent b) 100%float)).

(** Whether the fraction stored for [a] is shown as a percentage [==] to
    the limit [limit]. *)
Definition shown_at_limit (a limit : Z) : bool :=
  py_eq (VFloat (PrimFloat.mul (fraction_of_percent a) 100%float)) (VInt limit).

Definition whole_percentages : list Z := Z.of_nat <$> seq 0 101.

(** A key of the schema under which a static object would be called: not
    the platform key, and present in the input. *)
Definition calls_static (schema : vol_schema) (user_input : pydict) : Prop :=
  ∃ key static,
    schema !! key = Some (Static static)
    ∧ key ≠ CONF_PLATFORM
    ∧ is_Some (user_input !! key).

(** Every field of the input that the schema validates is accepted. *)
Definition all_accepted (schema : vol_schema) (user_input : pydict) : Prop :=
  ∀ key validate value,
    schema !! key = Some (Validator validate) →
    user_input !! key = Some value →
    key ≠ CONF_PLATFORM →
    validate value = None.

(** The look-up of the flow went through: the flow is known and, in an
    options flow, its config entry exists. *)
Definition flow_found (hass : HomeAssistant) (msg : ws_msg) : Prop :=
  (msg_flow_type msg = "config_flow"
   ∧ is_Ok (flow_async_get hass (msg_flow_id msg)))
  ∨ (msg_flow_type msg ≠ "config_flow"
     ∧ ∃ flow_status,
         options_async_get hass (msg_flow_id msg) = Ok flow_status
         ∧ is_Some (async_get_entry hass flow_status)).

(** A submitted observation form that passes the tests of
    [_validate_observation_setup] and can be converted. *)
Definition submittable (user_input : pydict) : Prop :=
  (∃ p_given_t p_given_f,
     user_input !! "prob_given_true" = Some p_given_t
     ∧ user_input !! "prob_given_false" = Some p_given_f
     ∧ py_eq p_given_t p_given_f = false)
  ∧ is_Some (user_input !! "platform")
  ∧ ∀ key z, key ∈ probability_keys → user_input !! key = Some (VInt z) →
      0 ≤ z ≤ 100.

(** [_validate_observation_setup] run on each of a sequence of submitted
    forms, [handler.options] carried from one to the next, as the
    observation steps of a flow do; it stops at the first that raises. *)
Fixpoint submit_all (inputs : list pydict) (opts : options_dict)
    : result options_dict :=
  match inputs with
  | [] => Ok opts
  | user_input :: rest =>
      match _validate_observation_setup (Store opts user_input) with
      | (Ok _, s') => submit_all rest (options s')
      | (Raise e, _) => Raise e
      end
  end.

(* ===================================================================== *)
(** ** Properties: Python values *)
(* ===================================================================== *)

Lemma rbind_Ok {A B} (r : result A) (k : A → result B) (b : B) :
  r ≫= k = Ok b ↔ ∃ a, r = Ok a ∧ k a = Ok b.
Proof.
  destruct r as [a|e]; simpl; split.
  - intros H. by exists a.
  - by intros (a' & [= <-] & H).
  - discriminate.
  - by intros (a' & [=] & _).
Qed.

Lemma returns_is_Ok {A} (r : result A) : returns r = true → is_Ok r.
Proof. destruct r; [by eexists | discriminate]. Qed.

(** Settles [is_Ok r] for a closed [r] by running it. *)
Ltac evaluates := apply returns_is_Ok; vm_compute; reflexivity.

Lemma getitem_Ok {A} (d : gmap string A) (key : string) (v : A) :
  getitem d key = Ok v ↔ d !! key = Some v.
Proof. unfold getitem. destruct (d !! key); split; congruence. Qed.

(** A string equals only that string. *)
Lemma py_eq_str (v : pyval) (s : string) :
  py_eq v (VStr s) = true ↔ v = VStr s.
Proof.
  destruct v; simpl; split; try discriminate.
  - intros H. apply bool_decide_eq_true in H. by subst.
  - intros [= ->]. by apply bool_decide_eq_true.
Qed.

(** A number cannot equal both [0] and [100]. *)
Lemma py_eq_0_100 (v : pyval) :
  py_eq v (VInt 0) = true → py_eq v (VInt 100) = true → False.
Proof.
  destruct v as [|b|z|f|s]; simpl; try discriminate.
  - destruct b; intros H0 H100; cbn in *; congruence.
  - intros H0%Z.eqb_eq H100%Z.eqb_eq. lia.
  - destruct (float_integral f); [|discriminate].
    intros H0%Z.eqb_eq H100%Z.eqb_eq. lia.
Qed.

(** Dividing a [float] by [100] never raises. *)
Lemma truediv_100_float (f : float) :
  truediv_100 (VFloat f) = Ok (VFloat (PrimFloat.div f float_100)).
Proof. reflexivity. Qed.

(** Neither does dividing a [bool]. *)
Lemma truediv_100_bool (b : bool) : is_Ok (truediv_100 (VBool b)).
Proof. destruct b; evaluates. Qed.

(** The quotient of a number, when there is one, is a [float]. *)
Lemma truediv_100_Ok (v q : pyval) :
  truediv_100 v = Ok q → ∃ f, q = VFloat f.
Proof.
  destruct v as [|b|z|f|s]; simpl; try discriminate.
  - destruct (int_truediv _ _); simpl; [|discriminate]. intros [= <-]. eauto.
  - destruct (int_truediv _ _); simpl; [|discriminate]. intros [= <-]. eauto.
  - intros [= <-]. eauto.
Qed.

(** On a number, true division can only fail by overflow. *)
Lemma truediv_100_Raise (v : pyval) (e : exn) :
  isinstance_int_float v = true → truediv_100 v = Raise e → e = OverflowError.
Proof.
  assert (Hint : ∀ a, VFloat <$> int_truediv a 100 = Raise e → e = OverflowError).
  { intros a. unfold int_truediv.
    destruct (SFdiv _ _ _ _); simpl; congruence. }
  destruct v as [|b|z|f|s]; simpl; try discriminate; intros _ H;
    try discriminate H; eauto.
Qed.

(** The integer percentages [0] to [100] all have a quotient. *)
Lemma truediv_100_percent (z : Z) :
  0 ≤ z ≤ 100 → is_Ok (truediv_100 (VInt z)).
Proof.
  intros Hz.
  assert (Hall : Forall (λ n, is_Ok (truediv_100 (VInt (Z.of_nat n)))) (seq 0 101)).
  { repeat (constructor; [evaluates|]). constructor. }
  rewrite Forall_forall in Hall.
  specialize (Hall (Z.to_nat z)). rewrite Z2Nat.id in Hall by lia.
  apply Hall. apply elem_of_seq. lia.
Qed.

(** On the whole percentages, dividing the [int] and dividing the [float]
    give the same quotient. *)
Lemma truediv_100_percent_float (z : Z) :
  0 ≤ z ≤ 100 → truediv_100 (VInt z) = truediv_100 (VFloat (float_of_int z)).
Proof.
  intros Hz.
  assert (Hall : Forall (λ n, truediv_100 (VInt (Z.of_nat n))
                              = truediv_100 (VFloat (float_of_int (Z.of_nat n))))
                        (seq 0 101)).
  { repeat (constructor; [vm_compute; reflexivity|]). constructor. }
  rewrite Forall_forall in Hall.
  specialize (Hall (Z.to_nat z)). rewrite Z2Nat.id in Hall by lia.
  apply Hall. apply elem_of_seq. lia.
Qed.

(** An [int] whose quotient is too large for a [float] cannot be divided. *)
Lemma truediv_100_overflow : truediv_100 (VInt (10 ^ 400)) = Raise OverflowError.
Proof. vm_compute. reflexivity. Qed.

(* ===================================================================== *)
(** ** Properties: dict comprehensions *)
(* ===================================================================== *)

Section Comprehension.
Context {A B : Type} (f : string → A → result B).

Lemma dict_comprehension_comprehended (d : gmap string A) :
  comprehended f (dict_comprehension f d) d.
Proof.
  unfold dict_comprehension.
  apply (map_fold_weak_ind (comprehended f)).
  - intros k. by rewrite !lookup_empty.
  - intros i x m r Hi IH. destruct r as [out|e]; simpl in *.
    + destruct (f i x) as [b|e] eqn:Hf; simpl.
      * intros k. destruct (decide (k = i)) as [->|Hne].
        -- rewrite !lookup_insert_eq. simpl. by rewrite Hf.
        -- rewrite !lookup_insert_ne by done. apply IH.
      * exists i, x. by rewrite lookup_insert_eq.
    + destruct IH as (k & v & Hk & Hf). exists k, v. split; [|done].
      rewrite lookup_insert_ne; [done|]. intros ->. congruence.
Qed.

(** The comprehension returns [out] exactly when [out] holds, under each
    key of [d], the value of the element expression, and nothing else. *)
Lemma dict_comprehension_Ok (d : gmap string A) (out : gmap string B) :
  dict_comprehension f d = Ok out ↔ ∀ k, Ok <$> out !! k = f k <$> d !! k.
Proof.
  pose proof (dict_comprehension_comprehended d) as H.
  destruct (dict_comprehension f d) as [out'|e]; simpl in H; split.
  - intros [= <-]. exact H.
  - intros Hout. f_equal. apply map_eq. intros k.
    specialize (H k). specialize (Hout k). rewrite <- Hout in H.
    destruct (out' !! k), (out !! k); simpl in H; congruence.
  - discriminate.
  - intros Hout. destruct H as (k & v & Hk & Hf).
    specialize (Hout k). rewrite Hk in Hout. simpl in Hout.
    rewrite Hf in Hout. destruct (out !! k); discriminate.
Qed.

(** It raises exactly what some element expression raises. *)
Lemma dict_comprehension_Raise (d : gmap string A) (e : exn) :
  dict_comprehension f d = Raise e → ∃ k v, d !! k = Some v ∧ f k v = Raise e.
Proof.
  pose proof (dict_comprehension_comprehended d) as H.
  intros Hr. rewrite Hr in H. exact H.
Qed.

(** It returns when every element expression does. *)
Lemma dict_comprehension_total (d : gmap string A) :
  (∀ k v, d !! k = Some v → is_Ok (f k v)) → is_Ok (dict_comprehension f d).
Proof.
  intros Hall. destruct (dict_comprehension f d) as [out|e] eqn:Hc.
  - by exists out.
  - apply dict_comprehension_Raise in Hc as (k & v & Hk & Hf).
    destruct (Hall k v Hk) as [b Hb]. congruence.
Qed.

(** The result has the keys of the input. *)
Lemma dict_comprehension_dom (d : gmap string A) (out : gmap string B) :
  dict_comprehension f d = Ok out → dom out = dom d.
Proof.
  intros Hc. rewrite dict_comprehension_Ok in Hc.
  apply set_eq. intros k. rewrite !elem_of_dom. specialize (Hc k).
  destruct (out !! k), (d !! k); simpl in Hc; try discriminate;
    split; intros [? ?]; eauto; discriminate.
Qed.
End Comprehension.

(** The same, entry by entry. *)
Lemma dict_comprehension_pointwise {A B} (f : string → A → result B)
    (d : gmap string A) (out : gmap string B) :
  dict_comprehension f d = Ok out ↔
    dom out = dom d ∧
    ∀ k v, d !! k = Some v → ∃ b, f k v = Ok b ∧ out !! k = Some b.
Proof.
  split.
  - intros Hc. split; [by eapply dict_comprehension_dom|].
    rewrite dict_comprehension_Ok in Hc. intros k v Hk.
    specialize (Hc k). rewrite Hk in Hc. simpl in Hc.
    destruct (out !! k) as [b|]; [|discriminate].
    exists b. split; [|done]. simpl in Hc. congruence.
  - intros [Hdom Hall]. apply dict_comprehension_Ok. intros k.
    destruct (d !! k) as [v|] eqn:Hk.
    + destruct (Hall k v Hk) as (b & Hf & Hb). rewrite Hb. simpl. by rewrite Hf.
    + apply not_elem_of_dom in Hk. rewrite <- Hdom in Hk.
      apply not_elem_of_dom in Hk. by rewrite Hk.
Qed.

(* ===================================================================== *)
(** ** Properties: percentage and fraction conversion *)
(* ===================================================================== *)

Lemma percentage_to_fraction_Ok (key : string) (value b : pyval) :
  percentage_to_fraction key value = Ok b ↔
    if is_percentage key value then truediv_100 value = Ok b else b = value.
Proof.
  unfold percentage_to_fraction.
  destruct (is_percentage key value); [done|]. split; congruence.
Qed.

Lemma fraction_to_percentage_Ok (key : string) (value b : pyval) :
  fraction_to_percentage key value = Ok b ↔
    b = if is_percentage key value then mul_100 value else value.
Proof.
  unfold fraction_to_percentage.
  destruct (is_percentage key value); split; congruence.
Qed.

(** Multiplication by [100] never raises, so the conversion to percentages
    always returns. *)
Lemma convert_fractions_to_percentages_total (data : pydict) :
  is_Ok (_convert_fractions_to_percentages data).
Proof.
  apply dict_comprehension_total. intros k v _.
  unfold fraction_to_percentage. destruct (is_percentage k v); by eexists.
Qed.

(** The conversion to fractions raises nothing but the [OverflowError] of a
    division, and only on an [int] (or [bool]) under a probability key. *)
Lemma convert_percentages_to_fractions_Raise (data : pydict) (e : exn) :
  _convert_percentages_to_fractions data = Raise e →
  e = OverflowError ∧
  ∃ key value, data !! key = Some value ∧ is_percentage key value = true
               ∧ truediv_100 value = Raise OverflowError.
Proof.
  intros (k & v & Hk & Hf)%dict_comprehension_Raise.
  unfold percentage_to_fraction in Hf.
  destruct (is_percentage k v) eqn:Hp; [|discriminate].
  assert (e = OverflowError) as ->.
  { eapply truediv_100_Raise; [|done].
    unfold is_percentage in Hp. by apply andb_true_iff in Hp as [? _]. }
  split; [done|]. by exists k, v.
Qed.

(** The conversion to fractions, entry by entry. *)
Lemma convert_percentages_to_fractions_Ok (data out : pydict) :
  _convert_percentages_to_fractions data = Ok out ↔
    dom out = dom data ∧
    ∀ key value, data !! key = Some value →
      if is_percentage key value
      then ∃ q, truediv_100 value = Ok q ∧ out !! key = Some q
      else out !! key = Some value.
Proof.
  unfold _convert_percentages_to_fractions.
  rewrite dict_comprehension_pointwise.
  split; intros [Hdom Hall]; (split; [done|]); intros key value Hk;
    specialize (Hall key value Hk).
  - destruct Hall as (b & Hb & Hout). rewrite percentage_to_fraction_Ok in Hb.
    destruct (is_percentage key value); [by exists b | by subst].
  - destruct (is_percentage key value) eqn:Hp.
    + destruct Hall as (q & Hq & Hout). exists q. split; [|done].
      rewrite percentage_to_fraction_Ok. by rewrite Hp.
    + exists value. split; [|done].
      rewrite percentage_to_fraction_Ok. by rewrite Hp.
Qed.

(** The conversion to percentages, entry by entry. *)
Lemma convert_fractions_to_percentages_Ok (data out : pydict) :
  _convert_fractions_to_percentages data = Ok out ↔
    dom out = dom data ∧
    ∀ key value, data !! key = Some value →
      out !! key = Some (if is_percentage key value then mul_100 value else value).
Proof.
  unfold _convert_fractions_to_percentages.
  rewrite dict_comprehension_pointwise.
  split; intros [Hdom Hall]; (split; [done|]); intros key value Hk;
    specialize (Hall key value Hk).
  - destruct Hall as (b & Hb & Hout). rewrite fraction_to_percentage_Ok in Hb.
    by subst.
  - eexists. split; [|done]. by rewrite fraction_to_percentage_Ok.
Qed.

(** The conversion to fractions returns when every division it makes is
    defined. *)
Lemma convert_percentages_to_fractions_total (data : pydict) :
  (∀ key value, data !! key = Some value → is_percentage key value = true →
     is_Ok (truediv_100 value)) →
  is_Ok (_convert_percentages_to_fractions data).
Proof.
  intros Hdef. apply dict_comprehension_total. intros k v Hk.
  unfold percentage_to_fraction.
  destruct (is_percentage k v) eqn:Hp; [by apply (Hdef k v) | by eexists].
Qed.

Lemma is_percentage_true (key : string) (value : pyval) :
  is_percentage key value = true ↔
    isinstance_int_float value = true ∧ key ∈ probability_keys.
Proof.
  unfold is_percentage. rewrite andb_true_iff, bool_decide_eq_true. done.
Qed.

Lemma is_percentage_false (key : string) (value : pyval) :
  is_percentage key value = false ↔
    isinstance_int_float value = false ∨ key ∉ probability_keys.
Proof.
  unfold is_percentage. rewrite andb_false_iff, bool_decide_eq_false. done.
Qed.

(** [z / 100] on a whole percentage is [float(z) / 100.0]. *)
Lemma int_truediv_percent (z : Z) :
  0 ≤ z ≤ 100 →
  SF2Prim (SFdiv prec emax (Z2SF z) (Z2SF 100))
  = PrimFloat.div (PrimFloat.of_uint63 (Uint63.of_Z z)) 100%float.
Proof.
  intros Hz.
  assert (Hall : Forall (λ n, SF2Prim (SFdiv prec emax (Z2SF (Z.of_nat n)) (Z2SF 100))
                              = PrimFloat.div
                                  (PrimFloat.of_uint63 (Uint63.of_Z (Z.of_nat n)))
                                  100%float) (seq 0 101)).
  { repeat (constructor; [vm_compute; reflexivity|]). constructor. }
  rewrite Forall_forall in Hall.
  specialize (Hall (Z.to_nat z)). rewrite Z2Nat.id in Hall by lia.
  apply Hall. apply elem_of_seq. lia.
Qed.

Lemma int_truediv_Ok (a b : Z) (q : float) :
  int_truediv a b = Ok q → q = SF2Prim (SFdiv prec emax (Z2SF a) (Z2SF b)).
Proof.
  unfold int_truediv. destruct (SFdiv _ _ _ _); intros [= <-]; done.
Qed.

(** Settles a decidable closed proposition by running its decision. *)
Ltac decides := apply (bool_decide_unpack _); vm_compute; exact I.

(** [fraction_entry Hall] proves what the conversion to fractions holds
    under a key, spelled out on the four keys and on the division, from the
    entry [Hall] as the comprehension computes it. *)
Ltac fraction_entry Hall :=
  unfold is_percentage in Hall;
  change percentages
    with ["prob_given_true"; "prob_given_false"; "prior"; "probability_threshold"]
    in Hall;
  split;
  [ let Hother := fresh "Hother" in
    intros Hother;
    rewrite (bool_decide_eq_false_2 _ Hother), andb_false_r in Hall; exact Hall
  | let Hin := fresh "Hin" in
    let q := fresh "q" in
    let Hq := fresh "Hq" in
    let E := fresh "E" in
    intros Hin;
    rewrite (bool_decide_eq_true_2 _ Hin), andb_true_r in Hall;
    match type of Hall with
    | context [isinstance_int_float ?value] =>
        destruct value as [|[]|?z|?f|?s];
        cbn [isinstance_int_float] in Hall; cbv iota in Hall
    end;
    [ exact Hall
    | destruct Hall as (q & Hq & ->); vm_compute in Hq; injection Hq as <-;
      reflexivity
    | destruct Hall as (q & Hq & ->); vm_compute in Hq; injection Hq as <-;
      reflexivity
    | destruct Hall as (q & Hq & ->);
      cbn [truediv_100] in Hq;
      destruct (int_truediv _ 100) as [?q'|] eqn:E in Hq;
      cbn [fmap result_fmap] in Hq; [|discriminate Hq];
      injection Hq as <-; apply int_truediv_Ok in E as ->;
      (split; [reflexivity|intros ?; f_equal; f_equal;
                           by apply int_truediv_percent])
    | destruct Hall as (q & Hq & ->);
      cbn [truediv_100] in Hq; injection Hq as <-; reflexivity
    | exact Hall ] ].

(** [percentage_entry Hall], likewise for the conversion to percentages and
    the multiplication. *)
Ltac percentage_entry Hall :=
  unfold is_percentage in Hall;
  change percentages
    with ["prob_given_true"; "prob_given_false"; "prior"; "probability_threshold"]
    in Hall;
  split;
  [ let Hother := fresh "Hother" in
    intros Hother;
    rewrite (bool_decide_eq_false_2 _ Hother), andb_false_r in Hall; exact Hall
  | let Hin := fresh "Hin" in
    intros Hin;
    rewrite (bool_decide_eq_true_2 _ Hin), andb_true_r in Hall;
    match type of Hall with
    | context [isinstance_int_float ?value] =>
        destruct value as [|[]|?z|?f|?s];
        cbn [isinstance_int_float mul_100] in Hall; cbv iota in Hall
    end; exact Hall ].

(** Spells out the four keys in a hypothesis on [is_percentage]. *)
Ltac percentage_keys_in H :=
  unfold is_percentage in H;
  change percentages
    with ["prob_given_true"; "prob_given_false"; "prior"; "probability_threshold"]
    in H.

(** What the conversion to fractions returns, entry by entry: the goal
    [∀ out, _convert_percentages_to_fractions data = Ok out → ...]. *)
Ltac fractions_entries :=
  let out := fresh "out" in
  let Hdom := fresh "Hdom" in
  let Hall := fresh "Hall" in
  let key := fresh "key" in
  let value := fresh "value" in
  let Hkey := fresh "Hkey" in
  intros out [Hdom Hall]%convert_percentages_to_fractions_Ok;
  split; [exact Hdom|]; intros key value Hkey;
  specialize (Hall key value Hkey); fraction_entry Hall.

(** When the conversion to fractions returns: the goal
    [is_Ok (_convert_percentages_to_fractions data) ↔ ...]. *)
Ltac fractions_returns :=
  let out := fresh "out" in
  let Hall := fresh "Hall" in
  let key := fresh "key" in
  let value := fresh "value" in
  let z := fresh "z" in
  let Hin := fresh "Hin" in
  let Hkey := fresh "Hkey" in
  let Hfinite := fresh "Hfinite" in
  let Hp := fresh "Hp" in
  let Hnum := fresh "Hnum" in
  let q := fresh "q" in
  let Hq := fresh "Hq" in
  split;
  [ intros [out [_ Hall]%convert_percentages_to_fractions_Ok] key z Hin Hkey;
    specialize (Hall key _ Hkey); percentage_keys_in Hall;
    rewrite (bool_decide_eq_true_2 _ Hin) in Hall;
    destruct Hall as (q & Hq & _); cbn [truediv_100] in Hq;
    unfold int_truediv in Hq;
    destruct (SFdiv prec emax (Z2SF z) (Z2SF 100));
    (exact I || discriminate Hq)
  | intros Hfinite; apply convert_percentages_to_fractions_total;
    intros key value Hkey Hp; percentage_keys_in Hp;
    apply andb_true_iff in Hp as [Hnum Hin%bool_decide_eq_true];
    destruct value as [|[]|z| |]; try discriminate Hnum;
    [ evaluates
    | evaluates
    | specialize (Hfinite key z Hin Hkey); cbn [truediv_100];
      unfold int_truediv;
      destruct (SFdiv prec emax (Z2SF z) (Z2SF 100));
      (by destruct Hfinite) || (eexists; reflexivity)
    | eexists; reflexivity ] ].

(** The conversion to fractions returns on the whole percentages: the goal
    [(∀ key z, ... → 0 ≤ z ≤ 100) → is_Ok (...)]. *)
Ltac fractions_whole :=
  let key := fresh "key" in
  let value := fresh "value" in
  let z := fresh "z" in
  let Hin := fresh "Hin" in
  let Hkey := fresh "Hkey" in
  let Hwhole := fresh "Hwhole" in
  let Hp := fresh "Hp" in
  let Hnum := fresh "Hnum" in
  intros Hwhole; apply convert_percentages_to_fractions_total;
  intros key value Hkey Hp; percentage_keys_in Hp;
  apply andb_true_iff in Hp as [Hnum Hin%bool_decide_eq_true];
  destruct value as [|[]|z| |]; try discriminate Hnum;
  [ evaluates
  | evaluates
  | apply truediv_100_percent; by apply (Hwhole key)
  | eexists; reflexivity ].

(** [percentage_at H] computes, in an entry [H] of the conversion to
    percentages at one of the four keys, the condition of the
    comprehension. *)
Ltac percentage_at H :=
  percentage_keys_in H;
  match type of H with
  | context [bool_decide (?k ∈ ?l)] =>
      let Hin := fresh "Hin" in
      assert (Hin : k ∈ l) by decides;
      rewrite (bool_decide_eq_true_2 _ Hin) in H; clear Hin
  end;
  cbn [isinstance_int_float mul_100 andb] in H.

(** What the conversion to percentages returns, spelled out. *)
Lemma convert_fractions_to_percentages_explicit (data : pydict) :
  ∃ out,
    _convert_fractions_to_percentages data = Ok out
    ∧ dom out = dom data
    ∧ ∀ key value, data !! key = Some value →
        (key ∉ probability_keys → out !! key = Some value)
        ∧ (key ∈ probability_keys →
           match value with
           | VFloat f => out !! key = Some (VFloat (PrimFloat.mul f 100%float))
           | VInt z => out !! key = Some (VInt (z * 100))
           | VBool b => out !! key = Some (VInt (if b then 100 else 0))
           | VNone | VStr _ => out !! key = Some value
           end).
Proof.
  destruct (convert_fractions_to_percentages_total data) as [out Hout].
  exists out. split; [exact Hout|].
  apply convert_fractions_to_percentages_Ok in Hout as [Hdom Hall].
  split; [exact Hdom|]. intros key value Hkey. specialize (Hall key value Hkey).
  unfold probability_keys. percentage_entry Hall.
Qed.

(** C4. Both conversions keep the key set of the input and touch only the
    numbers under the four probability keys ["prob_given_true"],
    ["prob_given_false"], ["prior"] and ["probability_threshold"]; every
    other entry, under another key or holding [None] or a string under one
    of the four, is returned as it is.
    [_convert_percentages_to_fractions] holds under such a key the quotient
    by [100]: for a [float f] the float [f / 100.0], for an [int z] the
    float nearest to [z / 100] (which for a whole percentage is
    [float(z) / 100.0]), for a [bool] the quotient of [1] or [0]. It returns
    exactly when no [int] under a probability key has a quotient too large
    for a [float]; so it does on the whole percentages.
    [_convert_fractions_to_percentages] always returns, and holds under such
    a key the product by [100]: for a [float f] the float [f * 100.0], for
    an [int z] the [int] [z * 100], for a [bool] the [int] [100] or [0]. *)
Theorem convert_entries_spec (data : pydict) :
  let probability_keys :=
    ["prob_given_true"; "prob_given_false"; "prior"; "probability_threshold"] in
  (∀ out, _convert_percentages_to_fractions data = Ok out →
     dom out = dom data
     ∧ ∀ key value, data !! key = Some value →
         (key ∉ probability_keys → out !! key = Some value)
         ∧ (key ∈ probability_keys →
            match value with
            | VFloat f => out !! key = Some (VFloat (PrimFloat.div f 100%float))
            | VInt z =>
                out !! key
                = Some (VFloat (SF2Prim (SFdiv prec emax (Z2SF z) (Z2SF 100))))
                ∧ (0 ≤ z ≤ 100 →
                   out !! key
                   = Some (VFloat (PrimFloat.div
                                     (PrimFloat.of_uint63 (Uint63.of_Z z))
                                     100%float)))
            | VBool b =>
                out !! key
                = Some (VFloat (PrimFloat.div (if b then 1%float else 0%float)
                                              100%float))
            | VNone | VStr _ => out !! key = Some value
            end))
  ∧ (is_Ok (_convert_percentages_to_fractions data) ↔
       ∀ key z, key ∈ probability_keys → data !! key = Some (VInt z) →
         match SFdiv prec emax (Z2SF z) (Z2SF 100) with
         | S754_infinity _ | S754_nan => False
         | _ => True
         end)
  ∧ ((∀ key z, key ∈ probability_keys → data !! key = Some (VInt z) →
        0 ≤ z ≤ 100) →
     is_Ok (_convert_percentages_to_fractions data))
  ∧ (∃ out,
       _convert_fractions_to_percentages data = Ok out
       ∧ dom out = dom data
       ∧ ∀ key value, data !! key = Some value →
           (key ∉ probability_keys → out !! key = Some value)
           ∧ (key ∈ probability_keys →
              match value with
              | VFloat f => out !! key = Some (VFloat (PrimFloat.mul f 100%float))
              | VInt z => out !! key = Some (VInt (z * 100))
              | VBool b => out !! key = Some (VInt (if b then 100 else 0))
              | VNone | VStr _ => out !! key = Some value
              end)).
Proof.
  intros keys. split; [|split; [|split]].
  - fractions_entries.
  - fractions_returns.
  - fractions_whole.
  - destruct (convert_fractions_to_percentages_total data) as [out Hout].
    exists out. split; [exact Hout|].
    apply convert_fractions_to_percentages_Ok in Hout as [Hdom Hall].
    split; [exact Hdom|]. intros key value Hkey.
    specialize (Hall key value Hkey). percentage_entry Hall.
Qed.

(** C4 at a form that holds a number under each of the four keys (two
    [float]s, an [int], a [bool]) and a number and a text under other keys:
    both conversions computed, [50.0] becoming [0.5] and [5000.0], and
    entry by entry; and at a text under a probability key, which both
    return as it is. *)
Lemma convert_entries_spec_witness :
  let data : pydict :=
    {[ "prior" := VFloat 50; "probability_threshold" := VInt 30;
       "prob_given_true" := VFloat 10; "prob_given_false" := VBool true;
       "name" := VStr "door"; "above" := VFloat 75 ]} in
  let fractions : pydict :=
    {[ "prior" := VFloat 0x1p-1;
       "probability_threshold" := VFloat 0x1.3333333333333p-2;
       "prob_given_true" := VFloat 0x1.999999999999ap-4;
       "prob_given_false" := VFloat 0x1.47ae147ae147bp-7;
       "name" := VStr "door"; "above" := VFloat 75 ]} in
  let percentages : pydict :=
    {[ "prior" := VFloat 5000; "probability_threshold" := VInt 3000;
       "prob_given_true" := VFloat 1000; "prob_given_false" := VInt 100;
       "name" := VStr "door"; "above" := VFloat 75 ]} in
  let text : pydict := {[ "prior" := VStr "n/a" ]} in
  _convert_percentages_to_fractions data = Ok fractions
  ∧ _convert_fractions_to_percentages data = Ok percentages
  ∧ _convert_percentages_to_fractions text = Ok text
  ∧ _convert_fractions_to_percentages text = Ok text
  ∧ (∃ out,
       _convert_percentages_to_fractions data = Ok out
       ∧ dom out = dom data
       ∧ out !! "prior" = Some (VFloat 0x1p-1)
       ∧ out !! "probability_threshold" = Some (VFloat 0x1.3333333333333p-2)
       ∧ out !! "prob_given_true" = Some (VFloat 0x1.999999999999ap-4)
       ∧ out !! "prob_given_false" = Some (VFloat 0x1.47ae147ae147bp-7)
       ∧ out !! "name" = Some (VStr "door")
       ∧ out !! "above" = Some (VFloat 75))
  ∧ (∃ out,
       _convert_fractions_to_percentages data = Ok out
       ∧ dom out = dom data
       ∧ out !! "prior" = Some (VFloat 5000)
       ∧ out !! "probability_threshold" = Some (VInt 3000)
       ∧ out !! "prob_given_true" = Some (VFloat 1000)
       ∧ out !! "prob_given_false" = Some (VInt 100)
       ∧ out !! "name" = Some (VStr "door")
       ∧ out !! "above" = Some (VFloat 75)).
Proof.
  intros data fractions percentages text.
  assert (Hfractions : _convert_percentages_to_fractions data = Ok fractions)
    by (vm_compute; reflexivity).
  split; [exact Hfractions|].
  split; [vm_compute; reflexivity|].
  split; [vm_compute; reflexivity|].
  split; [vm_compute; reflexivity|].
  destruct (convert_entries_spec data) as (Hspec & _ & _ & Hpercentages).
  split.
  - exists fractions. split; [exact Hfractions|].
    destruct (Hspec fractions Hfractions) as [Hdom Hall]. split; [exact Hdom|].
    split; [|split; [|split; [|split; [|split]]]].
    + destruct (Hall "prior" (VFloat 50) eq_refl) as [_ H].
      exact (H ltac:(decides)).
    + destruct (Hall "probability_threshold" (VInt 30) eq_refl) as [_ H].
      exact (proj1 (H ltac:(decides))).
    + destruct (Hall "prob_given_true" (VFloat 10) eq_refl) as [_ H].
      exact (H ltac:(decides)).
    + destruct (Hall "prob_given_false" (VBool true) eq_refl) as [_ H].
      exact (H ltac:(decides)).
    + destruct (Hall "name" (VStr "door") eq_refl) as [H _].
      exact (H ltac:(decides)).
    + destruct (Hall "above" (VFloat 75) eq_refl) as [H _].
      exact (H ltac:(decides)).
  - destruct Hpercentages as (out & Hrun & Hdom & Hall).
    exists out. split; [exact Hrun|]. split; [exact Hdom|].
    split; [|split; [|split; [|split; [|split]]]].
    + destruct (Hall "prior" (VFloat 50) eq_refl) as [_ H].
      exact (H ltac:(decides)).
    + destruct (Hall "probability_threshold" (VInt 30) eq_refl) as [_ H].
      exact (H ltac:(decides)).
    + destruct (Hall "prob_given_true" (VFloat 10) eq_refl) as [_ H].
      exact (H ltac:(decides)).
    + destruct (Hall "prob_given_false" (VBool true) eq_refl) as [_ H].
      exact (H ltac:(decides)).
    + destruct (Hall "name" (VStr "door") eq_refl) as [H _].
      exact (H ltac:(decides)).
    + destruct (Hall "above" (VFloat 75) eq_refl) as [H _].
      exact (H ltac:(decides)).
Defined.

(* ===================================================================== *)
(** ** Properties: the round trip *)
(* ===================================================================== *)

Lemma roundtrip_Ok (data back : pydict) :
  roundtrip data = Ok back ↔
    ∃ fractions, _convert_percentages_to_fractions data = Ok fractions
                 ∧ _convert_fractions_to_percentages fractions = Ok back.
Proof. unfold roundtrip. apply rbind_Ok. Qed.

(** A quotient is a number, so it is multiplied back. *)
Lemma is_percentage_quotient (key : string) (value q : pyval) :
  is_percentage key value = true → truediv_100 value = Ok q →
  is_percentage key q = true.
Proof.
  unfold is_percentage. intros [_ Hkey]%andb_true_iff [f ->]%truediv_100_Ok.
  by rewrite Hkey.
Qed.

(** C3, refuted as stated: a prior of seven percent comes back from the
    round trip as the next float above [7], which is not [==] to [7]. *)
Lemma roundtrip_seven_percent :
  let data : pydict := {[ CONF_PRIOR := VFloat 7 ]} in
  let back : pydict := {[ CONF_PRIOR := VFloat 0x1.c000000000001p+2 ]} in
  roundtrip data = Ok back ∧ dict_eq back data = false.
Proof. split; vm_compute; reflexivity. Qed.

(** C3, as amended. The round trip returns [back] exactly when [back] has
    the key set of the input, holds every entry that is not a number under
    one of the four probability keys as it was, and holds, for a number
    [value] under one of them, the float [(value / 100) * 100] with both
    operations rounded. Among the whole percentages [0] to [100], as [int]
    or as [float], that float is [==] to [value] for all but [7], [14],
    [28], [29], [55], [56], [57] and [58]. *)
Theorem roundtrip_spec (data : pydict) :
  (∀ back, roundtrip data = Ok back ↔
     dom back = dom data ∧
     ∀ key value, data !! key = Some value →
       if is_percentage key value
       then ∃ f, truediv_100 value = Ok (VFloat f)
                 ∧ back !! key = Some (VFloat (PrimFloat.mul f float_100))
       else back !! key = Some value)
  ∧ (∀ z, 0 ≤ z ≤ 100 →
       roundtrips (VInt z) = negb (bool_decide (z ∈ inexact_percentages))
       ∧ roundtrips (VFloat (float_of_int z))
         = negb (bool_decide (z ∈ inexact_percentages))).
Proof.
  split.
  - intros back. rewrite roundtrip_Ok. split.
    + intros (fr & Hfr & Hback).
      apply convert_percentages_to_fractions_Ok in Hfr as [Hdom1 Hall1].
      apply convert_fractions_to_percentages_Ok in Hback as [Hdom2 Hall2].
      split; [congruence|]. intros key value Hk. specialize (Hall1 key value Hk).
      destruct (is_percentage key value) eqn:Hp.
      * destruct Hall1 as (q & Hq & Hfrk).
        pose proof (is_percentage_quotient _ _ _ Hp Hq) as Hpq.
        destruct (truediv_100_Ok _ _ Hq) as [f ->]. exists f. split; [done|].
        rewrite (Hall2 key (VFloat f) Hfrk), Hpq. reflexivity.
      * rewrite (Hall2 key value Hall1), Hp. reflexivity.
    + intros [Hdom Hall].
      destruct (convert_percentages_to_fractions_total data) as [fr Hfr].
      { intros key value Hk Hp. specialize (Hall key value Hk).
        rewrite Hp in Hall. destruct Hall as (f & Hq & _). by eexists. }
      exists fr. split; [done|].
      apply convert_fractions_to_percentages_Ok.
      apply convert_percentages_to_fractions_Ok in Hfr as [Hdom1 Hall1].
      split; [congruence|].
      intros key q Hfrk.
      assert (is_Some (data !! key)) as [value Hk].
      { apply elem_of_dom. rewrite <- Hdom1. apply elem_of_dom. eauto. }
      specialize (Hall key value Hk). specialize (Hall1 key value Hk).
      destruct (is_percentage key value) eqn:Hp.
      * destruct Hall as (f & Hq & Hback). destruct Hall1 as (q' & Hq' & Hfrk').
        assert (q = VFloat f) as -> by congruence.
        rewrite (is_percentage_quotient _ _ _ Hp Hq). exact Hback.
      * assert (q = value) as -> by congruence. by rewrite Hp.
  - intros z Hz.
    assert (Hall : Forall
              (λ n, roundtrips (VInt (Z.of_nat n))
                    = negb (bool_decide (Z.of_nat n ∈ inexact_percentages))
                  ∧ roundtrips (VFloat (float_of_int (Z.of_nat n)))
                    = negb (bool_decide (Z.of_nat n ∈ inexact_percentages)))
              (seq 0 101)).
    { repeat (constructor; [split; vm_compute; reflexivity|]). constructor. }
    rewrite Forall_forall in Hall.
    specialize (Hall (Z.to_nat z)). rewrite Z2Nat.id in Hall by lia.
    apply Hall. apply elem_of_seq. lia.
Qed.

(** C3 as amended, at the forms [{"prior": 50.0, "name": "door"}] (which
    comes back as it was) and [{"prior": 7}]. *)
Lemma roundtrip_spec_witness :
  roundtrip {[ CONF_PRIOR := VFloat 50; CONF_NAME := VStr "door" ]}
    = Ok {[ CONF_PRIOR := VFloat 50; CONF_NAME := VStr "door" ]}
  ∧ roundtrips (VInt 50) = true
  ∧ roundtrips (VInt 7) = false.
Proof.
  pose (data := ({[ CONF_PRIOR := VFloat 50; CONF_NAME := VStr "door" ]} : pydict)).
  destruct (roundtrip_spec data) as [Hrt Hwhole].
  split; [|split].
  - apply Hrt. split; [done|]. intros key value Hk.
    apply lookup_insert_Some in Hk as [[<- <-]|[Hne Hk]].
    + exists (PrimFloat.div 50 100). split; vm_compute; reflexivity.
    + apply lookup_singleton_Some in Hk as [<- <-]. reflexivity.
  - destruct (Hwhole 50) as [-> _]; [lia | reflexivity].
  - destruct (Hwhole 7) as [-> _]; [lia | reflexivity].
Defined.

(* ===================================================================== *)
(** ** Properties: [_validate_user] *)
(* ===================================================================== *)

Lemma rbind_ret {A} (r : result A) : r ≫= Ok = r.
Proof. by destruct r. Qed.

(** [_validate_user] with its two lookups resolved: the four tests in the
    order of the source, then the conversion. *)
Lemma validate_user_unfold (handler : options_dict) (user_input : pydict)
    (prior threshold : pyval) :
  user_input !! CONF_PRIOR = Some prior →
  user_input !! CONF_PROBABILITY_THRESHOLD = Some threshold →
  _validate_user handler user_input =
    if py_eq prior (VInt 0) then Raise (SchemaFlowError "prior_low_error")
    else if py_eq prior (VInt 100) then Raise (SchemaFlowError "prior_high_error")
    else if py_eq threshold (VInt 0) then Raise (SchemaFlowError "threshold_low_error")
    else if py_eq threshold (VInt 100) then Raise (SchemaFlowError "threshold_high_error")
    else _convert_percentages_to_fractions user_input.
Proof.
  intros Hp Ht. unfold _validate_user, getitem. rewrite Hp, Ht. simpl.
  repeat (case_match; [reflexivity|]). apply rbind_ret.
Qed.

(** C2. For a user input holding a prior and a threshold, [_validate_user]
    raises [SchemaFlowError] exactly when the prior is [0] or [100] or the
    threshold is [0] or [100], with the error key of the first test that
    fires, in the order prior low, prior high, threshold low, threshold
    high. Otherwise what it returns has the keys of the input, holds under
    ["prob_given_true"], ["prob_given_false"], ["prior"] and
    ["probability_threshold"] the quotient by [100] of the number there
    (for a [float f] the float [f / 100.0], for an [int z] the float nearest
    to [z / 100], which for a whole percentage is [float(z) / 100.0]), and
    holds every other entry of the input as it is. It then returns exactly
    when no [int] under one of the four keys has a quotient too large for a
    [float], so it does on the whole percentages; otherwise it raises
    [OverflowError]. *)
Theorem validate_user_spec (handler : options_dict) (user_input : pydict)
    (prior threshold : pyval) :
  let probability_keys :=
    ["prob_given_true"; "prob_given_false"; "prior"; "probability_threshold"] in
  user_input !! CONF_PRIOR = Some prior →
  user_input !! CONF_PROBABILITY_THRESHOLD = Some threshold →
  (∀ key, _validate_user handler user_input = Raise (SchemaFlowError key) ↔
       (key = "prior_low_error" ∧ py_eq prior (VInt 0) = true)
     ∨ (key = "prior_high_error" ∧ py_eq prior (VInt 100) = true)
     ∨ (key = "threshold_low_error"
        ∧ py_eq prior (VInt 0) = false ∧ py_eq prior (VInt 100) = false
        ∧ py_eq threshold (VInt 0) = true)
     ∨ (key = "threshold_high_error"
        ∧ py_eq prior (VInt 0) = false ∧ py_eq prior (VInt 100) = false
        ∧ py_eq threshold (VInt 100) = true))
  ∧ ((∃ key, _validate_user handler user_input = Raise (SchemaFlowError key)) ↔
       py_eq prior (VInt 0) = true ∨ py_eq prior (VInt 100) = true
       ∨ py_eq threshold (VInt 0) = true ∨ py_eq threshold (VInt 100) = true)
  ∧ (py_eq prior (VInt 0) = false → py_eq prior (VInt 100) = false →
     py_eq threshold (VInt 0) = false → py_eq threshold (VInt 100) = false →
     (∀ out, _validate_user handler user_input = Ok out →
        dom out = dom user_input
        ∧ ∀ key value, user_input !! key = Some value →
            (key ∉ probability_keys → out !! key = Some value)
            ∧ (key ∈ probability_keys →
               match value with
               | VFloat f => out !! key = Some (VFloat (PrimFloat.div f 100%float))
               | VInt z =>
                   out !! key
                   = Some (VFloat (SF2Prim (SFdiv prec emax (Z2SF z) (Z2SF 100))))
                   ∧ (0 ≤ z ≤ 100 →
                      out !! key
                      = Some (VFloat (PrimFloat.div
                                        (PrimFloat.of_uint63 (Uint63.of_Z z))
                                        100%float)))
               | VBool b =>
                   out !! key
                   = Some (VFloat (PrimFloat.div (if b then 1%float else 0%float)
                                                 100%float))
               | VNone | VStr _ => out !! key = Some value
               end))
     ∧ (is_Ok (_validate_user handler user_input) ↔
          ∀ key z, key ∈ probability_keys → user_input !! key = Some (VInt z) →
            match SFdiv prec emax (Z2SF z) (Z2SF 100) with
            | S754_infinity _ | S754_nan => False
            | _ => True
            end)
     ∧ ((∀ key z, key ∈ probability_keys → user_input !! key = Some (VInt z) →
           0 ≤ z ≤ 100) →
        is_Ok (_validate_user handler user_input))
     ∧ (∀ e, _validate_user handler user_input = Raise e → e = OverflowError)).
Proof.
  intros keys Hp Ht. rewrite (validate_user_unfold _ _ _ _ Hp Ht).
  pose proof (py_eq_0_100 prior) as Hprior.
  pose proof (py_eq_0_100 threshold) as Hthreshold.
  assert (Hconv : ∀ key, _convert_percentages_to_fractions user_input
                         ≠ Raise (SchemaFlowError key)).
  { intros key [[=] _]%convert_percentages_to_fractions_Raise. }
  destruct (py_eq prior (VInt 0)) eqn:Hp0; [|destruct (py_eq prior (VInt 100)) eqn:Hp100;
    [|destruct (py_eq threshold (VInt 0)) eqn:Ht0;
      [|destruct (py_eq threshold (VInt 100)) eqn:Ht100]]].
  all: split; [intros key; split;
                 [intros Hr; try (by destruct (Hconv key)); injection Hr as <-; tauto
                 |intros H; try (exfalso; by intuition); intuition congruence]
              |split; [split; [intros [key Hr]; try (by destruct (Hconv key)); tauto
                              |intros H; try (exfalso; by intuition); by eexists]
                      |intros; try congruence]].
  split; [|split; [|split]].
  - fractions_entries.
  - fractions_returns.
  - fractions_whole.
  - intros e He. by apply convert_percentages_to_fractions_Raise in He as [-> _].
Qed.

(** C2 at three forms: a prior of [0.0], rejected as too low; a threshold
    of [100], rejected as too high; and a prior of 30 % with a threshold of
    50 %, returned as the fractions [0.3] and [0.5] beside the untouched
    name. *)
Lemma validate_user_spec_witness :
  let low : pydict :=
    {[ "prior" := VFloat 0; "probability_threshold" := VInt 50 ]} in
  let high : pydict :=
    {[ "prior" := VFloat 30; "probability_threshold" := VInt 100 ]} in
  let accepted : pydict :=
    {[ "prior" := VFloat 30; "probability_threshold" := VInt 50;
       "name" := VStr "bayes" ]} in
  let fractions : pydict :=
    {[ "prior" := VFloat 0x1.3333333333333p-2;
       "probability_threshold" := VFloat 0x1p-1;
       "name" := VStr "bayes" ]} in
  _validate_user ∅ low = Raise (SchemaFlowError "prior_low_error")
  ∧ _validate_user ∅ high = Raise (SchemaFlowError "threshold_high_error")
  ∧ _validate_user ∅ accepted = Ok fractions
  ∧ is_Ok (_validate_user ∅ accepted)
  ∧ ∃ out,
      _validate_user ∅ accepted = Ok out
      ∧ dom out = dom accepted
      ∧ out !! "prior" = Some (VFloat 0x1.3333333333333p-2)
      ∧ out !! "probability_threshold" = Some (VFloat 0x1p-1)
      ∧ out !! "name" = Some (VStr "bayes").
Proof.
  intros low high accepted fractions.
  assert (Hrun : _validate_user ∅ accepted = Ok fractions)
    by (vm_compute; reflexivity).
  split; [|split; [|split; [exact Hrun|]]].
  - destruct (validate_user_spec ∅ low (VFloat 0) (VInt 50) eq_refl eq_refl)
      as (Hkey & _ & _).
    apply Hkey. left. split; reflexivity.
  - destruct (validate_user_spec ∅ high (VFloat 30) (VInt 100) eq_refl eq_refl)
      as (Hkey & _ & _).
    apply Hkey. right. right. right. repeat split; vm_compute; reflexivity.
  - destruct (validate_user_spec ∅ accepted (VFloat 30) (VInt 50) eq_refl eq_refl)
      as (_ & _ & Hreturn).
    destruct Hreturn as (Hout & _ & Hwhole & _); try (vm_compute; reflexivity).
    split.
    { apply Hwhole. intros key z _ Hz.
      assert (Hlookup : ∀ v, accepted !! key = Some v → v = VInt z → z = 50).
      { intros v Hv ->. unfold accepted in Hv.
        apply lookup_insert_Some in Hv as [[_ [=]]|[_ Hv]].
        apply lookup_insert_Some in Hv as [[_ Hv]|[_ Hv]]; [by injection Hv|].
        apply lookup_singleton_Some in Hv as [_ [=]]. }
      rewrite (Hlookup _ Hz eq_refl). lia. }
    exists fractions. split; [exact Hrun|].
    destruct (Hout fractions Hrun) as [Hdom Hall]. split; [exact Hdom|].
    split; [|split].
    + destruct (Hall "prior" (VFloat 30) eq_refl) as [_ H].
      exact (H ltac:(decides)).
    + destruct (Hall "probability_threshold" (VInt 50) eq_refl) as [_ H].
      exact (proj1 (H ltac:(decides))).
    + destruct (Hall "name" (VStr "bayes") eq_refl) as [H _].
      exact (H ltac:(decides)).
Defined.

(* ===================================================================== *)
(** ** Properties: [_validate_observation_setup] *)
(* ===================================================================== *)

(** One step of the monad at a time. *)
Lemma bind_getitem {A} (key : string) (k : pyval → M A) (s : store) (v : pyval) :
  passed_input s !! key = Some v → (user_input_getitem key ≫= k) s = k v s.
Proof.
  intros Hv. unfold mbind, M_bind, bind, user_input_getitem, getitem.
  by rewrite Hv.
Qed.

Lemma bind_getitem_missing {A} (key : string) (k : pyval → M A) (s : store) :
  passed_input s !! key = None →
  (user_input_getitem key ≫= k) s = (Raise (KeyError key), s).
Proof.
  intros Hv. unfold mbind, M_bind, bind, user_input_getitem, getitem.
  by rewrite Hv.
Qed.

Lemma bind_pass {A} (c : bool) (k : M A) (s : store) :
  ((if c then ret () else ret ());; k) s = k s.
Proof. by destruct c. Qed.

(** The function up to its first test. *)
Lemma validate_observation_setup_equal (s : store) (p_given_t p_given_f : pyval) :
  passed_input s !! CONF_P_GIVEN_T = Some p_given_t →
  passed_input s !! CONF_P_GIVEN_F = Some p_given_f →
  py_eq p_given_t p_given_f = true →
  _validate_observation_setup s = (Raise (SchemaFlowError "equal_probabilities"), s).
Proof.
  intros Ht Hf Heq. unfold _validate_observation_setup.
  rewrite (bind_getitem _ _ _ _ Ht), (bind_getitem _ _ _ _ Hf), Heq.
  reflexivity.
Qed.

(** A missing platform is a [KeyError], raised before anything is written. *)
Lemma validate_observation_setup_no_platform (s : store) (p_given_t p_given_f : pyval) :
  passed_input s !! CONF_P_GIVEN_T = Some p_given_t →
  passed_input s !! CONF_P_GIVEN_F = Some p_given_f →
  py_eq p_given_t p_given_f = false →
  passed_input s !! CONF_PLATFORM = None →
  _validate_observation_setup s = (Raise (KeyError CONF_PLATFORM), s).
Proof.
  intros Ht Hf Heq Hp. unfold _validate_observation_setup.
  rewrite (bind_getitem _ _ _ _ Ht), (bind_getitem _ _ _ _ Hf), Heq.
  by rewrite (bind_getitem_missing _ _ _ Hp).
Qed.

(** Past the tests, the function is [store_observation]. *)
Lemma validate_observation_setup_unfold (s : store)
    (p_given_t p_given_f platform : pyval) :
  passed_input s !! CONF_P_GIVEN_T = Some p_given_t →
  passed_input s !! CONF_P_GIVEN_F = Some p_given_f →
  py_eq p_given_t p_given_f = false →
  passed_input s !! CONF_PLATFORM = Some platform →
  _validate_observation_setup s =
    store_observation (options s)
      (dict_get (passed_input s) "add_another" (VBool false))
      (delete "add_another" (passed_input s)).
Proof.
  intros Ht Hf Heq Hp. unfold _validate_observation_setup.
  rewrite (bind_getitem _ _ _ _ Ht), (bind_getitem _ _ _ _ Hf), Heq.
  rewrite (bind_getitem _ _ _ _ Hp), bind_pass.
  rewrite (bind_getitem _ _ _ _ Hp), bind_pass.
  rewrite (bind_getitem _ _ _ _ Hp), bind_pass.
  unfold store_observation, add_another_result, with_observations.
  unfold mbind, M_bind, bind, user_input_pop, user_input_read, pure,
    options_setdefault_list, options_get, ref_setitem, ref_append, ret.
  simpl.
  destruct (_convert_percentages_to_fractions _) as [converted|e]; [|reflexivity].
  destruct (options s !! CONF_OBSERVATIONS) as [o|] eqn:Hobs; simpl.
  - destruct (optval_truthy _); simpl.
    + destruct (optval_int _); simpl; [|reflexivity].
      rewrite Hobs. destruct o; [reflexivity|].
      destruct (list_setitem _ _ _); reflexivity.
    + rewrite Hobs. destruct o; reflexivity.
  - destruct (optval_truthy _); simpl.
    + destruct (optval_int _); simpl; [|reflexivity].
      rewrite lookup_insert_eq. destruct (list_setitem _ _ _); reflexivity.
    + rewrite lookup_insert_eq. reflexivity.
Qed.

Lemma optval_int_Raise (o : optval) (e : exn) :
  optval_int o = Raise e → ¬ is_schema_error e.
Proof.
  destruct o as [v|l]; simpl; [|intros [= <-]; simpl; tauto].
  destruct v as [|b|z|f|str]; simpl; try discriminate;
    try (intros [= <-]; simpl; tauto).
  - unfold float_trunc. destruct (Prim2SF f); intros [= <-]; simpl; tauto.
  - unfold int_of_str. repeat case_match; intros [= <-]; simpl; tauto.
Qed.

Lemma list_setitem_Raise {A} (l : list A) (i : Z) (x : A) (e : exn) :
  list_setitem l i x = Raise e → e = IndexError.
Proof. unfold list_setitem. case_match; congruence. Qed.

Lemma with_observations_index (opts : options_dict) :
  with_observations opts !! "index" = opts !! "index".
Proof.
  unfold with_observations. case_match; [done|]. by rewrite lookup_insert_ne.
Qed.

Lemma with_observations_lookup (opts : options_dict) :
  with_observations opts !! CONF_OBSERVATIONS
  = Some (default (Observations []) (opts !! CONF_OBSERVATIONS)).
Proof.
  unfold with_observations. destruct (opts !! CONF_OBSERVATIONS) eqn:H; simpl.
  - exact H.
  - apply lookup_insert_eq.
Qed.

(** When the tail raises, the passed dictionary has lost its flag, and
    [handler.options] has gained at most an empty list of observations. *)
Lemma store_observation_Raise (opts : options_dict) (flag : pyval)
    (popped : pydict) (e : exn) (s' : store) :
  store_observation opts flag popped = (Raise e, s') →
  ¬ is_schema_error e
  ∧ passed_input s' = popped
  ∧ (options s' = opts ∨ options s' = with_observations opts).
Proof.
  unfold store_observation.
  destruct (_convert_percentages_to_fractions popped) as [converted|e'] eqn:Hc.
  - destruct (optval_truthy _).
    + destruct (optval_int _) as [i|e'] eqn:Hi.
      * destruct (with_observations opts !! CONF_OBSERVATIONS) as [[v|l]|].
        -- intros [= <- <-]. simpl. auto.
        -- destruct (list_setitem l i converted) as [l'|e'] eqn:Hs; [discriminate|].
           intros [= <- <-]. apply list_setitem_Raise in Hs as ->. simpl. auto.
        -- intros [= <- <-]. simpl. auto.
      * intros [= <- <-]. apply optval_int_Raise in Hi. simpl. auto.
    + destruct (with_observations opts !! CONF_OBSERVATIONS) as [[v|l]|];
        [|discriminate|]; intros [= <- <-]; simpl; auto.
  - intros [= <- <-]. simpl.
    apply convert_percentages_to_fractions_Raise in Hc as [-> _]. auto.
Qed.

(** When the tail returns: what it returns, and what it has stored where. *)
Lemma store_observation_Ok (opts : options_dict) (flag : pyval)
    (popped ret : pydict) (s' : store) :
  store_observation opts flag popped = (Ok ret, s') ↔
    ∃ converted l',
      _convert_percentages_to_fractions popped = Ok converted
      ∧ (∀ v, opts !! CONF_OBSERVATIONS ≠ Some (Field v))
      ∧ ret = add_another_result flag
      ∧ s' = Store (<[CONF_OBSERVATIONS := Observations l']> opts) popped
      ∧ let l := observation_list opts in
        let idx := default (Field VNone) (opts !! "index") in
        if optval_truthy idx
        then ∃ i n, optval_int idx = Ok i ∧ list_index l i = Some n
                    ∧ l' = <[n := converted]> l
        else l' = (l ++ [converted])%list.
Proof.
  unfold store_observation, observation_list.
  rewrite with_observations_index, with_observations_lookup.
  assert (Hins : ∀ x, <[CONF_OBSERVATIONS := x]> (with_observations opts)
                      = <[CONF_OBSERVATIONS := x]> opts).
  { intros x. unfold with_observations. case_match; [done|].
    apply insert_insert_eq. }
  destruct (_convert_percentages_to_fractions popped) as [converted|e] eqn:Hc.
  2:{ split; [discriminate|]. by intros (? & ? & [=] & _). }
  destruct (opts !! CONF_OBSERVATIONS) as [[v|l]|] eqn:Hobs; simpl.
  - split.
    + destruct (optval_truthy _); [destruct (optval_int _)|]; discriminate.
    + intros (? & ? & _ & Hno & _). by destruct (Hno v).
  - destruct (optval_truthy _).
    + destruct (optval_int _) as [i|e] eqn:Hi.
      * unfold list_setitem. destruct (list_index l i) as [n|] eqn:Hn; rewrite ?Hins; split.
        -- intros [= <- <-]. exists converted, (<[n := converted]> l).
           repeat split; try done. by exists i, n.
        -- intros (c & l' & [= <-] & _ & -> & -> & (i' & n' & [= <-] & Hn' & ->)).
           by assert (n' = n) as -> by congruence.
        -- discriminate.
        -- intros (c & l' & _ & _ & _ & _ & (i' & n' & [= <-] & Hn' & _)).
           congruence.
      * split; [discriminate|].
        by intros (c & l' & _ & _ & _ & _ & (i' & n' & [=] & _)).
    + rewrite Hins. split.
      * intros [= <- <-]. exists converted, (l ++ [converted])%list. by repeat split.
      * by intros (c & l' & [= <-] & _ & -> & -> & ->).
  - destruct (optval_truthy _).
    + destruct (optval_int _) as [i|e] eqn:Hi.
      * unfold list_setitem. destruct (list_index [] i) as [n|] eqn:Hn; rewrite ?Hins; split.
        -- intros [= <- <-]. exists converted, (<[n := converted]> []).
           repeat split; try done. by exists i, n.
        -- intros (c & l' & [= <-] & _ & -> & -> & (i' & n' & [= <-] & Hn' & ->)).
           by assert (n' = n) as -> by congruence.
        -- discriminate.
        -- intros (c & l' & _ & _ & _ & _ & (i' & n' & [= <-] & Hn' & _)).
           congruence.
      * split; [discriminate|].
        by intros (c & l' & _ & _ & _ & _ & (i' & n' & [=] & _)).
    + rewrite Hins. split.
      * intros [= <- <-]. exists converted, [converted]. by repeat split.
      * by intros (c & l' & [= <-] & _ & -> & -> & ->).
Qed.

(** [_validate_observation_setup] returns exactly when the three keys it
    reads are there, the two probabilities differ, and its tail returns. *)
Lemma validate_observation_setup_Ok (s s' : store) (ret : pydict) :
  _validate_observation_setup s = (Ok ret, s') ↔
    ∃ p_given_t p_given_f platform,
      passed_input s !! CONF_P_GIVEN_T = Some p_given_t
      ∧ passed_input s !! CONF_P_GIVEN_F = Some p_given_f
      ∧ py_eq p_given_t p_given_f = false
      ∧ passed_input s !! CONF_PLATFORM = Some platform
      ∧ store_observation (options s)
          (dict_get (passed_input s) "add_another" (VBool false))
          (delete "add_another" (passed_input s)) = (Ok ret, s').
Proof.
  split.
  - intros Hrun.
    destruct (passed_input s !! CONF_P_GIVEN_T) as [p_given_t|] eqn:Ht.
    2:{ unfold _validate_observation_setup in Hrun.
        by rewrite (bind_getitem_missing _ _ _ Ht) in Hrun. }
    destruct (passed_input s !! CONF_P_GIVEN_F) as [p_given_f|] eqn:Hf.
    2:{ unfold _validate_observation_setup in Hrun.
        rewrite (bind_getitem _ _ _ _ Ht) in Hrun.
        by rewrite (bind_getitem_missing _ _ _ Hf) in Hrun. }
    destruct (py_eq p_given_t p_given_f) eqn:Heq.
    { by rewrite (validate_observation_setup_equal _ _ _ Ht Hf Heq) in Hrun. }
    destruct (passed_input s !! CONF_PLATFORM) as [platform|] eqn:Hp.
    2:{ by rewrite (validate_observation_setup_no_platform _ _ _ Ht Hf Heq Hp) in Hrun. }
    exists p_given_t, p_given_f, platform. repeat split; try done.
    by rewrite <- (validate_observation_setup_unfold _ _ _ _ Ht Hf Heq Hp).
  - intros (p_given_t & p_given_f & platform & Ht & Hf & Heq & Hp & Htail).
    by rewrite (validate_observation_setup_unfold _ _ _ _ Ht Hf Heq Hp).
Qed.

(** What the conversion stores never carries the flag: the flag was popped
    and the conversion adds no key. *)
Lemma converted_lacks_add_another (user_input converted : pydict) :
  _convert_percentages_to_fractions (delete "add_another" user_input) = Ok converted →
  lacks_add_another converted.
Proof.
  intros Hdom%dict_comprehension_dom. apply not_elem_of_dom.
  rewrite Hdom, dom_delete_L. apply not_elem_of_difference. right.
  by apply elem_of_singleton.
Qed.

Lemma list_index_lt {A} (l : list A) (i : Z) (n : nat) :
  list_index l i = Some n → (n < length l)%nat.
Proof.
  unfold list_index.
  destruct ((0 <=? i) && (i <? Z.of_nat (length l))) eqn:H1.
  - intros [= <-]. apply andb_true_iff in H1 as [?%Z.leb_le ?%Z.ltb_lt]. lia.
  - destruct ((- Z.of_nat (length l) <=? i) && (i <? 0)) eqn:H2; [|discriminate].
    intros [= <-]. apply andb_true_iff in H2 as [?%Z.leb_le ?%Z.ltb_lt]. lia.
Qed.

(* ===================================================================== *)
(** ** Properties: equal probabilities *)
(* ===================================================================== *)

(** C5. For a user input holding both conditional probabilities,
    [_validate_observation_setup] raises [SchemaFlowError] exactly when the
    two are [==], the error key is then ["equal_probabilities"], and the store
    is what it was: [handler.options], with its list of observations, is
    untouched (and so is the passed dictionary). *)
Theorem equal_probabilities_spec (s : store) (p_given_t p_given_f : pyval) :
  passed_input s !! CONF_P_GIVEN_T = Some p_given_t →
  passed_input s !! CONF_P_GIVEN_F = Some p_given_f →
  ((∃ key s', _validate_observation_setup s = (Raise (SchemaFlowError key), s'))
     ↔ py_eq p_given_t p_given_f = true)
  ∧ (∀ key s', _validate_observation_setup s = (Raise (SchemaFlowError key), s') →
       key = "equal_probabilities"
       ∧ s' = s
       ∧ options s' = options s
       ∧ observation_list (options s') = observation_list (options s)).
Proof.
  intros Ht Hf.
  assert (Hraise : ∀ key s',
            _validate_observation_setup s = (Raise (SchemaFlowError key), s') →
            py_eq p_given_t p_given_f = true ∧ key = "equal_probabilities" ∧ s' = s).
  { intros key s' Hrun. destruct (py_eq p_given_t p_given_f) eqn:Heq.
    - rewrite (validate_observation_setup_equal _ _ _ Ht Hf Heq) in Hrun.
      by injection Hrun as <- <-.
    - destruct (passed_input s !! CONF_PLATFORM) as [platform|] eqn:Hp.
      + rewrite (validate_observation_setup_unfold _ _ _ _ Ht Hf Heq Hp) in Hrun.
        apply store_observation_Raise in Hrun as [Hno _]. by destruct Hno.
      + by rewrite (validate_observation_setup_no_platform _ _ _ Ht Hf Heq Hp) in Hrun. }
  split; [split|].
  - intros (key & s' & Hrun). by destruct (Hraise key s' Hrun).
  - intros Heq. exists "equal_probabilities", s.
    by apply validate_observation_setup_equal with p_given_t p_given_f.
  - intros key s' Hrun. destruct (Hraise key s' Hrun) as (_ & -> & ->). done.
Qed.

(** C5 at an observation whose two probabilities are [50] and [50.0], with
    one observation already stored. *)
Lemma equal_probabilities_spec_witness :
  let s := Store {[ CONF_OBSERVATIONS := Observations [ {[ CONF_NAME := VStr "a" ]} ] ]}
                 {[ CONF_P_GIVEN_T := VInt 50; CONF_P_GIVEN_F := VFloat 50;
                    CONF_PLATFORM := VStr "state" ]} in
  _validate_observation_setup s = (Raise (SchemaFlowError "equal_probabilities"), s).
Proof.
  intros s.
  destruct (equal_probabilities_spec s (VInt 50) (VFloat 50) eq_refl eq_refl)
    as [[_ Hraises] Hkeeps].
  destruct Hraises as (key & s' & Hrun); [reflexivity|].
  destruct (Hkeeps key s' Hrun) as (-> & -> & _). exact Hrun.
Defined.

(* ===================================================================== *)
(** ** Properties: append or overwrite *)
(* ===================================================================== *)

(** With no ["index"] entry, or one that is false as a truth value, the
    converted input is appended, the list being created when there is none;
    nothing else changes. *)
Lemma validate_observation_setup_appends (s : store)
    (p_given_t p_given_f platform : pyval) (converted : pydict) :
  passed_input s !! CONF_P_GIVEN_T = Some p_given_t →
  passed_input s !! CONF_P_GIVEN_F = Some p_given_f →
  py_eq p_given_t p_given_f = false →
  passed_input s !! CONF_PLATFORM = Some platform →
  _convert_percentages_to_fractions (delete "add_another" (passed_input s))
    = Ok converted →
  (∀ v, options s !! CONF_OBSERVATIONS ≠ Some (Field v)) →
  optval_truthy (default (Field VNone) (options s !! "index")) = false →
  _validate_observation_setup s =
    (Ok (add_another_result (dict_get (passed_input s) "add_another" (VBool false))),
     Store (<[CONF_OBSERVATIONS :=
                Observations (observation_list (options s) ++ [converted])]>
              (options s))
           (delete "add_another" (passed_input s))).
Proof.
  intros Ht Hf Heq Hp Hc Hlist Hidx. apply validate_observation_setup_Ok.
  exists p_given_t, p_given_f, platform.
  split; [exact Ht|]. split; [exact Hf|]. split; [exact Heq|]. split; [exact Hp|].
  apply store_observation_Ok. exists converted. eexists.
  split; [exact Hc|]. split; [exact Hlist|]. split; [reflexivity|].
  split; [reflexivity|]. cbv zeta. rewrite Hidx. reflexivity.
Qed.

(** With a true ["index"] entry that [int()] reads as a position of the
    list, the observation there is overwritten with the converted input,
    and no other element changes. *)
Lemma validate_observation_setup_overwrites (s : store)
    (p_given_t p_given_f platform : pyval) (converted : pydict)
    (idx : optval) (i : Z) (n : nat) :
  passed_input s !! CONF_P_GIVEN_T = Some p_given_t →
  passed_input s !! CONF_P_GIVEN_F = Some p_given_f →
  py_eq p_given_t p_given_f = false →
  passed_input s !! CONF_PLATFORM = Some platform →
  _convert_percentages_to_fractions (delete "add_another" (passed_input s))
    = Ok converted →
  (∀ v, options s !! CONF_OBSERVATIONS ≠ Some (Field v)) →
  options s !! "index" = Some idx →
  optval_truthy idx = true →
  optval_int idx = Ok i →
  list_index (observation_list (options s)) i = Some n →
  ∃ l',
    _validate_observation_setup s =
      (Ok (add_another_result (dict_get (passed_input s) "add_another" (VBool false))),
       Store (<[CONF_OBSERVATIONS := Observations l']> (options s))
             (delete "add_another" (passed_input s)))
    ∧ length l' = length (observation_list (options s))
    ∧ l' !! n = Some converted
    ∧ ∀ m, m ≠ n → l' !! m = observation_list (options s) !! m.
Proof.
  intros Ht Hf Heq Hp Hc Hlist Hidx Htruthy Hint Hn.
  exists (<[n := converted]> (observation_list (options s))).
  split; [|split; [|split]].
  - apply validate_observation_setup_Ok.
    exists p_given_t, p_given_f, platform.
    split; [exact Ht|]. split; [exact Hf|]. split; [exact Heq|]. split; [exact Hp|].
    apply store_observation_Ok. exists converted. eexists.
    split; [exact Hc|]. split; [exact Hlist|]. split; [reflexivity|].
    split; [reflexivity|]. cbv zeta. rewrite Hidx. simpl. rewrite Htruthy.
    exists i, n. by repeat split.
  - apply length_insert.
  - apply list_lookup_insert_eq. by eapply list_index_lt.
  - intros m Hm. by apply list_lookup_insert_ne.
Qed.

(* ===================================================================== *)
(** ** Properties: what is stored *)
(* ===================================================================== *)

Lemma observation_list_with_observations (opts : options_dict) :
  observation_list (with_observations opts) = observation_list opts.
Proof.
  unfold observation_list. rewrite with_observations_lookup.
  by destruct (opts !! CONF_OBSERVATIONS) as [[v|l]|].
Qed.

Lemma observation_list_insert (opts : options_dict) (l : list pydict) :
  observation_list (<[CONF_OBSERVATIONS := Observations l]> opts) = l.
Proof. unfold observation_list. by rewrite lookup_insert_eq. Qed.

(** A raise leaves the stored observations as they were. *)
Lemma validate_observation_setup_Raise (s s' : store) (e : exn) :
  _validate_observation_setup s = (Raise e, s') →
  observation_list (options s') = observation_list (options s).
Proof.
  intros Hrun.
  destruct (passed_input s !! CONF_P_GIVEN_T) as [p_given_t|] eqn:Ht.
  2:{ unfold _validate_observation_setup in Hrun.
      rewrite (bind_getitem_missing _ _ _ Ht) in Hrun. by injection Hrun as _ <-. }
  destruct (passed_input s !! CONF_P_GIVEN_F) as [p_given_f|] eqn:Hf.
  2:{ unfold _validate_observation_setup in Hrun.
      rewrite (bind_getitem _ _ _ _ Ht) in Hrun.
      rewrite (bind_getitem_missing _ _ _ Hf) in Hrun. by injection Hrun as _ <-. }
  destruct (py_eq p_given_t p_given_f) eqn:Heq.
  { rewrite (validate_observation_setup_equal _ _ _ Ht Hf Heq) in Hrun.
    by injection Hrun as _ <-. }
  destruct (passed_input s !! CONF_PLATFORM) as [platform|] eqn:Hp.
  2:{ rewrite (validate_observation_setup_no_platform _ _ _ Ht Hf Heq Hp) in Hrun.
      by injection Hrun as _ <-. }
  rewrite (validate_observation_setup_unfold _ _ _ _ Ht Hf Heq Hp) in Hrun.
  apply store_observation_Raise in Hrun as (_ & _ & [-> | ->]); [done|].
  apply observation_list_with_observations.
Qed.

(** A return has stored the converted input, by appending it or by
    overwriting one element. *)
Lemma validate_observation_setup_stores (s s' : store) (ret : pydict) :
  _validate_observation_setup s = (Ok ret, s') →
  ∃ stored,
    _convert_percentages_to_fractions (delete "add_another" (passed_input s))
      = Ok stored
    ∧ ret = add_another_result (dict_get (passed_input s) "add_another" (VBool false))
    ∧ passed_input s' = delete "add_another" (passed_input s)
    ∧ (observation_list (options s')
         = (observation_list (options s) ++ [stored])%list
       ∨ ∃ n, (n < length (observation_list (options s)))%nat
              ∧ observation_list (options s')
                = <[n := stored]> (observation_list (options s))).
Proof.
  intros (p_given_t & p_given_f & platform & _ & _ & _ & _ & Htail)
    %validate_observation_setup_Ok.
  apply store_observation_Ok in Htail
    as (stored & l' & Hc & _ & -> & -> & Hl').
  exists stored. split; [exact Hc|]. split; [reflexivity|]. split; [reflexivity|].
  cbn [options]. rewrite !observation_list_insert.
  cbv zeta in Hl'. destruct (optval_truthy _).
  - destruct Hl' as (i & n & _ & Hn & ->). right. exists n.
    split; [by eapply list_index_lt | reflexivity].
  - left. exact Hl'.
Qed.

Lemma stored_in_list (l l' : list pydict) (stored : pydict) :
  l' = (l ++ [stored])%list
  ∨ (∃ n, (n < length l)%nat ∧ l' = <[n := stored]> l) →
  stored ∈ l'.
Proof.
  intros [-> | (n & Hn & ->)].
  - apply elem_of_app. right. by apply list_elem_of_singleton.
  - apply list_elem_of_lookup. exists n. by apply list_lookup_insert_eq.
Qed.

(** C10. Whatever [_validate_observation_setup] stores lacks the
    [add_another] key: when it returns, the element it has appended to the
    list of observations, or overwritten in it, is the conversion of the
    input without that key; and, whether it returns or raises, a list whose
    observations all lack the key is left as such a list. *)
Theorem stored_observations_lack_add_another (s s' : store) (r : result pydict) :
  _validate_observation_setup s = (r, s') →
  (∀ ret, r = Ok ret →
     ∃ stored,
       _convert_percentages_to_fractions (delete "add_another" (passed_input s))
         = Ok stored
       ∧ lacks_add_another stored
       ∧ stored ∈ observation_list (options s')
       ∧ (observation_list (options s')
            = (observation_list (options s) ++ [stored])%list
          ∨ ∃ n, (n < length (observation_list (options s)))%nat
                 ∧ observation_list (options s')
                   = <[n := stored]> (observation_list (options s))))
  ∧ (Forall lacks_add_another (observation_list (options s)) →
     Forall lacks_add_another (observation_list (options s'))).
Proof.
  intros Hrun. destruct r as [ret|e].
  - apply validate_observation_setup_stores in Hrun
      as (stored & Hc & _ & _ & Hl').
    pose proof (converted_lacks_add_another _ _ Hc) as Hlacks.
    split.
    + intros ? _. exists stored. split; [exact Hc|]. split; [exact Hlacks|].
      split; [by apply stored_in_list with (observation_list (options s)) | exact Hl'].
    + intros Hall. destruct Hl' as [-> | (n & Hn & ->)].
      * apply Forall_app. split; [exact Hall|]. by constructor.
      * by apply Forall_insert.
  - split; [discriminate|].
    by rewrite (validate_observation_setup_Raise _ _ _ Hrun).
Qed.

(** C10 at an edit: the second of two stored observations is overwritten
    by an input that carries the flag. *)
Lemma stored_observations_lack_add_another_witness :
  let first : pydict := {[ CONF_NAME := VStr "a" ]} in
  let second : pydict := {[ CONF_NAME := VStr "b" ]} in
  let opts : options_dict :=
    {[ CONF_OBSERVATIONS := Observations [first; second];
       "index" := Field (VStr "1") ]} in
  let submitted : pydict :=
    {[ CONF_P_GIVEN_T := VFloat 80; CONF_P_GIVEN_F := VFloat 20;
       CONF_PLATFORM := VStr "state"; "add_another" := VBool true ]} in
  let stored : pydict :=
    {[ CONF_P_GIVEN_T := VFloat (PrimFloat.div 80 100);
       CONF_P_GIVEN_F := VFloat (PrimFloat.div 20 100);
       CONF_PLATFORM := VStr "state" ]} in
  let opts' : options_dict :=
    {[ CONF_OBSERVATIONS := Observations [first; stored];
       "index" := Field (VStr "1") ]} in
  _validate_observation_setup (Store opts submitted)
    = (Ok {[ "add_another" := VBool true ]},
       Store opts' (delete "add_another" submitted))
  ∧ Forall lacks_add_another (observation_list opts').
Proof.
  intros first second opts submitted stored opts'.
  assert (Hrun : _validate_observation_setup (Store opts submitted)
                 = (Ok {[ "add_another" := VBool true ]},
                    Store opts' (delete "add_another" submitted)))
    by (vm_compute; reflexivity).
  split; [exact Hrun|].
  apply (stored_observations_lack_add_another _ _ _ Hrun).
  assert (Hlist : observation_list opts = [first; second])
    by (vm_compute; reflexivity).
  cbn [options]. rewrite Hlist. by repeat constructor.
Defined.

(* ===================================================================== *)
(** ** Properties: branch or loop *)
(* ===================================================================== *)

Lemma choose_observation_step_result (flag : pyval) :
  _choose_observation_step (add_another_result flag)
  = if py_truthy flag then Some OBSERVATION_SELECTOR else None.
Proof.
  unfold _choose_observation_step, add_another_result, dict_get.
  destruct (py_truthy flag).
  - by rewrite lookup_singleton_eq.
  - by rewrite lookup_empty.
Qed.

(** C7. [_choose_observation_step] looks at the [add_another] entry of its
    input and at nothing else: it returns the observation selector when the
    entry is [True] (or any true value), and [None] when it is [False] or
    missing. [_validate_observation_setup], when it returns, returns
    [{"add_another": True}] if the submitted input had the entry set and an
    empty dictionary otherwise, so the step chosen from its result is the
    step chosen from the submitted input; the entry is gone from the
    submitted dictionary, and from what was stored. And it does return
    whenever the input passes its tests and converts, when adding (no
    ["index"] entry) and when editing (a true ["index"] entry that names a
    position of the list). *)
Theorem branch_or_loop_spec :
  (∀ user_input,
     user_input !! "add_another" = Some (VBool true) →
     _choose_observation_step user_input = Some OBSERVATION_SELECTOR)
  ∧ (∀ user_input,
       user_input !! "add_another" = None
       ∨ user_input !! "add_another" = Some (VBool false) →
       _choose_observation_step user_input = None)
  ∧ (∀ user_input,
       _choose_observation_step user_input =
         if py_truthy (dict_get user_input "add_another" (VBool false))
         then Some OBSERVATION_SELECTOR else None)
  ∧ (∀ s ret s',
       _validate_observation_setup s = (Ok ret, s') →
       ret = (if py_truthy (dict_get (passed_input s) "add_another" (VBool false))
              then {[ "add_another" := VBool true ]} else ∅)
       ∧ _choose_observation_step ret = _choose_observation_step (passed_input s)
       ∧ passed_input s' = delete "add_another" (passed_input s)
       ∧ passed_input s' !! "add_another" = None
       ∧ ∃ stored,
           _convert_percentages_to_fractions (delete "add_another" (passed_input s))
             = Ok stored
           ∧ stored ∈ observation_list (options s')
           ∧ stored !! "add_another" = None)
  ∧ (∀ s p_given_t p_given_f platform,
       passed_input s !! CONF_P_GIVEN_T = Some p_given_t →
       passed_input s !! CONF_P_GIVEN_F = Some p_given_f →
       py_eq p_given_t p_given_f = false →
       passed_input s !! CONF_PLATFORM = Some platform →
       is_Ok (_convert_percentages_to_fractions
                (delete "add_another" (passed_input s))) →
       (∀ v, options s !! CONF_OBSERVATIONS ≠ Some (Field v)) →
       options s !! "index" = None
       ∨ (∃ idx i, options s !! "index" = Some idx ∧ optval_truthy idx = true
                   ∧ optval_int idx = Ok i
                   ∧ is_Some (list_index (observation_list (options s)) i)) →
       ∃ s', _validate_observation_setup s =
               (Ok (if py_truthy (dict_get (passed_input s) "add_another" (VBool false))
                    then {[ "add_another" := VBool true ]} else ∅), s')).
Proof.
  split; [|split; [|split; [|split]]].
  - intros user_input Hflag. unfold _choose_observation_step, dict_get.
    by rewrite Hflag.
  - intros user_input [Hflag | Hflag]; unfold _choose_observation_step, dict_get;
      by rewrite Hflag.
  - reflexivity.
  - intros s ret s' Hrun.
    apply validate_observation_setup_stores in Hrun as (stored & Hc & -> & Hpop & Hl').
    split; [reflexivity|]. split; [apply choose_observation_step_result|].
    split; [exact Hpop|]. split; [rewrite Hpop; apply lookup_delete_eq|].
    exists stored. split; [exact Hc|]. split.
    + by apply stored_in_list with (observation_list (options s)).
    + by apply converted_lacks_add_another with (passed_input s).
  - intros s p_given_t p_given_f platform Ht Hf Heq Hp [converted Hc] Hlist
      [Hidx | (idx & i & Hidx & Htruthy & Hint & [n Hn])].
    + eexists. apply (validate_observation_setup_appends s p_given_t p_given_f
                        platform converted); try assumption.
      by rewrite Hidx.
    + destruct (validate_observation_setup_overwrites s p_given_t p_given_f
                  platform converted idx i n) as (l' & Hrun & _); try assumption.
      eexists. exact Hrun.
Qed.

(** C7 at the last form of the add flow, first with the box checked, then
    without it. *)
Lemma branch_or_loop_spec_witness :
  let checked : pydict :=
    {[ CONF_P_GIVEN_T := VFloat 80; CONF_P_GIVEN_F := VFloat 20;
       CONF_PLATFORM := VStr "state"; "add_another" := VBool true ]} in
  let unchecked : pydict := delete "add_another" checked in
  (∃ s', _validate_observation_setup (Store ∅ checked)
           = (Ok {[ "add_another" := VBool true ]}, s'))
  ∧ _choose_observation_step {[ "add_another" := VBool true ]}
    = Some OBSERVATION_SELECTOR
  ∧ (∃ s', _validate_observation_setup (Store ∅ unchecked) = (Ok ∅, s'))
  ∧ _choose_observation_step ∅ = None.
Proof.
  intros checked unchecked.
  destruct branch_or_loop_spec as (Hyes & Hno & _ & _ & Hreturns).
  split; [|split; [|split]].
  - destruct (Hreturns (Store ∅ checked) (VFloat 80) (VFloat 20) (VStr "state"))
      as [s' Hrun].
    + vm_compute. reflexivity.
    + vm_compute. reflexivity.
    + vm_compute. reflexivity.
    + vm_compute. reflexivity.
    + evaluates.
    + intros v. cbn [options]. by rewrite lookup_empty.
    + left. apply lookup_empty.
    + exists s'. exact Hrun.
  - apply Hyes. vm_compute. reflexivity.
  - destruct (Hreturns (Store ∅ unchecked) (VFloat 80) (VFloat 20) (VStr "state"))
      as [s' Hrun].
    + vm_compute. reflexivity.
    + vm_compute. reflexivity.
    + vm_compute. reflexivity.
    + vm_compute. reflexivity.
    + evaluates.
    + intros v. cbn [options]. by rewrite lookup_empty.
    + left. apply lookup_empty.
    + exists s'. exact Hrun.
  - apply Hno. left. vm_compute. reflexivity.
Defined.

(* ===================================================================== *)
(** ** Properties: the schema of the edit form *)
(* ===================================================================== *)

(** A position is valid when it lies between [-len] and [len - 1]. *)
Lemma list_index_Some {A} (l : list A) (i : Z) :
  is_Some (list_index l i) ↔ - Z.of_nat (length l) ≤ i < Z.of_nat (length l).
Proof.
  unfold list_index.
  destruct ((0 <=? i) && (i <? Z.of_nat (length l))) eqn:H1.
  - apply andb_true_iff in H1 as [?%Z.leb_le ?%Z.ltb_lt]. split; [lia | eauto].
  - destruct ((- Z.of_nat (length l) <=? i) && (i <? 0)) eqn:H2.
    + apply andb_true_iff in H2 as [?%Z.leb_le ?%Z.ltb_lt]. split; [lia | eauto].
    + split; [by intros [? [=]]|]. intros Hi. exfalso.
      apply andb_false_iff in H1, H2.
      destruct H1 as [?%Z.leb_gt | ?%Z.ltb_ge], H2 as [?%Z.leb_gt | ?%Z.ltb_ge]; lia.
Qed.

Lemma list_getitem_Ok {A} (l : list A) (i : Z) (x : A) :
  list_getitem l i = Ok x ↔ ∃ n, list_index l i = Some n ∧ l !! n = Some x.
Proof.
  unfold list_getitem. destruct (list_index l i) as [n|]; simpl.
  - destruct (l !! n) as [y|] eqn:Hy; split.
    + intros [= <-]. eauto.
    + intros (n' & [= <-] & Hx). congruence.
    + discriminate.
    + intros (n' & [= <-] & Hx). congruence.
  - split; [discriminate|]. by intros (n & [=] & _).
Qed.

Lemma selected_platform_Ok (observations : optval) (i : Z) (platform : pyval) :
  selected_platform observations i = Ok platform ↔
    ∃ l n observation,
      observations = Observations l
      ∧ list_index l i = Some n ∧ l !! n = Some observation
      ∧ observation !! CONF_PLATFORM = Some platform.
Proof.
  destruct observations as [v|l]; simpl.
  - split; [|by intros (? & ? & ? & [=] & _)].
    destruct v as [| | | |str]; try discriminate.
    by destruct (list_getitem _ _).
  - rewrite rbind_Ok. setoid_rewrite list_getitem_Ok. setoid_rewrite getitem_Ok.
    split.
    + intros (obs & (n & Hn & Hobs) & Hp). by exists l, n, obs.
    + intros (l' & n & obs & [= <-] & Hn & Hobs & Hp). exists obs. eauto.
Qed.

(** The schema chosen for a platform: the chain of tests of the source. *)
Lemma get_edit_observation_schema_unfold (opts : options_dict)
    (observations index : optval) (i : Z) (platform : pyval) :
  opts !! "observations" = Some observations →
  opts !! "index" = Some index →
  optval_int index = Ok i →
  selected_platform observations i = Ok platform →
  _get_edit_observation_schema opts =
    Ok (if py_eq platform (VStr "state") then Some STATE_SUBSCHEMA
        else if py_eq platform (VStr "numeric_state") then Some NUMERIC_STATE_SUBSCHEMA
        else if py_eq platform (VStr "template") then Some TEMPLATE_SUBSCHEMA
        else None).
Proof.
  intros Hobs Hidx Hint Hp. unfold _get_edit_observation_schema, getitem.
  rewrite Hobs, Hidx. simpl. rewrite Hint. simpl. rewrite Hp. simpl.
  unfold CONF_STATE, CONF_TEMPLATE.
  destruct (py_eq platform (VStr "state")); [reflexivity|].
  destruct (py_eq platform (VStr "numeric_state")); [reflexivity|].
  by destruct (py_eq platform (VStr "template")).
Qed.

(** C9. [_get_edit_observation_schema] is partial. It returns exactly when
    [handler.options] holds a list of observations and an ["index"] entry
    that [int()] reads as a valid position of that list (counted from the
    end when negative), and the observation there has a platform. What it
    returns is then the schema of that platform when the platform is one of
    ["state"], ["numeric_state"] and ["template"], and [None] for any other
    platform. *)
Theorem get_edit_observation_schema_spec (opts : options_dict)
    (r : option subschema) :
  _get_edit_observation_schema opts = Ok r ↔
    ∃ l index i n observation platform,
      opts !! "observations" = Some (Observations l)
      ∧ opts !! "index" = Some index
      ∧ optval_int index = Ok i
      ∧ - Z.of_nat (length l) ≤ i < Z.of_nat (length l)
      ∧ list_index l i = Some n
      ∧ l !! n = Some observation
      ∧ observation !! CONF_PLATFORM = Some platform
      ∧ ((platform = VStr "state" ∧ r = Some STATE_SUBSCHEMA)
         ∨ (platform = VStr "numeric_state" ∧ r = Some NUMERIC_STATE_SUBSCHEMA)
         ∨ (platform = VStr "template" ∧ r = Some TEMPLATE_SUBSCHEMA)
         ∨ (platform ≠ VStr "state" ∧ platform ≠ VStr "numeric_state"
            ∧ platform ≠ VStr "template" ∧ r = None)).
Proof.
  assert (Hchoice : ∀ platform,
    let chosen :=
      if py_eq platform (VStr "state") then Some STATE_SUBSCHEMA
      else if py_eq platform (VStr "numeric_state") then Some NUMERIC_STATE_SUBSCHEMA
      else if py_eq platform (VStr "template") then Some TEMPLATE_SUBSCHEMA
      else None in
    ∀ r', r' = chosen ↔
      ((platform = VStr "state" ∧ r' = Some STATE_SUBSCHEMA)
       ∨ (platform = VStr "numeric_state" ∧ r' = Some NUMERIC_STATE_SUBSCHEMA)
       ∨ (platform = VStr "template" ∧ r' = Some TEMPLATE_SUBSCHEMA)
       ∨ (platform ≠ VStr "state" ∧ platform ≠ VStr "numeric_state"
          ∧ platform ≠ VStr "template" ∧ r' = None))).
  { intros platform chosen r'. subst chosen.
    destruct (py_eq platform (VStr "state")) eqn:H1.
    { apply py_eq_str in H1 as ->. split; [intros ->; tauto|].
      intros [[_ ->]|[[[=] _]|[[[=] _]|[? _]]]]; [done|done]. }
    destruct (py_eq platform (VStr "numeric_state")) eqn:H2.
    { apply py_eq_str in H2 as ->. split; [intros ->; tauto|].
      intros [[[=] _]|[[_ ->]|[[[=] _]|(_ & ? & _)]]]; [done|done]. }
    destruct (py_eq platform (VStr "template")) eqn:H3.
    { apply py_eq_str in H3 as ->. split; [intros ->; tauto|].
      intros [[[=] _]|[[[=] _]|[[_ ->]|(_ & _ & ? & _)]]]; [done|done]. }
    assert (platform ≠ VStr "state").
    { intros Heq. apply py_eq_str in Heq. congruence. }
    assert (platform ≠ VStr "numeric_state").
    { intros Heq. apply py_eq_str in Heq. congruence. }
    assert (platform ≠ VStr "template").
    { intros Heq. apply py_eq_str in Heq. congruence. }
    split; [intros ->; tauto|].
    intros [[? _]|[[? _]|[[? _]|(_ & _ & _ & ->)]]]; done. }
  split.
  - intros Hrun.
    destruct (opts !! "observations") as [observations|] eqn:Hobs.
    2:{ unfold _get_edit_observation_schema, getitem in Hrun.
        by rewrite Hobs in Hrun. }
    destruct (opts !! "index") as [index|] eqn:Hidx.
    2:{ unfold _get_edit_observation_schema, getitem in Hrun.
        by rewrite Hobs, Hidx in Hrun. }
    destruct (optval_int index) as [i|e] eqn:Hint.
    2:{ unfold _get_edit_observation_schema, getitem in Hrun.
        rewrite Hobs, Hidx in Hrun. simpl in Hrun. by rewrite Hint in Hrun. }
    destruct (selected_platform observations i) as [platform|e] eqn:Hp.
    2:{ unfold _get_edit_observation_schema, getitem in Hrun.
        rewrite Hobs, Hidx in Hrun. simpl in Hrun. rewrite Hint in Hrun.
        simpl in Hrun. by rewrite Hp in Hrun. }
    rewrite (get_edit_observation_schema_unfold _ _ _ _ _ Hobs Hidx Hint Hp) in Hrun.
    injection Hrun as <-.
    apply selected_platform_Ok in Hp as (l & n & obs & -> & Hn & Hl & Hplat).
    exists l, index, i, n, obs, platform. repeat split; try done.
    + apply list_index_Some. eauto.
    + apply list_index_Some. eauto.
    + by apply Hchoice.
  - intros (l & index & i & n & obs & platform
            & Hobs & Hidx & Hint & _ & Hn & Hl & Hplat & Hr).
    assert (Hp : selected_platform (Observations l) i = Ok platform).
    { apply selected_platform_Ok. by exists l, n, obs. }
    rewrite (get_edit_observation_schema_unfold _ _ _ _ _ Hobs Hidx Hint Hp).
    f_equal. symmetry. by apply Hchoice.
Qed.

(** C9 at the edit of the last of two observations, picked as ["-1"]; and at
    an observation of unknown type, for which no schema comes back. *)
Lemma get_edit_observation_schema_spec_witness :
  _get_edit_observation_schema
    {[ "observations" := Observations [ {[ CONF_PLATFORM := VStr "state" ]};
                                        {[ CONF_PLATFORM := VStr "template" ]} ];
       "index" := Field (VStr "-1") ]}
    = Ok (Some TEMPLATE_SUBSCHEMA)
  ∧ _get_edit_observation_schema
      {[ "observations" := Observations [ {[ CONF_PLATFORM := VStr "zone" ]} ];
         "index" := Field (VStr "0") ]}
    = Ok None.
Proof.
  split.
  - apply get_edit_observation_schema_spec.
    exists [ {[ CONF_PLATFORM := VStr "state" ]}; {[ CONF_PLATFORM := VStr "template" ]} ],
      (Field (VStr "-1")), (-1), 1%nat, {[ CONF_PLATFORM := VStr "template" ]},
      (VStr "template").
    repeat split; try (vm_compute; reflexivity); try (simpl; lia).
    right. right. left. done.
  - apply get_edit_observation_schema_spec.
    exists [ {[ CONF_PLATFORM := VStr "zone" ]} ],
      (Field (VStr "0")), 0, 0%nat, {[ CONF_PLATFORM := VStr "zone" ]},
      (VStr "zone").
    repeat split; try (vm_compute; reflexivity); try (simpl; lia).
    right. right. right. repeat split; done.
Defined.

(* ===================================================================== *)
(** ** Properties: importing the module *)
(* ===================================================================== *)

Lemma exec_app (globals : gset string) (body rest : list statement) :
  exec globals (body ++ rest)
  = (exec globals body ≫= λ globals', exec globals' rest).
Proof.
  revert globals. induction body as [|st body IH]; intros globals; simpl.
  - reflexivity.
  - destruct (exec_statement globals st) as [globals'|e]; simpl.
    + apply IH.
    + reflexivity.
Qed.

(** A statement that reads a name which is neither bound nor a builtin
    raises [NameError], whatever it reads after. *)
Lemma exec_statement_undefined (globals : gset string) (name : string)
    (names : list string) (missing : string) :
  undefined globals names = Some missing →
  exec_statement globals (Bind name names) = Raise (NameError missing).
Proof. intros H. simpl. by rewrite H. Qed.

(** Once a statement has raised, the import is over. *)
Lemma exec_raises (globals globals' : gset string)
    (body rest : list statement) (st : statement) (e : exn) :
  exec globals body = Ok globals' →
  exec_statement globals' st = Raise e →
  exec globals (body ++ st :: rest) = Raise e.
Proof.
  intros Hbody Hst. rewrite exec_app, Hbody. simpl. by rewrite Hst.
Qed.

(** C8. The statement that defines [OPTIONS_FLOW] reads the name
    [_validate_remove_observation], which no statement of the module binds
    and which is no builtin. The statements before it run; it raises
    [NameError], and with it the import of the module does. The class of
    the flow handler is bound only by a later statement, which is never
    reached. *)
Theorem options_flow_undefined_name :
  ("_validate_remove_observation" ∈ reads OPTIONS_FLOW_statement)
  ∧ ("_validate_remove_observation" ∉ bound config_flow_module)
  ∧ ("_validate_remove_observation" ∉ builtins)
  ∧ is_Ok (exec module_globals module_before_OPTIONS_FLOW)
  ∧ (∀ globals, exec module_globals module_before_OPTIONS_FLOW = Ok globals →
       exec_statement globals OPTIONS_FLOW_statement
       = Raise (NameError "_validate_remove_observation"))
  ∧ exec module_globals config_flow_module = Raise (NameError "_validate_remove_observation")
  ∧ ("BayesianConfigFlowHandler" ∈ bound module_rest)
  ∧ ("BayesianConfigFlowHandler" ∉ bound module_before_OPTIONS_FLOW).
Proof.
  assert (Hread : "_validate_remove_observation" ∈ reads OPTIONS_FLOW_statement).
  { apply (bool_decide_unpack _). vm_compute. exact I. }
  assert (Hunbound : "_validate_remove_observation" ∉ bound config_flow_module).
  { apply (bool_decide_unpack _). vm_compute. exact I. }
  assert (Hbuiltin : "_validate_remove_observation" ∉ builtins).
  { apply (bool_decide_unpack _). vm_compute. exact I. }
  assert (Hbefore : is_Ok (exec module_globals module_before_OPTIONS_FLOW)) by evaluates.
  assert (Hstep : (exec module_globals module_before_OPTIONS_FLOW
                     ≫= λ globals, exec_statement globals OPTIONS_FLOW_statement)
                  = Raise (NameError "_validate_remove_observation")).
  { vm_compute. reflexivity. }
  assert (Hstatement : ∀ globals,
            exec module_globals module_before_OPTIONS_FLOW = Ok globals →
            exec_statement globals OPTIONS_FLOW_statement
            = Raise (NameError "_validate_remove_observation")).
  { intros globals Hglobals. rewrite Hglobals in Hstep. exact Hstep. }
  split; [exact Hread|]. split; [exact Hunbound|]. split; [exact Hbuiltin|].
  split; [exact Hbefore|]. split; [exact Hstatement|]. split; [|split].
  - destruct Hbefore as [globals Hglobals]. unfold config_flow_module.
    eapply exec_raises; [exact Hglobals | by apply Hstatement].
  - apply (bool_decide_unpack _). vm_compute. exact I.
  - apply (bool_decide_unpack _). vm_compute. exact I.
Qed.

(* ===================================================================== *)
(** ** Properties: the preview handler *)
(* ===================================================================== *)

Lemma validate_collects (schema : vol_schema) (user_input : pydict) :
  statics_skipped schema user_input →
  ∃ errors, _validate schema user_input = Ok errors
            ∧ collected schema user_input errors.
Proof.
  unfold _validate.
  apply (map_fold_weak_ind
           (λ r m, statics_skipped m user_input →
                   ∃ errors, r = Ok errors ∧ collected m user_input errors)).
  - intros _. exists ∅. split; [done|]. intros key msg.
    rewrite lookup_empty. split; [done|].
    intros (_ & validate & value & Hm & _). by rewrite lookup_empty in Hm.
  - intros i x m r Hi IH Hskip.
    destruct IH as (errors & -> & Herrors).
    { intros key static Hkey. apply (Hskip key static).
      rewrite lookup_insert_ne; [done|]. intros <-. congruence. }
    assert (Hfresh : errors !! i = None).
    { destruct (errors !! i) as [msg|] eqn:He; [|done].
      apply Herrors in He as (_ & validate & value & Hm & _). congruence. }
    assert (Hkeep : collected m user_input errors →
              (∀ validate value msg, x = Validator validate →
                 user_input !! i = Some value → validate value = Some msg →
                 i = CONF_PLATFORM) →
              collected (<[i := x]> m) user_input errors).
    { intros _ Hnone key msg. destruct (decide (key = i)) as [->|Hne].
      - rewrite Hfresh, lookup_insert_eq. split; [done|].
        intros (Hp & validate & value & [= ->] & Hv & Hmsg).
        by destruct Hp, (Hnone validate value msg).
      - rewrite lookup_insert_ne by done. apply Herrors. }
    simpl. unfold _validate_item.
    destruct (user_input !! i) as [value|] eqn:Hvalue.
    2:{ eexists. split; [done|]. apply Hkeep; [done|]. congruence. }
    destruct (bool_decide (i = CONF_PLATFORM)) eqn:Hplat.
    { apply bool_decide_eq_true in Hplat. eexists. split; [done|].
      by apply Hkeep. }
    apply bool_decide_eq_false in Hplat.
    destruct x as [validate|static].
    2:{ destruct (Hskip i static) as [?|?]; [apply lookup_insert_eq|done|congruence]. }
    destruct (validate value) as [msg|] eqn:Hmsg.
    2:{ eexists. split; [done|]. apply Hkeep; [done|].
        intros validate' value' msg' Hx Hv Hm. exfalso. congruence. }
    eexists. split; [done|]. intros key msg'.
    destruct (decide (key = i)) as [->|Hne].
    + rewrite !lookup_insert_eq. split.
      * intros [= <-]. split; [done|]. by exists validate, value.
      * intros (_ & validate' & value' & Hx & Hv & Hmsg'). congruence.
    + rewrite !lookup_insert_ne by done. apply Herrors.
Qed.

Section PreviewProperties.
Variables TemplateSelector NumberSelector TextSelector cv_boolean
  : pyval → option string.

Let schema : vol_schema :=
  template_step_schema TemplateSelector NumberSelector TextSelector cv_boolean.

(** The platform is the only static object of the template step's schema. *)
Lemma template_step_schema_static (key : string) (static : pyval) :
  schema !! key = Some (Static static) → key = CONF_PLATFORM.
Proof.
  unfold schema, template_step_schema, TEMPLATE_SUBSCHEMA_schema, extend,
    ADD_ANOTHER_BOX_SCHEMA, SUBSCHEMA_BOILERPLATE.
  intros H.
  repeat (first
    [ apply lookup_union_Some_raw in H as [H|[_ H]]
    | apply lookup_insert_Some in H as [[<- H]|[_ H]]
    | apply lookup_singleton_Some in H as [<- H] ]);
    try discriminate H; done.
Qed.

Lemma preview_form_step_schema (hass : HomeAssistant) (msg : ws_msg)
    (chosen : vol_schema) (entry : option string) :
  preview_form_step TemplateSelector NumberSelector TextSelector cv_boolean
    hass msg = Ok (chosen, entry) →
  chosen = schema.
Proof.
  unfold preview_form_step. destruct (bool_decide _).
  - destruct (flow_async_get _ _); simpl; [|discriminate]. by intros [= <- _].
  - destruct (options_async_get _ _) as [flow_status|]; simpl; [|discriminate].
    destruct (async_get_entry _ _); [|discriminate]. by intros [= <- _].
Qed.

(** C6. The inner [_validate] of the preview handler, run on the schema of
    the template step, always returns, and what it returns holds an error
    under a key exactly when the key is not the platform key, the schema has
    a validator under it, the user input has a value under it, and the
    validator rejects that value, the error being the validator's message.
    Whenever that dictionary is not empty (and the look-up of the flow that
    precedes the validation has not raised), [ws_start_preview] sends one
    message, the failed result with code ["invalid_user_input"] carrying
    the dictionary, and returns: no preview entity is created and the
    subscriptions are what they were. *)
Theorem preview_validation_spec (hass : HomeAssistant) (msg : ws_msg) (w : world) :
  ∃ errors,
    _validate schema (msg_user_input msg) = Ok errors
    ∧ collected schema (msg_user_input msg) errors
    ∧ (errors ≠ ∅ →
       is_Ok (preview_form_step TemplateSelector NumberSelector TextSelector
                cv_boolean hass msg) →
       ∃ w',
         ws_start_preview TemplateSelector NumberSelector TextSelector
           cv_boolean hass msg w = (Ok (), w')
         ∧ sent w' = (sent w
                      ++ [ErrorResult (msg_id msg) "invalid_user_input" errors])%list
         ∧ previews w' = previews w
         ∧ subscriptions w' = subscriptions w).
Proof.
  destruct (validate_collects schema (msg_user_input msg)) as (errors & Hrun & Herrors).
  { intros key static Hkey. left. by apply template_step_schema_static with static. }
  exists errors. split; [exact Hrun|]. split; [exact Herrors|].
  intros Hsome [[chosen entry] Hstep]. unfold ws_start_preview. rewrite Hstep.
  rewrite (preview_form_step_schema _ _ _ _ Hstep). fold schema. rewrite Hrun.
  rewrite bool_decide_eq_false_2 by done. simpl. eexists. by repeat split.
Qed.
End PreviewProperties.

(** C6 at a message of the config flow whose ["prob_given_true"] is a text
    and whose other fields are accepted: one error is collected, and the
    handler answers with it and nothing else. *)
Lemma preview_validation_spec_witness :
  let number (v : pyval) :=
    if isinstance_int_float v then None else Some "expected float" in
  let accept (v : pyval) : option string := None in
  let hass := Hass (λ _, Ok "bayesian") (λ _, Raise UnknownFlow) (λ _, None) (λ _, []) in
  let msg := WsMsg 7 "flow" "config_flow"
               {[ CONF_PLATFORM := VStr "template";
                  CONF_VALUE_TEMPLATE := VStr "{{ true }}";
                  CONF_P_GIVEN_T := VStr "abc"; CONF_P_GIVEN_F := VFloat 20 ]} in
  let errors : error_dict := {[ CONF_P_GIVEN_T := "expected float" ]} in
  ws_start_preview accept number accept accept hass msg (World [] ∅ [])
  = (Ok (), World [ErrorResult 7 "invalid_user_input" errors] ∅ []).
Proof.
  intros number accept hass msg errors.
  destruct (preview_validation_spec accept number accept accept hass msg
              (World [] ∅ [])) as (errors' & Hrun & _ & Hsends).
  assert (errors' = errors) as ->.
  { assert (Hrun' : _validate (template_step_schema accept number accept accept)
                      (msg_user_input msg) = Ok errors) by (vm_compute; reflexivity).
    congruence. }
  destruct Hsends as (w' & Hw' & Hsent & Hpreviews & Hsubscriptions).
  - intros Hempty. assert (H : errors !! CONF_P_GIVEN_T = None)
      by (rewrite Hempty; apply lookup_empty).
    vm_compute in H. discriminate H.
  - evaluates.
  - rewrite Hw'. destruct w'. simpl in *. by subst.
Defined.

(* ===================================================================== *)
(** ** Properties: decimal numerals *)
(* ===================================================================== *)

Lemma lstrip_id (c : ascii) (s : list ascii) :
  is_space c = false → lstrip (c :: s) = c :: s.
Proof. intros H. simpl. by rewrite H. Qed.

Lemma strip_id (s : list ascii) :
  Forall (λ c, is_space c = false) s → strip s = s.
Proof.
  intros Hs. unfold strip.
  assert (Hl : ∀ t, Forall (λ c, is_space c = false) t → lstrip t = t).
  { intros [|c t] Ht; [done|]. apply lstrip_id. by inversion Ht. }
  rewrite (Hl s Hs). rewrite Hl by by apply Forall_rev.
  apply rev_involutive.
Qed.

Lemma digits_of_uint_acc (d : Decimal.uint) (acc : positive) :
  digits (Z.pos acc) true (uint_chars d) = Some (Z.pos (Pos.of_uint_acc d acc)).
Proof.
  revert acc. induction d; intros acc; [done|..];
    cbn [uint_chars NilEmpty.string_of_uint list_ascii_of_string digits];
    fold (uint_chars d);
    (change (digit_of "0") with (Some 0) || change (digit_of "1") with (Some 1)
     || change (digit_of "2") with (Some 2) || change (digit_of "3") with (Some 3)
     || change (digit_of "4") with (Some 4) || change (digit_of "5") with (Some 5)
     || change (digit_of "6") with (Some 6) || change (digit_of "7") with (Some 7)
     || change (digit_of "8") with (Some 8) || change (digit_of "9") with (Some 9));
    cbv iota beta; (etrans; [|apply IHd]); f_equal; lia.
Qed.

Lemma digits_of_uint (d : Decimal.uint) (after_digit : bool) :
  d ≠ Decimal.Nil ∨ after_digit = true →
  digits 0 after_digit (uint_chars d) = Some (Z.of_N (Pos.of_uint d)).
Proof.
  revert after_digit. induction d; intros after_digit Hd.
  { destruct Hd as [Hd| ->]; [done|]. reflexivity. }
  { cbn [uint_chars NilEmpty.string_of_uint list_ascii_of_string digits Pos.of_uint].
    change (digit_of "0") with (Some 0). cbv iota beta.
    change (10 * 0 + 0) with 0. apply IHd. by right. }
  all: cbn [uint_chars NilEmpty.string_of_uint list_ascii_of_string digits Pos.of_uint];
    (change (digit_of "1") with (Some 1)
     || change (digit_of "2") with (Some 2) || change (digit_of "3") with (Some 3)
     || change (digit_of "4") with (Some 4) || change (digit_of "5") with (Some 5)
     || change (digit_of "6") with (Some 6) || change (digit_of "7") with (Some 7)
     || change (digit_of "8") with (Some 8) || change (digit_of "9") with (Some 9));
    cbv iota beta; apply (digits_of_uint_acc d).
Qed.

Lemma uint_chars_digits (d : Decimal.uint) :
  Forall (λ c, is_Some (digit_of c)) (uint_chars d).
Proof.
  induction d; [constructor|..];
    (constructor; [by eexists|exact IHd]).
Qed.

Lemma digit_not_space (c : ascii) : is_Some (digit_of c) → is_space c = false.
Proof.
  unfold digit_of, is_space. intros [d Hd].
  destruct (_ && _)%nat eqn:H in Hd; [|discriminate].
  apply andb_true_iff in H as [H1%Nat.leb_le H2%Nat.leb_le].
  apply orb_false_iff. split.
  - apply andb_false_iff. right. apply Nat.leb_gt. lia.
  - apply Nat.eqb_neq. lia.
Qed.

Lemma uint_chars_not_space (d : Decimal.uint) :
  Forall (λ c, is_space c = false) (uint_chars d).
Proof.
  eapply Forall_impl; [apply uint_chars_digits|]. apply digit_not_space.
Qed.

Lemma string_of_uint_chars (d : Decimal.uint) :
  d ≠ Decimal.Nil →
  list_ascii_of_string (NilZero.string_of_uint d) = uint_chars d.
Proof. by destruct d. Qed.

(** [int(str(z))] is [z]. *)
Lemma int_of_str_of_int (z : Z) (s : string) :
  str_of_int z = Ok s → int_of_str s = Ok z.
Proof.
  unfold str_of_int.
  destruct (within_digit_limit _) eqn:Hlimit; [|discriminate].
  intros [= <-]. unfold int_of_str.
  destruct z as [|p|p]; [done|..]; cbn [Z.to_int NilZero.string_of_int] in *.
  - rewrite string_of_uint_chars in * by apply Unsigned.to_uint_nonnil.
    rewrite strip_id by apply uint_chars_not_space.
    rewrite Hlimit.
    assert (Hd : digits 0 false (uint_chars (Pos.to_uint p)) = Some (Z.pos p)).
    { rewrite digits_of_uint by (left; apply Unsigned.to_uint_nonnil).
      by rewrite Unsigned.of_to. }
    pose proof (uint_chars_digits (Pos.to_uint p)) as Hall.
    destruct (uint_chars (Pos.to_uint p)) as [|c body] eqn:Hc; [done|].
    assert (Hsign : c ≠ "-"%char ∧ c ≠ "+"%char).
    { inversion Hall as [|? ? [dg Hdg] _]; subst.
      split; intros ->; vm_compute in Hdg; discriminate. }
    destruct Hsign as [Hm Hp].
    destruct c as [[] [] [] [] [] [] [] []]; try (by rewrite Hd); congruence.
  - cbn [list_ascii_of_string] in *.
    rewrite string_of_uint_chars in * by apply Unsigned.to_uint_nonnil.
    rewrite strip_id.
    2:{ constructor; [done|apply uint_chars_not_space]. }
    rewrite Hlimit.
    rewrite digits_of_uint by (left; apply Unsigned.to_uint_nonnil).
    by rewrite Unsigned.of_to.
Qed.

(** The string of an [int] is not empty, so it is true. *)
Lemma str_of_int_truthy (z : Z) (s : string) :
  str_of_int z = Ok s → py_truthy (VStr s) = true.
Proof.
  unfold str_of_int. destruct (within_digit_limit _); [|discriminate].
  intros [= <-]. simpl. apply negb_true_iff, bool_decide_eq_false.
  destruct z as [|p|p]; [done| |done]. cbn [Z.to_int NilZero.string_of_int].
  pose proof (Unsigned.to_uint_nonnil p). by destruct (Pos.to_uint p).
Qed.

Lemma str_of_int_inj (z1 z2 : Z) (s : string) :
  str_of_int z1 = Ok s → str_of_int z2 = Ok s → z1 = z2.
Proof.
  intros H1%int_of_str_of_int H2%int_of_str_of_int. congruence.
Qed.

(* ===================================================================== *)
(** ** Properties: the selection form *)
(* ===================================================================== *)

Section FormatProperties.
Variable float_repr : float → string.

(** The invariant of the comprehension over [enumerate]: the positions
    gone through are in the dictionary under their own keys, and no other
    key has been touched. *)
Lemma observation_choices_Ok (index : nat) (l : list pydict)
    (choices out : gmap string string) :
  observation_choices float_repr index l choices = Ok out →
  (∀ n config, l !! n = Some config →
     ∃ key label,
       str_of_int (Z.of_nat (index + n)) = Ok key
       ∧ observation_label float_repr config = Ok label
       ∧ out !! key = Some label)
  ∧ (∀ key, (∀ n, (n < length l)%nat →
               str_of_int (Z.of_nat (index + n)) ≠ Ok key) →
       out !! key = choices !! key).
Proof.
  revert index choices. induction l as [|config l IH]; intros index choices.
  - intros [= <-]. split; [|done]. intros n config. by rewrite lookup_nil.
  - cbn [observation_choices].
    destruct (str_of_int (Z.of_nat index)) as [key|e] eqn:Hkey; [|discriminate].
    destruct (observation_label float_repr config) as [label|e] eqn:Hlabel;
      [|discriminate].
    intros H. apply IH in H as [Hin Hout]. split.
    + intros [|n] config' Hn.
      * injection Hn as <-. exists key, label. rewrite Nat.add_0_r.
        split; [done|]. split; [done|].
        rewrite Hout; [apply lookup_insert_eq|].
        intros n _ Hn. pose proof (str_of_int_inj _ _ _ Hkey Hn). lia.
      * apply Hin in Hn as (key' & label' & Hk & Hl & Ho).
        exists key', label'. by replace (index + S n)%nat with (S index + n)%nat by lia.
    + intros key' Hnone. rewrite Hout.
      * rewrite lookup_insert_ne; [done|]. intros <-.
        apply (Hnone 0%nat); [simpl; lia|]. by rewrite Nat.add_0_r.
      * intros n Hn. replace (S index + n)%nat with (index + S n)%nat by lia.
        apply Hnone. simpl. lia.
Qed.

(** Each position adds one choice. *)
Lemma observation_choices_size (index : nat) (l : list pydict)
    (choices out : gmap string string) :
  observation_choices float_repr index l choices = Ok out →
  (∀ n key, str_of_int (Z.of_nat (index + n)) = Ok key → choices !! key = None) →
  size out = (size choices + length l)%nat.
Proof.
  revert index choices. induction l as [|config l IH]; intros index choices.
  - intros [= <-] _. simpl. lia.
  - cbn [observation_choices].
    destruct (str_of_int (Z.of_nat index)) as [key|e] eqn:Hkey; [|discriminate].
    destruct (observation_label float_repr config) as [label|e] eqn:Hlabel;
      [|discriminate].
    intros H Hfresh. apply IH in H.
    + rewrite H, map_size_insert_None; [simpl; lia|].
      apply (Hfresh 0%nat). by rewrite Nat.add_0_r.
    + intros n key' Hn. rewrite lookup_insert_ne.
      * apply (Hfresh (S n)). by replace (index + S n)%nat with (S index + n)%nat by lia.
      * intros <-. pose proof (str_of_int_inj _ _ _ Hkey Hn). lia.
Qed.

(** The comprehension returns when each key and each label can be made. *)
Lemma observation_choices_total (index : nat) (l : list pydict)
    (choices : gmap string string) :
  (∀ n config, l !! n = Some config →
     is_Ok (str_of_int (Z.of_nat (index + n)))
     ∧ is_Ok (observation_label float_repr config)) →
  is_Ok (observation_choices float_repr index l choices).
Proof.
  revert index choices. induction l as [|config l IH]; intros index choices Hall.
  - by eexists.
  - cbn [observation_choices].
    destruct (Hall 0%nat config eq_refl) as [[key Hkey] [label Hlabel]].
    rewrite Nat.add_0_r in Hkey. rewrite Hkey, Hlabel. simpl.
    apply IH. intros n config' Hn.
    replace (S index + n)%nat with (index + S n)%nat by lia. by apply Hall.
Qed.

(** A key is the string of a position of the list, or of none. *)
Lemma key_position (len : nat) (key : string) :
  (∃ n, (n < len)%nat ∧ str_of_int (Z.of_nat n) = Ok key)
  ∨ (∀ n, (n < len)%nat → str_of_int (Z.of_nat n) ≠ Ok key).
Proof.
  induction len as [|len [(n & Hn & Hkey)|Hno]].
  - right. lia.
  - left. exists n. split; [lia|done].
  - destruct (str_of_int (Z.of_nat len)) as [key'|e] eqn:Hlen.
    + destruct (decide (key' = key)) as [->|Hne].
      * left. exists len. split; [lia|done].
      * right. intros n Hn. destruct (decide (n = len)) as [->|];
          [congruence|apply Hno; lia].
    + right. intros n Hn. destruct (decide (n = len)) as [->|];
        [congruence|apply Hno; lia].
Qed.

Lemma observation_choices_offers (l : list pydict) (choices : gmap string string) :
  observation_choices float_repr 0 l ∅ = Ok choices ↔ offers float_repr l choices.
Proof.
  split.
  - intros H. pose proof (observation_choices_Ok _ _ _ _ H) as [Hin Hout].
    split; [exact Hin|]. split.
    + intros key [label Hlabel].
      destruct (key_position (length l) key) as [Hex|Hno]; [exact Hex|].
      rewrite Hout, lookup_empty in Hlabel; [done|exact Hno].
    + rewrite (observation_choices_size _ _ _ _ H); [by rewrite map_size_empty|].
      intros. apply lookup_empty.
  - intros (Hin & Hkeys & _).
    destruct (observation_choices_total 0 l ∅) as [out Hout].
    { intros n config Hn. destruct (Hin n config Hn) as (key & label & Hk & Hl & _).
      split; by eexists. }
    rewrite Hout. f_equal. apply map_eq. intros key.
    pose proof (observation_choices_Ok _ _ _ _ Hout) as [Hin' Hout'].
    destruct (key_position (length l) key) as [(n & Hn & Hkey)|Hno].
    + apply lookup_lt_is_Some in Hn as [config Hconfig].
      destruct (Hin n config Hconfig) as (k1 & l1 & Hk1 & Hl1 & Hc1).
      destruct (Hin' n config Hconfig) as (k2 & l2 & Hk2 & Hl2 & Hc2).
      simpl in Hk2. assert (k1 = key) as -> by congruence.
      assert (k2 = key) as -> by congruence. congruence.
    + rewrite Hout', lookup_empty; [|exact Hno].
      destruct (choices !! key) as [label|] eqn:Hlabel; [|done].
      destruct (Hkeys key) as (n & Hn & Hkey); [by eexists|].
      by destruct (Hno n Hn).
Qed.
End FormatProperties.

Section SelectionProperties.
Variable float_repr : float → string.

Lemma enumerate_choices_Ok (observations : optval) (choices : gmap string string) :
  enumerate_choices float_repr observations = Ok choices ↔
    (∃ l, observations = Observations l ∧ offers float_repr l choices)
    ∨ (observations = Field (VStr "") ∧ choices = ∅).
Proof.
  destruct observations as [v|l]; simpl.
  - split.
    + destruct v as [| | | |s]; try discriminate.
      destruct (decide (s = "")) as [->|Hs].
      * intros [= <-]. by right.
      * by rewrite bool_decide_eq_false_2.
    + intros [(l & [=] & _)|[[= ->] ->]]. done.
  - rewrite observation_choices_offers. split.
    + intros H. left. by exists l.
    + intros [(l' & [= <-] & H)|[[=] _]]. done.
Qed.

Lemma get_select_observation_schema_Ok (options : options_dict)
    (choices : gmap string string) :
  _get_select_observation_schema float_repr options = Ok (vol_In choices) ↔
    (∃ l, options !! CONF_OBSERVATIONS = Some (Observations l)
          ∧ offers float_repr l choices)
    ∨ (options !! CONF_OBSERVATIONS = Some (Field (VStr "")) ∧ choices = ∅).
Proof.
  unfold _get_select_observation_schema, getitem.
  destruct (options !! CONF_OBSERVATIONS) as [observations|]; simpl.
  - trans (enumerate_choices float_repr observations = Ok choices).
    + destruct (enumerate_choices float_repr observations); simpl;
        split; intros [= ->]; done.
    + rewrite enumerate_choices_Ok. split.
      * intros [(l & -> & H)|[-> ->]]; [left; by exists l|by right].
      * intros [(l & [= ->] & H)|[[= ->] ->]]; [left; by exists l|by right].
  - split; [discriminate|]. intros [(l & [=] & _)|[[=] _]].
Qed.

Lemma get_remove_observation_schema_select (options : options_dict)
    (choices : gmap string string) :
  _get_remove_observation_schema float_repr options = Ok (cv_multi_select choices) ↔
  _get_select_observation_schema float_repr options = Ok (vol_In choices).
Proof.
  unfold _get_remove_observation_schema, _get_select_observation_schema.
  destruct (getitem options CONF_OBSERVATIONS) as [observations|]; simpl; [|done].
  destruct (enumerate_choices float_repr observations); simpl; [|done].
  split; intros [= ->]; done.
Qed.

(** An observation that has a label has a platform. *)
Lemma observation_label_platform (config : pydict) (label : string) :
  observation_label float_repr config = Ok label →
  is_Some (config !! CONF_PLATFORM).
Proof.
  unfold observation_label, getitem.
  destruct (config !! CONF_PLATFORM); [by eexists|discriminate].
Qed.

(** A choice of the selection form names a position of the list. *)
Lemma offered_choice (options : options_dict) (choices : gmap string string)
    (key label : string) :
  _get_select_observation_schema float_repr options = Ok (vol_In choices) →
  choices !! key = Some label →
  ∃ l n config platform,
    options !! CONF_OBSERVATIONS = Some (Observations l)
    ∧ l !! n = Some config
    ∧ str_of_int (Z.of_nat n) = Ok key
    ∧ observation_label float_repr config = Ok label
    ∧ config !! CONF_PLATFORM = Some platform.
Proof.
  intros Hselect Hkey.
  apply get_select_observation_schema_Ok in Hselect
    as [(l & Hl & Hin & Hkeys & _)|[_ ->]]; [|by rewrite lookup_empty in Hkey].
  destruct (Hkeys key) as (n & Hn & Hstr); [by eexists|].
  apply lookup_lt_is_Some in Hn as [config Hconfig].
  destruct (Hin n config Hconfig) as (key' & label' & Hstr' & Hlabel & Hchoice).
  assert (key' = key) as -> by congruence.
  assert (label' = label) as -> by congruence.
  destruct (observation_label_platform config label Hlabel) as [platform Hplatform].
  by exists l, n, config, platform.
Qed.
End SelectionProperties.

Lemma list_index_nat {A} (l : list A) (n : nat) :
  (n < length l)%nat → list_index l (Z.of_nat n) = Some n.
Proof.
  intros Hn. unfold list_index.
  rewrite (proj2 (andb_true_iff _ _)).
  - by rewrite Nat2Z.id.
  - split; [apply Z.leb_le|apply Z.ltb_lt]; lia.
Qed.

Lemma platform_schema_eq (platform : pyval) :
  platform_schema platform =
    if py_eq platform (VStr "state") then Some STATE_SUBSCHEMA
    else if py_eq platform (VStr "numeric_state") then Some NUMERIC_STATE_SUBSCHEMA
    else if py_eq platform (VStr "template") then Some TEMPLATE_SUBSCHEMA
    else None.
Proof. reflexivity. Qed.

(** The suggested values, once the look-ups have gone through. *)
Lemma get_edit_observation_suggested_values_unfold (opts : options_dict)
    (l : list pydict) (index : optval) (i : Z) (n : nat) (observation : pydict) :
  opts !! CONF_OBSERVATIONS = Some (Observations l) →
  opts !! "index" = Some index →
  optval_int index = Ok i →
  list_index l i = Some n →
  l !! n = Some observation →
  _get_edit_observation_suggested_values opts
  = _convert_fractions_to_percentages observation.
Proof.
  intros Hl Hindex Hint Hn Hobs.
  unfold _get_edit_observation_suggested_values, getitem.
  rewrite Hindex. simpl. rewrite Hint. simpl. rewrite Hl. simpl.
  unfold list_getitem. rewrite Hn. simpl. by rewrite Hobs.
Qed.

(* ===================================================================== *)
(** ** Properties: append or overwrite, by the index of the selection *)
(* ===================================================================== *)

(** C1. [_validate_observation_setup], on an input that passes its tests
    and converts, stores the converted input by append or overwrite.
    - With no ["index"] entry in [handler.options], it appends the converted
      input to the list of observations, which it creates when there is
      none; the observations already there keep their places.
    - With an ["index"] entry, a non-empty string that [int()] reads as a
      position of the list (the list is long enough), it overwrites the
      observation at that position with the converted input; the list keeps
      its length and every other observation.
    - The ["index"] entries are those the selection form offers: each choice
      [_get_select_observation_schema] offers is such a string, the decimal
      numeral [str(n)] of a position [n] of the list, the first position
      ["0"] included, and [int()] reads it as [n].
    In both cases the function returns the flag dictionary and the passed
    dictionary has lost its ["add_another"] entry. The converted input is
    the passed dictionary without that entry, its numbers under the four
    probability keys divided by [100]. *)
Theorem append_or_overwrite_spec (s : store)
    (p_given_t p_given_f platform : pyval) (converted : pydict) :
  let l := observation_list (options s) in
  let flag := add_another_result (dict_get (passed_input s) "add_another" (VBool false)) in
  let popped := delete "add_another" (passed_input s) in
  passed_input s !! CONF_P_GIVEN_T = Some p_given_t →
  passed_input s !! CONF_P_GIVEN_F = Some p_given_f →
  py_eq p_given_t p_given_f = false →
  passed_input s !! CONF_PLATFORM = Some platform →
  _convert_percentages_to_fractions popped = Ok converted →
  (∀ v, options s !! CONF_OBSERVATIONS ≠ Some (Field v)) →
  (options s !! "index" = None →
     _validate_observation_setup s =
       (Ok flag,
        Store (<[CONF_OBSERVATIONS := Observations (l ++ [converted])]> (options s))
              popped)
     ∧ (options s !! CONF_OBSERVATIONS = None → (l ++ [converted])%list = [converted])
     ∧ (∀ m, (m < length l)%nat → (l ++ [converted])%list !! m = l !! m)
     ∧ (l ++ [converted])%list !! length l = Some converted
     ∧ length (l ++ [converted])%list = S (length l))
  ∧ (∀ key i n,
       options s !! "index" = Some (Field (VStr key)) →
       key ≠ "" →
       int_of_str key = Ok i →
       list_index l i = Some n →
       _validate_observation_setup s =
         (Ok flag,
          Store (<[CONF_OBSERVATIONS := Observations (<[n := converted]> l)]> (options s))
                popped)
       ∧ <[n := converted]> l !! n = Some converted
       ∧ (∀ m, m ≠ n → <[n := converted]> l !! m = l !! m)
       ∧ length (<[n := converted]> l) = length l)
  ∧ (∀ float_repr opts choices key label,
       _get_select_observation_schema float_repr opts = Ok (vol_In choices) →
       choices !! key = Some label →
       key ≠ ""
       ∧ ∃ n, (n < length (observation_list opts))%nat
              ∧ str_of_int (Z.of_nat n) = Ok key
              ∧ int_of_str key = Ok (Z.of_nat n)
              ∧ list_index (observation_list opts) (Z.of_nat n) = Some n)
  ∧ converted_entries popped converted.
Proof.
  intros l flag popped Ht Hf Hne Hplatform Hconv Hlist.
  split; [|split; [|split]];
    [| | |revert converted Hconv; unfold converted_entries, probability_keys;
          fractions_entries].
  - intros Hindex. split; [|split; [|split; [|split]]].
    + apply (validate_observation_setup_appends s p_given_t p_given_f platform);
        try done. by rewrite Hindex.
    + intros Hnone. subst l. unfold observation_list. by rewrite Hnone.
    + intros m Hm. by apply lookup_app_l.
    + rewrite lookup_app_r by done. by rewrite Nat.sub_diag.
    + rewrite length_app. simpl. lia.
  - intros key i n Hindex Hkey Hint Hn. split; [|split; [|split]].
    + apply validate_observation_setup_Ok.
      exists p_given_t, p_given_f, platform.
      split; [done|]. split; [done|]. split; [done|]. split; [done|].
      apply store_observation_Ok. exists converted, (<[n := converted]> l).
      split; [done|]. split; [done|]. split; [done|]. split; [done|].
      cbv zeta. rewrite Hindex. cbn [default from_option id].
      assert (Htrue : optval_truthy (Field (VStr key)) = true).
      { simpl. apply negb_true_iff. by apply bool_decide_eq_false. }
      rewrite Htrue. by exists i, n.
    + apply list_lookup_insert_eq. by eapply list_index_lt.
    + intros m Hm. by apply list_lookup_insert_ne.
    + apply length_insert.
  - intros float_repr opts choices key label Hselect Hchoice.
    destruct (offered_choice _ _ _ _ _ Hselect Hchoice)
      as (l' & n & config & _ & Hl & Hn & Hstr & _ & _).
    assert (Hlist' : observation_list opts = l').
    { unfold observation_list. by rewrite Hl. }
    assert (Hlt : (n < length l')%nat) by by eapply lookup_lt_Some.
    split.
    + intros ->. pose proof (str_of_int_truthy _ _ Hstr) as Htrue.
      vm_compute in Htrue. discriminate Htrue.
    + exists n. rewrite Hlist'. split; [done|]. split; [done|].
      split; [by apply int_of_str_of_int|by apply list_index_nat].
Qed.

(** C1 at a list of two observations and an input of 80 % and 20 %, stored
    as [0.8] and [0.2]: with no index the input becomes the third; with the
    index ["0"], the first choice of the selection form, it replaces the
    first; and with no list yet, it becomes the only one. *)
Lemma append_or_overwrite_spec_witness :
  let door : pydict :=
    {[ CONF_PLATFORM := VStr "state"; CONF_NAME := VStr "door" ]} in
  let sun : pydict :=
    {[ CONF_PLATFORM := VStr "template"; CONF_NAME := VStr "sun" ]} in
  let submitted : pydict :=
    {[ CONF_PLATFORM := VStr "state"; CONF_NAME := VStr "gate";
       CONF_P_GIVEN_T := VFloat 80; CONF_P_GIVEN_F := VFloat 20 ]} in
  let converted : pydict :=
    {[ CONF_PLATFORM := VStr "state"; CONF_NAME := VStr "gate";
       CONF_P_GIVEN_T := VFloat 0x1.999999999999ap-1;
       CONF_P_GIVEN_F := VFloat 0x1.999999999999ap-3 ]} in
  let adding : options_dict := {[ CONF_OBSERVATIONS := Observations [door; sun] ]} in
  let editing : options_dict := <["index" := Field (VStr "0")]> adding in
  _get_select_observation_schema (λ _, "") adding
    = Ok (vol_In {[ "0" := "state observation: door";
                    "1" := "template observation: sun" ]})
  ∧ _validate_observation_setup (Store adding submitted)
    = (Ok ∅,
       Store {[ CONF_OBSERVATIONS := Observations [door; sun; converted] ]} submitted)
  ∧ _validate_observation_setup (Store editing submitted)
    = (Ok ∅,
       Store (<["index" := Field (VStr "0")]>
                {[ CONF_OBSERVATIONS := Observations [converted; sun] ]})
             submitted)
  ∧ _validate_observation_setup (Store ∅ submitted)
    = (Ok ∅, Store {[ CONF_OBSERVATIONS := Observations [converted] ]} submitted).
Proof.
  intros door sun submitted converted adding editing.
  assert (Hconv : _convert_percentages_to_fractions (delete "add_another" submitted)
                  = Ok converted) by (vm_compute; reflexivity).
  assert (Hflag : add_another_result (dict_get submitted "add_another" (VBool false))
                  = ∅) by (vm_compute; reflexivity).
  assert (Hpopped : delete "add_another" submitted = submitted)
    by (apply delete_id; reflexivity).
  assert (Hspec : ∀ opts,
            (∀ v, opts !! CONF_OBSERVATIONS ≠ Some (Field v)) →
            (opts !! "index" = None →
               _validate_observation_setup (Store opts submitted) =
                 (Ok ∅,
                  Store (<[CONF_OBSERVATIONS :=
                             Observations (observation_list opts ++ [converted])]> opts)
                        submitted))
            ∧ (∀ key i n,
                 opts !! "index" = Some (Field (VStr key)) → key ≠ "" →
                 int_of_str key = Ok i →
                 list_index (observation_list opts) i = Some n →
                 _validate_observation_setup (Store opts submitted) =
                   (Ok ∅,
                    Store (<[CONF_OBSERVATIONS :=
                               Observations (<[n := converted]> (observation_list opts))]>
                             opts)
                          submitted))).
  { intros opts Hlist.
    destruct (append_or_overwrite_spec (Store opts submitted)
                (VFloat 80) (VFloat 20) (VStr "state") converted
                eq_refl eq_refl eq_refl eq_refl Hconv Hlist)
      as (Happend & Hoverwrite & _).
    cbn [options passed_input] in Happend, Hoverwrite.
    rewrite Hflag, Hpopped in Happend, Hoverwrite. split.
    - intros Hindex. by destruct (Happend Hindex) as [Hrun _].
    - intros key i n Hindex Hkey Hint Hn.
      by destruct (Hoverwrite key i n Hindex Hkey Hint Hn) as [Hrun _]. }
  split; [vm_compute; reflexivity|]. split; [|split].
  - destruct (Hspec adding) as [Happend _].
    { intros v. unfold adding. rewrite lookup_singleton_eq. discriminate. }
    rewrite Happend by reflexivity. reflexivity.
  - destruct (Hspec editing) as [_ Hoverwrite].
    { intros v. unfold editing, adding.
      rewrite lookup_insert_ne by discriminate.
      rewrite lookup_singleton_eq. discriminate. }
    rewrite (Hoverwrite "0" 0 0%nat) by (reflexivity || discriminate).
    reflexivity.
  - destruct (Hspec ∅) as [Happend _].
    { intros v. by rewrite lookup_empty. }
    rewrite Happend by reflexivity. reflexivity.
Defined.

(* ===================================================================== *)
(** ** Properties: the choices of the selection form *)
(* ===================================================================== *)

(** Doubling a numeral, least significant digit first, adds at most one
    digit. *)
Lemma nb_digits_double (d : Decimal.uint) :
  (Decimal.nb_digits (Decimal.Little.double d) ≤ S (Decimal.nb_digits d))%nat
  ∧ (Decimal.nb_digits (Decimal.Little.succ_double d) ≤ S (Decimal.nb_digits d))%nat.
Proof.
  induction d as [|d [IH1 IH2]|d [IH1 IH2]|d [IH1 IH2]|d [IH1 IH2]|d [IH1 IH2]
                  |d [IH1 IH2]|d [IH1 IH2]|d [IH1 IH2]|d [IH1 IH2]|d [IH1 IH2]];
    simpl; lia.
Qed.

(** A number has no more decimal digits than binary ones. *)
Lemma nb_digits_to_uint (p : positive) :
  (Decimal.nb_digits (Pos.to_uint p) ≤ Pos.size_nat p)%nat.
Proof.
  unfold Pos.to_uint. rewrite DecimalFacts.nb_digits_rev.
  induction p as [p IH|p IH|]; simpl.
  - pose proof (nb_digits_double (Pos.to_little_uint p)). lia.
  - pose proof (nb_digits_double (Pos.to_little_uint p)). lia.
  - lia.
Qed.

Lemma uint_chars_length (d : Decimal.uint) :
  length (filter (λ c, is_Some (digit_of c)) (uint_chars d)) = Decimal.nb_digits d.
Proof.
  induction d; [done|..];
    (cbn [uint_chars NilEmpty.string_of_uint list_ascii_of_string Decimal.nb_digits];
     fold (uint_chars d); rewrite filter_cons_True by (by eexists);
     simpl; by rewrite IHd).
Qed.

(** The string of a position of a list: a Python list holds fewer than
    [2 ^ 63] items, far below the limit on digits. *)
Lemma str_of_int_small (z : Z) :
  0 ≤ z < 2 ^ 63 → str_of_int z = Ok (NilZero.string_of_int (Z.to_int z)).
Proof.
  intros Hz. unfold str_of_int.
  destruct z as [|p|p]; [done| |lia].
  cbn [Z.to_int NilZero.string_of_int].
  rewrite string_of_uint_chars by apply Unsigned.to_uint_nonnil.
  unfold within_digit_limit. rewrite uint_chars_length.
  rewrite (proj2 (Nat.leb_le _ _)); [done|].
  pose proof (nb_digits_to_uint p) as Hdigits.
  assert (Hsize : (Pos.size_nat p ≤ 64)%nat).
  { assert (Hlt : (p < 2 ^ 63)%positive) by lia.
    apply Pos.size_nat_monotone in Hlt.
    assert (Hpow : Pos.size_nat (2 ^ 63) = 64%nat) by (vm_compute; reflexivity).
    lia. }
  unfold max_str_digits. lia.
Qed.

(** The label of an observation whose platform and name are texts. *)
Lemma observation_label_text (float_repr : float → string) (config : pydict)
    (platform : string) :
  config !! "platform" = Some (VStr platform) →
  (∀ name, config !! "name" = Some (VStr name) →
     observation_label float_repr config
     = Ok (String.append platform (String.append " observation: " name)))
  ∧ (config !! "name" = None →
     observation_label float_repr config
     = Ok (String.append platform " observation: None")).
Proof.
  intros Hplatform. unfold observation_label, getitem, dict_get.
  change CONF_PLATFORM with "platform". change CONF_NAME with "name".
  rewrite Hplatform. split.
  - intros name ->. reflexivity.
  - intros ->. reflexivity.
Qed.

(** X1. The selection form offers one choice per stored observation. When
    [handler.options] holds a list of observations (of fewer than [2 ^ 63]
    items, as every Python list) whose platforms are texts and whose names
    are texts or missing, [_get_select_observation_schema] returns a
    selection, and [_get_remove_observation_schema] a multi-select over the
    same choices. There are as many choices as observations; the keys are
    exactly the decimal numerals ["0"], ["1"], ... of the positions of the
    list; and the choice of a position is labelled with the platform of the
    observation there, the text [" observation: "], and its name, or
    ["None"] when it has none. *)
Theorem select_observation_schema_spec (float_repr : float → string)
    (options : options_dict) (l : list pydict) :
  options !! "observations" = Some (Observations l) →
  Z.of_nat (length l) ≤ 2 ^ 63 →
  (∀ config, config ∈ l →
     (∃ platform, config !! "platform" = Some (VStr platform))
     ∧ (∀ v, config !! "name" = Some v → ∃ name, v = VStr name)) →
  ∃ choices,
    _get_select_observation_schema float_repr options = Ok (vol_In choices)
    ∧ _get_remove_observation_schema float_repr options = Ok (cv_multi_select choices)
    ∧ size choices = length l
    ∧ (∀ key, is_Some (choices !! key) ↔
         ∃ n, (n < length l)%nat
              ∧ key = NilZero.string_of_int (Z.to_int (Z.of_nat n)))
    ∧ (∀ n config platform,
         l !! n = Some config →
         config !! "platform" = Some (VStr platform) →
         (∀ name, config !! "name" = Some (VStr name) →
            choices !! NilZero.string_of_int (Z.to_int (Z.of_nat n))
            = Some (String.append platform (String.append " observation: " name)))
         ∧ (config !! "name" = None →
            choices !! NilZero.string_of_int (Z.to_int (Z.of_nat n))
            = Some (String.append platform " observation: None"))).
Proof.
  intros Hl Hlen Hplain.
  assert (Hkey : ∀ n, (n < length l)%nat →
            str_of_int (Z.of_nat n)
            = Ok (NilZero.string_of_int (Z.to_int (Z.of_nat n)))).
  { intros n Hn. apply str_of_int_small. lia. }
  assert (Hlabel : ∀ config, config ∈ l →
            is_Ok (observation_label float_repr config)).
  { intros config Hin. destruct (Hplain config Hin) as [[platform Hp] Hname].
    destruct (observation_label_text float_repr config platform Hp) as [Hsome Hnone].
    destruct (config !! "name") as [v|] eqn:Hv.
    - destruct (Hname v eq_refl) as [name ->]. eexists. by apply Hsome.
    - eexists. by apply Hnone. }
  destruct (observation_choices_total float_repr 0 l ∅) as [choices Hchoices].
  { intros n config Hn. split.
    - rewrite Hkey; [by eexists|]. by eapply lookup_lt_Some.
    - apply Hlabel. by eapply list_elem_of_lookup_2. }
  pose proof (proj1 (observation_choices_offers float_repr l choices) Hchoices)
    as (Hin & Hkeys & Hsize).
  assert (Hselect : _get_select_observation_schema float_repr options
                    = Ok (vol_In choices)).
  { apply get_select_observation_schema_Ok. left. exists l.
    split; [exact Hl|]. by apply observation_choices_offers. }
  exists choices. split; [exact Hselect|].
  split; [by apply get_remove_observation_schema_select|].
  split; [exact Hsize|]. split.
  - intros key. split.
    + intros Hsome. destruct (Hkeys key Hsome) as (n & Hn & Hstr).
      exists n. split; [done|]. rewrite Hkey in Hstr by done. congruence.
    + intros (n & Hn & ->).
      destruct (lookup_lt_is_Some_2 l n Hn) as [config Hconfig].
      destruct (Hin n config Hconfig) as (key & label & Hstr & _ & Hchoice).
      rewrite Hkey in Hstr by done. injection Hstr as <-. by eexists.
  - intros n config platform Hconfig Hplatform.
    destruct (Hin n config Hconfig) as (key & label & Hstr & Hlab & Hchoice).
    rewrite Hkey in Hstr by by eapply lookup_lt_Some. injection Hstr as <-.
    destruct (observation_label_text float_repr config platform Hplatform)
      as [Hsome Hnone].
    split.
    + intros name Hname. rewrite Hchoice. f_equal.
      rewrite (Hsome name Hname) in Hlab. congruence.
    + intros Hname. rewrite Hchoice. f_equal.
      rewrite (Hnone Hname) in Hlab. congruence.
Qed.

(** X1 at a named and an unnamed observation. *)
Lemma select_observation_schema_spec_witness :
  let door : pydict := {[ "platform" := VStr "state"; "name" := VStr "door" ]} in
  let sun : pydict := {[ "platform" := VStr "template" ]} in
  let options : options_dict := {[ "observations" := Observations [door; sun] ]} in
  let choices : gmap string string :=
    {[ "0" := "state observation: door"; "1" := "template observation: None" ]} in
  _get_select_observation_schema (λ _, "") options = Ok (vol_In choices)
  ∧ _get_remove_observation_schema (λ _, "") options = Ok (cv_multi_select choices)
  ∧ ∃ choices',
      _get_select_observation_schema (λ _, "") options = Ok (vol_In choices')
      ∧ size choices' = 2%nat
      ∧ choices' !! "0" = Some "state observation: door"
      ∧ choices' !! "1" = Some "template observation: None".
Proof.
  intros door sun options choices.
  split; [vm_compute; reflexivity|]. split; [vm_compute; reflexivity|].
  destruct (select_observation_schema_spec (λ _, "") options [door; sun])
    as (choices' & Hselect & _ & Hsize & _ & Hlabels).
  - reflexivity.
  - vm_compute. discriminate.
  - intros config Hin. apply elem_of_cons in Hin as [->|Hin].
    { split; [by eexists|]. intros v Hv. injection Hv as <-. by eexists. }
    apply elem_of_cons in Hin as [->|Hin]; [|by apply elem_of_nil in Hin].
    split; [by eexists|]. intros v Hv. discriminate Hv.
  - exists choices'. split; [exact Hselect|]. split; [exact Hsize|]. split.
    + destruct (Hlabels 0%nat door "state" eq_refl eq_refl) as [Hname _].
      exact (Hname "door" eq_refl).
    + destruct (Hlabels 1%nat sun "template" eq_refl eq_refl) as [_ Hnone].
      exact (Hnone eq_refl).
Defined.

(** The comprehension stops at the first observation without a platform. *)
Lemma observation_choices_no_platform (float_repr : float → string)
    (index : nat) (before after : list pydict) (config : pydict)
    (choices : gmap string string) :
  (∀ n c, before !! n = Some c →
     is_Ok (str_of_int (Z.of_nat (index + n)))
     ∧ is_Ok (observation_label float_repr c)) →
  is_Ok (str_of_int (Z.of_nat (index + length before))) →
  config !! "platform" = None →
  observation_choices float_repr index (before ++ config :: after) choices
  = Raise (KeyError "platform").
Proof.
  revert index choices.
  induction before as [|c before IH]; intros index choices Hbefore Hkey Hnone.
  - simpl in *. rewrite Nat.add_0_r in Hkey. destruct Hkey as [key ->]. simpl.
    unfold observation_label, getitem. change CONF_PLATFORM with "platform".
    by rewrite Hnone.
  - cbn [app observation_choices].
    destruct (Hbefore 0%nat c eq_refl) as [[key Hk] [label Hl]].
    rewrite Nat.add_0_r in Hk. rewrite Hk, Hl. simpl. apply IH; [|..|done].
    + intros n c' Hn. replace (S index + n)%nat with (index + S n)%nat by lia.
      by apply Hbefore.
    + by replace (S index + length before)%nat
        with (index + length (c :: before))%nat by (simpl; lia).
Qed.

(** X11. The selection form needs every observation to have a platform.
    Without a list of observations in [handler.options],
    [_get_select_observation_schema] and [_get_remove_observation_schema]
    raise [KeyError] for ["observations"]; and when one observation of the
    list has no ["platform"] entry (the ones before it having texts as
    platforms and as names), they raise [KeyError] for ["platform"],
    whatever the other observations are: one such observation makes the
    whole form fail. A missing name does not: it is labelled ["None"]. *)
Theorem select_observation_schema_errors (float_repr : float → string)
    (options : options_dict) :
  (options !! "observations" = None →
     _get_select_observation_schema float_repr options
       = Raise (KeyError "observations")
     ∧ _get_remove_observation_schema float_repr options
       = Raise (KeyError "observations"))
  ∧ (∀ before config after,
       options !! "observations" = Some (Observations (before ++ config :: after)) →
       Z.of_nat (length before) < 2 ^ 63 →
       (∀ c, c ∈ before →
          (∃ platform, c !! "platform" = Some (VStr platform))
          ∧ (∀ v, c !! "name" = Some v → ∃ name, v = VStr name)) →
       config !! "platform" = None →
       _get_select_observation_schema float_repr options
         = Raise (KeyError "platform")
       ∧ _get_remove_observation_schema float_repr options
         = Raise (KeyError "platform")).
Proof.
  split.
  - intros Hnone.
    unfold _get_select_observation_schema, _get_remove_observation_schema, getitem.
    change CONF_OBSERVATIONS with "observations". by rewrite Hnone.
  - intros before config after Hl Hlen Hplain Hnone.
    assert (Hrun : observation_choices float_repr 0 (before ++ config :: after) ∅
                   = Raise (KeyError "platform")).
    { apply observation_choices_no_platform; [|..|done].
      - intros n c Hn. split.
        + rewrite str_of_int_small; [by eexists|].
          apply lookup_lt_Some in Hn. lia.
        + destruct (Hplain c) as [[platform Hp] Hname];
            [by eapply list_elem_of_lookup_2|].
          destruct (observation_label_text float_repr c platform Hp)
            as [Hsome Hmissing].
          destruct (c !! "name") as [v|] eqn:Hv.
          * destruct (Hname v eq_refl) as [name ->]. eexists. by apply Hsome.
          * eexists. by apply Hmissing.
      - rewrite str_of_int_small; [by eexists|]. lia. }
    unfold _get_select_observation_schema, _get_remove_observation_schema, getitem.
    change CONF_OBSERVATIONS with "observations". rewrite Hl. simpl.
    by rewrite Hrun.
Qed.

(** X11 at a list whose second observation has no platform. *)
Lemma select_observation_schema_errors_witness :
  let door : pydict := {[ "platform" := VStr "state"; "name" := VStr "door" ]} in
  let nameless : pydict := {[ "name" := VStr "sun" ]} in
  let options : options_dict :=
    {[ "observations" := Observations [door; nameless; door] ]} in
  _get_select_observation_schema (λ _, "") options = Raise (KeyError "platform")
  ∧ _get_select_observation_schema (λ _, "") ∅ = Raise (KeyError "observations").
Proof.
  intros door nameless options.
  destruct (select_observation_schema_errors (λ _, "") options) as [_ Hplatform].
  destruct (select_observation_schema_errors (λ _, "") ∅) as [Hmissing _].
  split.
  - apply (Hplatform [door] nameless [door]); [reflexivity|reflexivity| |reflexivity].
    intros c Hc. apply list_elem_of_singleton in Hc as ->.
    split; [by eexists|]. intros v Hv. injection Hv as <-. by eexists.
  - by apply Hmissing.
Defined.

Lemma str_of_int_Ok (z : Z) (s : string) :
  str_of_int z = Ok s → s = NilZero.string_of_int (Z.to_int z).
Proof.
  unfold str_of_int. destruct (within_digit_limit _); [|discriminate].
  by intros [= <-].
Qed.

(** The schema of the edit form, platform by platform. *)
Lemma platform_schema_cases (platform : pyval) :
  (platform = VStr "state" ∧ platform_schema platform = Some STATE_SUBSCHEMA)
  ∨ (platform = VStr "numeric_state"
     ∧ platform_schema platform = Some NUMERIC_STATE_SUBSCHEMA)
  ∨ (platform = VStr "template"
     ∧ platform_schema platform = Some TEMPLATE_SUBSCHEMA)
  ∨ (platform ≠ VStr "state" ∧ platform ≠ VStr "numeric_state"
     ∧ platform ≠ VStr "template" ∧ platform_schema platform = None).
Proof.
  rewrite platform_schema_eq.
  destruct (py_eq platform (VStr "state")) eqn:H1.
  { apply py_eq_str in H1 as ->. by left. }
  destruct (py_eq platform (VStr "numeric_state")) eqn:H2.
  { apply py_eq_str in H2 as ->. right. by left. }
  destruct (py_eq platform (VStr "template")) eqn:H3.
  { apply py_eq_str in H3 as ->. right. right. by left. }
  right. right. right.
  split; [intros Heq; apply py_eq_str in Heq; congruence|].
  split; [intros Heq; apply py_eq_str in Heq; congruence|].
  split; [intros Heq; apply py_eq_str in Heq; congruence|done].
Qed.

(** X2. A choice of the selection form, once stored under ["index"], makes
    the edit step show the chosen observation. The key of a choice that
    [_get_select_observation_schema] offers is the decimal numeral of a
    position of the list, and the observation there has a platform. For the
    options with that key under ["index"], [_get_edit_observation_schema]
    returns the schema of that platform (the state, numeric-state or
    template schema, or nothing for another platform), and
    [_get_edit_observation_suggested_values] returns a dictionary with the
    keys of the observation in which a [float f] under one of the four
    probability keys has become [f * 100.0] (an [int z] has become
    [z * 100]) and every other entry is the observation's. Neither
    raises. *)
Theorem chosen_observation_is_edited (float_repr : float → string)
    (options : options_dict) (choices : gmap string string) (key label : string) :
  let probability_keys :=
    ["prob_given_true"; "prob_given_false"; "prior"; "probability_threshold"] in
  let chosen := <["index" := Field (VStr key)]> options in
  _get_select_observation_schema float_repr options = Ok (vol_In choices) →
  choices !! key = Some label →
  ∃ l n config platform schema shown,
    options !! "observations" = Some (Observations l)
    ∧ l !! n = Some config
    ∧ key = NilZero.string_of_int (Z.to_int (Z.of_nat n))
    ∧ config !! "platform" = Some platform
    ∧ _get_edit_observation_schema chosen = Ok schema
    ∧ ((platform = VStr "state" ∧ schema = Some STATE_SUBSCHEMA)
       ∨ (platform = VStr "numeric_state" ∧ schema = Some NUMERIC_STATE_SUBSCHEMA)
       ∨ (platform = VStr "template" ∧ schema = Some TEMPLATE_SUBSCHEMA)
       ∨ (platform ≠ VStr "state" ∧ platform ≠ VStr "numeric_state"
          ∧ platform ≠ VStr "template" ∧ schema = None))
    ∧ _get_edit_observation_suggested_values chosen = Ok shown
    ∧ dom shown = dom config
    ∧ ∀ field value, config !! field = Some value →
        (field ∉ probability_keys → shown !! field = Some value)
        ∧ (field ∈ probability_keys →
           match value with
           | VFloat f => shown !! field = Some (VFloat (PrimFloat.mul f 100%float))
           | VInt z => shown !! field = Some (VInt (z * 100))
           | VBool b => shown !! field = Some (VInt (if b then 100 else 0))
           | VNone | VStr _ => shown !! field = Some value
           end).
Proof.
  intros keys chosen Hselect Hkey.
  destruct (offered_choice _ _ _ _ _ Hselect Hkey)
    as (l & n & config & platform & Hl & Hn & Hstr & Hlabel & Hplatform).
  destruct (convert_fractions_to_percentages_total config) as [shown Hshown].
  pose proof Hshown as Hconv.
  apply convert_fractions_to_percentages_Ok in Hconv as [Hdom Hentries].
  exists l, n, config, platform, (platform_schema platform), shown.
  assert (Hl' : chosen !! CONF_OBSERVATIONS = Some (Observations l)).
  { unfold chosen. by rewrite lookup_insert_ne. }
  assert (Hindex : chosen !! "index" = Some (Field (VStr key)))
    by apply lookup_insert_eq.
  assert (Hint : optval_int (Field (VStr key)) = Ok (Z.of_nat n)).
  { simpl. by apply int_of_str_of_int. }
  assert (Hpos : list_index l (Z.of_nat n) = Some n).
  { apply list_index_nat. by eapply lookup_lt_Some. }
  split; [exact Hl|]. split; [exact Hn|]. split; [by apply str_of_int_Ok|].
  split; [exact Hplatform|]. split; [|split; [|split; [|split]]].
  - rewrite platform_schema_eq.
    apply (get_edit_observation_schema_unfold _ (Observations l)
             (Field (VStr key)) (Z.of_nat n)); [done|done|done|].
    apply selected_platform_Ok. by exists l, n, config.
  - destruct (platform_schema_cases platform)
      as [[? ?]|[[? ?]|[[? ?]|(? & ? & ? & ?)]]]; tauto.
  - by rewrite (get_edit_observation_suggested_values_unfold _ l
                  (Field (VStr key)) (Z.of_nat n) n config).
  - exact Hdom.
  - intros field value Hfield. specialize (Hentries field value Hfield).
    percentage_entry Hentries.
Qed.

(** X2 at two observations, the second one chosen: the template schema,
    and the stored [0.5] shown as [50.0]. *)
Lemma chosen_observation_is_edited_witness :
  let door : pydict :=
    {[ "platform" := VStr "state"; "name" := VStr "door" ]} in
  let sun : pydict :=
    {[ "platform" := VStr "template"; "name" := VStr "sun";
       "prob_given_true" := VFloat 0.5 ]} in
  let options : options_dict := {[ "observations" := Observations [door; sun] ]} in
  let chosen : options_dict := <["index" := Field (VStr "1")]> options in
  let choices : gmap string string :=
    {[ "0" := "state observation: door"; "1" := "template observation: sun" ]} in
  _get_select_observation_schema (λ _, "") options = Ok (vol_In choices)
  ∧ _get_edit_observation_suggested_values chosen
    = Ok {[ "platform" := VStr "template"; "name" := VStr "sun";
            "prob_given_true" := VFloat 50 ]}
  ∧ _get_edit_observation_schema chosen = Ok (Some TEMPLATE_SUBSCHEMA)
  ∧ ∃ shown,
      _get_edit_observation_suggested_values chosen = Ok shown
      ∧ shown !! "prob_given_true" = Some (VFloat 50)
      ∧ shown !! "name" = Some (VStr "sun").
Proof.
  intros door sun options chosen choices.
  assert (Hselect : _get_select_observation_schema (λ _, "") options
                    = Ok (vol_In choices)) by (vm_compute; reflexivity).
  assert (Hchoice : choices !! "1" = Some "template observation: sun")
    by (vm_compute; reflexivity).
  destruct (chosen_observation_is_edited (λ _, "") options choices "1"
              "template observation: sun" Hselect Hchoice)
    as (l & n & config & platform & schema & shown
        & Hl & Hn & Hkey & Hplatform & Hschema & Hcases & Hshown & _ & Hentries).
  assert (Hlist : options !! "observations" = Some (Observations [door; sun]))
    by reflexivity.
  assert (l = [door; sun]) as -> by congruence.
  assert (n = 1%nat) as ->.
  { destruct n as [|[|n]]; [discriminate Hkey|reflexivity|discriminate Hn]. }
  assert (config = sun) as -> by (cbn in Hn; congruence).
  assert (platform = VStr "template") as ->.
  { assert (H : sun !! "platform" = Some (VStr "template")) by reflexivity.
    congruence. }
  split; [exact Hselect|]. split; [vm_compute; reflexivity|]. split.
  - unfold chosen. rewrite Hschema. f_equal.
    destruct Hcases as [[[=] _]|[[[=] _]|[[_ ->]|(_ & _ & Habs & _)]]];
      [reflexivity|by destruct Habs].
  - exists shown. split; [exact Hshown|]. split.
    + destruct (Hentries "prob_given_true" (VFloat 0.5) eq_refl) as [_ H].
      exact (H ltac:(decides)).
    + destruct (Hentries "name" (VStr "sun") eq_refl) as [H _].
      exact (H ltac:(decides)).
Defined.

(* ===================================================================== *)
(** ** Properties: suggested values *)
(* ===================================================================== *)

Lemma whole_percentages_elem (z : Z) : 0 ≤ z ≤ 100 → z ∈ whole_percentages.
Proof.
  intros Hz. unfold whole_percentages. apply list_elem_of_fmap.
  exists (Z.to_nat z). split; [lia|]. apply elem_of_seq. lia.
Qed.

(** The fraction stored for a whole percentage comes back from the
    percentage it is shown as: [(float(z) / 100.0 * 100.0) / 100.0] is
    [float(z) / 100.0]. *)
Lemma fraction_of_percent_resaved (z : Z) :
  0 ≤ z ≤ 100 →
  PrimFloat.div (PrimFloat.mul (fraction_of_percent z) 100%float) 100%float
  = fraction_of_percent z.
Proof.
  intros Hz.
  assert (Hall : Forall (λ n, PrimFloat.div
                                (PrimFloat.mul (fraction_of_percent (Z.of_nat n))
                                               100%float) 100%float
                              = fraction_of_percent (Z.of_nat n)) (seq 0 101)).
  { repeat (constructor; [vm_compute; reflexivity|]). constructor. }
  rewrite Forall_forall in Hall.
  specialize (Hall (Z.to_nat z)). rewrite Z2Nat.id in Hall by lia.
  apply Hall. apply elem_of_seq. lia.
Qed.

(** Different whole percentages are stored as fractions that are shown as
    different percentages. *)
Lemma shown_equal_same (a b : Z) :
  0 ≤ a ≤ 100 → 0 ≤ b ≤ 100 → a ≠ b → shown_equal a b = false.
Proof.
  intros Ha Hb Hne.
  assert (Hall : forallb (λ a, forallb (λ b, (a =? b) || negb (shown_equal a b))
                                 whole_percentages) whole_percentages = true).
  { vm_compute. reflexivity. }
  rewrite forallb_forall in Hall.
  specialize (Hall a (proj1 (list_elem_of_In _ _) (whole_percentages_elem a Ha))).
  rewrite forallb_forall in Hall.
  specialize (Hall b (proj1 (list_elem_of_In _ _) (whole_percentages_elem b Hb))).
  apply orb_true_iff in Hall as [Heq%Z.eqb_eq|Hshown%negb_true_iff]; [lia|done].
Qed.

(** Only the fractions stored for [0] and for [100] are shown as [0] or as
    [100]. *)
Lemma shown_at_limit_inside (z : Z) :
  1 ≤ z ≤ 99 → shown_at_limit z 0 = false ∧ shown_at_limit z 100 = false.
Proof.
  intros Hz.
  assert (Hall : forallb (λ a, (a =? 0) || (a =? 100)
                               || negb (shown_at_limit a 0 || shown_at_limit a 100))
                         whole_percentages = true).
  { vm_compute. reflexivity. }
  rewrite forallb_forall in Hall.
  specialize (Hall z (proj1 (list_elem_of_In _ _)
                        (whole_percentages_elem z ltac:(lia)))).
  apply orb_true_iff in Hall as [Hlimit|Hshown%negb_true_iff].
  - apply orb_true_iff in Hlimit as [H%Z.eqb_eq|H%Z.eqb_eq]; lia.
  - by apply orb_false_iff in Hshown.
Qed.

(** Stored, shown, stored again: the stored dictionary comes back. *)
Lemma resave_stored (stored : pydict) :
  stores_whole_percentages stored →
  ∃ shown,
    _convert_fractions_to_percentages stored = Ok shown
    ∧ dom shown = dom stored
    ∧ (∀ key value, stored !! key = Some value →
         key ∉ probability_keys → shown !! key = Some value)
    ∧ (∀ key z, key ∈ probability_keys →
         stored !! key = Some (VFloat (fraction_of_percent z)) →
         shown !! key
         = Some (VFloat (PrimFloat.mul (fraction_of_percent z) 100%float)))
    ∧ _convert_percentages_to_fractions shown = Ok stored.
Proof.
  intros Hwhole.
  destruct (convert_fractions_to_percentages_explicit stored)
    as (shown & Hshown & Hdom & Hentries).
  exists shown. split; [done|]. split; [done|]. split; [|split].
  - intros key value Hkey Hother. by apply (Hentries key value Hkey).
  - intros key z Hin Hkey. by apply (Hentries key _ Hkey).
  - apply convert_percentages_to_fractions_Ok. split; [done|].
    intros key value Hvalue.
    assert (Hstored : is_Some (stored !! key)).
    { apply elem_of_dom. rewrite <- Hdom. apply elem_of_dom. by eexists. }
    destruct Hstored as [old Hold].
    destruct (Hentries key old Hold) as [Hother Hin].
    destruct (decide (key ∈ probability_keys)) as [Hkey|Hkey].
    + specialize (Hin Hkey).
      destruct (Hwhole key old Hkey Hold) as [[z [Hz ->]]|[->|[s ->]]].
      * rewrite Hin in Hvalue. injection Hvalue as <-.
        rewrite (proj2 (is_percentage_true key _)) by done.
        eexists. split; [|exact Hold]. simpl. f_equal. f_equal.
        by apply fraction_of_percent_resaved.
      * rewrite Hin in Hvalue. injection Hvalue as <-.
        by rewrite (proj2 (is_percentage_false key VNone)) by by left.
      * rewrite Hin in Hvalue. injection Hvalue as <-.
        by rewrite (proj2 (is_percentage_false key (VStr s))) by by left.
    + rewrite (Hother Hkey) in Hvalue. injection Hvalue as <-.
      by rewrite (proj2 (is_percentage_false key old)) by by right.
Qed.

Lemma stores_whole_percentages_empty : stores_whole_percentages ∅.
Proof. intros key value _ Hkey. by rewrite lookup_empty in Hkey. Qed.

Lemma stores_whole_percentages_insert (stored : pydict) (key : string) (value : pyval) :
  (key ∈ probability_keys →
   (∃ z, stored_fraction z value) ∨ value = VNone ∨ ∃ s, value = VStr s) →
  stores_whole_percentages stored →
  stores_whole_percentages (<[key := value]> stored).
Proof.
  intros Hvalue Hstored key' value' Hin Hkey'.
  apply lookup_insert_Some in Hkey' as [[<- <-]|[_ Hkey']]; [by apply Hvalue|].
  by apply (Hstored key').
Qed.

(** X3. Opening an observation for editing and submitting the suggested
    values unchanged changes nothing. Let the observation picked by a true
    ["index"] hold, under the probability keys, fractions [float(z) / 100.0]
    of whole percentages [z] (or no number at all), two different ones
    under ["prob_given_true"] and ["prob_given_false"], a platform and no
    ["add_another"] entry. Then [_get_edit_observation_suggested_values]
    returns the form to show, with the fractions multiplied by [100.0], and
    [_validate_observation_setup] run on that form returns the empty
    dictionary and leaves [handler.options], with its list of observations,
    exactly as it was: each fraction, multiplied by [100.0] and divided by
    [100.0] again, is the fraction. *)
Theorem edit_unchanged_keeps_options (opts : options_dict) (l : list pydict)
    (index : optval) (i : Z) (n : nat) (stored : pydict)
    (z_t z_f : Z) (platform : pyval) :
  opts !! "observations" = Some (Observations l) →
  opts !! "index" = Some index →
  optval_truthy index = true →
  optval_int index = Ok i →
  list_index l i = Some n →
  l !! n = Some stored →
  stores_whole_percentages stored →
  0 ≤ z_t ≤ 100 → 0 ≤ z_f ≤ 100 → z_t ≠ z_f →
  stored !! "prob_given_true" = Some (VFloat (fraction_of_percent z_t)) →
  stored !! "prob_given_false" = Some (VFloat (fraction_of_percent z_f)) →
  stored !! "platform" = Some platform →
  stored !! "add_another" = None →
  ∃ shown,
    _get_edit_observation_suggested_values opts = Ok shown
    ∧ shown !! "prob_given_true"
      = Some (VFloat (PrimFloat.mul (fraction_of_percent z_t) 100%float))
    ∧ shown !! "prob_given_false"
      = Some (VFloat (PrimFloat.mul (fraction_of_percent z_f) 100%float))
    ∧ shown !! "platform" = Some platform
    ∧ _validate_observation_setup (Store opts shown) = (Ok ∅, Store opts shown).
Proof.
  intros Hl Hindex Htrue Hint Hn Hstored Hwhole Hzt Hzf Hne Ht Hf Hplatform Hflag.
  change (opts !! CONF_OBSERVATIONS = Some (Observations l)) in Hl.
  destruct (resave_stored stored Hwhole)
    as (shown & Hshown & Hdom & Hother & Hin & Hback).
  assert (Hst : shown !! "prob_given_true"
                = Some (VFloat (PrimFloat.mul (fraction_of_percent z_t) 100%float))).
  { apply Hin; [decides|done]. }
  assert (Hsf : shown !! "prob_given_false"
                = Some (VFloat (PrimFloat.mul (fraction_of_percent z_f) 100%float))).
  { apply Hin; [decides|done]. }
  assert (Hsp : shown !! "platform" = Some platform).
  { apply Hother; [done|decides]. }
  exists shown. split.
  { by rewrite (get_edit_observation_suggested_values_unfold _ _ _ _ _ _
                  Hl Hindex Hint Hn Hstored). }
  split; [done|]. split; [done|]. split; [done|].
  assert (Hnoflag : shown !! "add_another" = None).
  { apply not_elem_of_dom. rewrite Hdom. by apply not_elem_of_dom. }
  assert (Hpopped : delete "add_another" shown = shown) by by apply delete_id.
  apply validate_observation_setup_Ok.
  exists (VFloat (PrimFloat.mul (fraction_of_percent z_t) 100%float)),
         (VFloat (PrimFloat.mul (fraction_of_percent z_f) 100%float)), platform.
  cbn [passed_input options].
  split; [exact Hst|]. split; [exact Hsf|].
  split; [exact (shown_equal_same z_t z_f Hzt Hzf Hne)|].
  split; [exact Hsp|].
  rewrite Hpopped. apply store_observation_Ok. exists stored, l.
  split; [done|]. split; [intros v; by rewrite Hl|]. split.
  { unfold dict_get. by rewrite Hnoflag. }
  split; [by rewrite insert_id|].
  cbv zeta. rewrite Hindex. cbn [default from_option id]. rewrite Htrue.
  exists i, n. split; [done|].
  assert (Hlist : observation_list opts = l).
  { unfold observation_list. by rewrite Hl. }
  rewrite Hlist. split; [done|]. by rewrite list_insert_id.
Qed.

(** X3 at an observation stored for 80 % and 20 %, shown as [80.0] and
    [20.0]. *)
Lemma edit_unchanged_keeps_options_witness :
  let stored : pydict :=
    {[ "prob_given_true" := VFloat 0x1.999999999999ap-1;
       "prob_given_false" := VFloat 0x1.999999999999ap-3;
       "platform" := VStr "state" ]} in
  let shown : pydict :=
    {[ "prob_given_true" := VFloat 80; "prob_given_false" := VFloat 20;
       "platform" := VStr "state" ]} in
  let opts : options_dict :=
    {[ "observations" := Observations [stored]; "index" := Field (VStr "0") ]} in
  _get_edit_observation_suggested_values opts = Ok shown
  ∧ _validate_observation_setup (Store opts shown) = (Ok ∅, Store opts shown).
Proof.
  intros stored shown opts.
  destruct (edit_unchanged_keeps_options opts [stored] (Field (VStr "0")) 0 0%nat
              stored 80 20 (VStr "state"))
    as (shown' & Hshown & _ & _ & _ & Hrun); try reflexivity; try lia.
  - unfold stored. apply stores_whole_percentages_insert.
    { intros _. left. exists 80. split; [lia|reflexivity]. }
    apply stores_whole_percentages_insert.
    { intros _. left. exists 20. split; [lia|reflexivity]. }
    rewrite <- insert_empty. apply stores_whole_percentages_insert;
      [intros _; right; right; by eexists|apply stores_whole_percentages_empty].
  - assert (Heval : _get_edit_observation_suggested_values opts = Ok shown)
      by (vm_compute; reflexivity).
    assert (shown' = shown) as -> by congruence.
    split; [exact Heval|exact Hrun].
Defined.

Lemma option_to_percentage_Ok (key : string) (value : optval) :
  option_to_percentage key value =
    Ok (match value with
        | Field v => Field (if is_percentage key v then mul_100 v else v)
        | Observations l => Observations l
        end).
Proof.
  destruct value as [v|l]; [|done]. simpl. unfold fraction_to_percentage.
  by destruct (is_percentage key v).
Qed.

Lemma get_base_suggested_values_Ok (opts suggested : options_dict) :
  _get_base_suggested_values opts = Ok suggested ↔
    dom suggested = dom opts
    ∧ (∀ key l, opts !! key = Some (Observations l) →
         suggested !! key = Some (Observations l))
    ∧ (∀ key v, opts !! key = Some (Field v) →
         suggested !! key
         = Some (Field (if is_percentage key v then mul_100 v else v))).
Proof.
  unfold _get_base_suggested_values. rewrite dict_comprehension_pointwise. split.
  - intros [Hdom Hall]. split; [done|]. split.
    + intros key l Hkey. destruct (Hall key _ Hkey) as (b & Hb & ->).
      rewrite option_to_percentage_Ok in Hb. congruence.
    + intros key v Hkey. destruct (Hall key _ Hkey) as (b & Hb & ->).
      rewrite option_to_percentage_Ok in Hb. congruence.
  - intros (Hdom & Hlists & Hfields). split; [done|].
    intros key value Hkey. rewrite option_to_percentage_Ok. eexists. split; [done|].
    destruct value as [v|l]; [by apply Hfields|by apply Hlists].
Qed.

Lemma get_base_suggested_values_total (opts : options_dict) :
  is_Ok (_get_base_suggested_values opts).
Proof.
  apply dict_comprehension_total. intros key value _.
  rewrite option_to_percentage_Ok. by eexists.
Qed.

(** X4. [_get_base_suggested_values] never raises, whatever
    [handler.options] holds. It returns a dictionary with the keys of the
    options in which a [float f] under ["prob_given_true"],
    ["prob_given_false"], ["prior"] or ["probability_threshold"] has become
    [f * 100.0] (an [int z] has become [z * 100]), and every other entry,
    the list of observations among them, is the entry of the options. *)
Theorem base_suggested_values_spec (opts : options_dict) :
  let probability_keys :=
    ["prob_given_true"; "prob_given_false"; "prior"; "probability_threshold"] in
  ∃ suggested,
    _get_base_suggested_values opts = Ok suggested
    ∧ dom suggested = dom opts
    ∧ (∀ key l, opts !! key = Some (Observations l) →
         suggested !! key = Some (Observations l))
    ∧ (∀ key value, opts !! key = Some (Field value) →
         (key ∉ probability_keys → suggested !! key = Some (Field value))
         ∧ (key ∈ probability_keys →
            match value with
            | VFloat f =>
                suggested !! key = Some (Field (VFloat (PrimFloat.mul f 100%float)))
            | VInt z => suggested !! key = Some (Field (VInt (z * 100)))
            | VBool b => suggested !! key = Some (Field (VInt (if b then 100 else 0)))
            | VNone | VStr _ => suggested !! key = Some (Field value)
            end)).
Proof.
  intros keys.
  destruct (get_base_suggested_values_total opts) as [suggested Hrun].
  exists suggested. split; [exact Hrun|].
  apply get_base_suggested_values_Ok in Hrun as (Hdom & Hlists & Hfields).
  split; [exact Hdom|]. split; [exact Hlists|].
  intros key value Hkey. specialize (Hfields key value Hkey).
  percentage_entry Hfields.
Qed.

(** X4 at options with a prior, a threshold, a name and an observation. *)
Lemma base_suggested_values_spec_witness :
  let door : pydict := {[ "platform" := VStr "state"; "prob_given_true" := VFloat 0.5 ]} in
  let opts : options_dict :=
    {[ "prior" := Field (VFloat 0.25); "probability_threshold" := Field (VFloat 0.5);
       "name" := Field (VStr "bayes"); "observations" := Observations [door] ]} in
  _get_base_suggested_values opts
  = Ok {[ "prior" := Field (VFloat 25); "probability_threshold" := Field (VFloat 50);
          "name" := Field (VStr "bayes"); "observations" := Observations [door] ]}
  ∧ ∃ suggested,
      _get_base_suggested_values opts = Ok suggested
      ∧ suggested !! "prior" = Some (Field (VFloat 25))
      ∧ suggested !! "probability_threshold" = Some (Field (VFloat 50))
      ∧ suggested !! "name" = Some (Field (VStr "bayes"))
      ∧ suggested !! "observations" = Some (Observations [door]).
Proof.
  intros door opts. split; [vm_compute; reflexivity|].
  destruct (base_suggested_values_spec opts)
    as (suggested & Hrun & _ & Hlists & Hfields).
  exists suggested. split; [exact Hrun|]. split; [|split; [|split]].
  - destruct (Hfields "prior" (VFloat 0.25) eq_refl) as [_ H].
    exact (H ltac:(decides)).
  - destruct (Hfields "probability_threshold" (VFloat 0.5) eq_refl) as [_ H].
    exact (H ltac:(decides)).
  - destruct (Hfields "name" (VStr "bayes") eq_refl) as [H _].
    exact (H ltac:(decides)).
  - exact (Hlists "observations" [door] eq_refl).
Defined.

(** X5. Submitting the base options form unchanged stores the same prior
    and threshold. When the options hold under ["prior"] and
    ["probability_threshold"] the fractions [float(z) / 100.0] of whole
    percentages [z] between 1 and 99, the suggested values hold them
    multiplied by [100.0]; and for every input that carries these two
    suggested values (and, under the other probability keys, no [int]
    beyond the whole percentages), [_validate_user] raises no error and
    returns a dictionary with the keys of the input that holds the stored
    prior and the stored threshold again. *)
Theorem base_options_resaved (opts : options_dict) (z_p z_t : Z) :
  let probability_keys :=
    ["prob_given_true"; "prob_given_false"; "prior"; "probability_threshold"] in
  let shown_prior := VFloat (PrimFloat.mul (fraction_of_percent z_p) 100%float) in
  let shown_threshold := VFloat (PrimFloat.mul (fraction_of_percent z_t) 100%float) in
  1 ≤ z_p ≤ 99 → 1 ≤ z_t ≤ 99 →
  opts !! "prior" = Some (Field (VFloat (fraction_of_percent z_p))) →
  opts !! "probability_threshold" = Some (Field (VFloat (fraction_of_percent z_t))) →
  ∃ suggested,
    _get_base_suggested_values opts = Ok suggested
    ∧ suggested !! "prior" = Some (Field shown_prior)
    ∧ suggested !! "probability_threshold" = Some (Field shown_threshold)
    ∧ ∀ user_input,
        user_input !! "prior" = Some shown_prior →
        user_input !! "probability_threshold" = Some shown_threshold →
        (∀ key z, key ∈ probability_keys → user_input !! key = Some (VInt z) →
           0 ≤ z ≤ 100) →
        ∃ out,
          _validate_user opts user_input = Ok out
          ∧ dom out = dom user_input
          ∧ out !! "prior" = Some (VFloat (fraction_of_percent z_p))
          ∧ out !! "probability_threshold" = Some (VFloat (fraction_of_percent z_t)).
Proof.
  intros keys shown_prior shown_threshold Hp Ht Hprior Hthreshold.
  destruct (get_base_suggested_values_total opts) as [suggested Hsuggested].
  exists suggested. split; [exact Hsuggested|].
  apply get_base_suggested_values_Ok in Hsuggested as (_ & _ & Hfields).
  pose proof (Hfields "prior" _ Hprior) as Hsp.
  pose proof (Hfields "probability_threshold" _ Hthreshold) as Hst.
  percentage_at Hsp. percentage_at Hst.
  split; [exact Hsp|]. split; [exact Hst|].
  intros user_input Hup Hut Hwhole.
  destruct (shown_at_limit_inside z_p Hp) as [Hp0 Hp100].
  destruct (shown_at_limit_inside z_t Ht) as [Ht0 Ht100].
  unfold shown_at_limit in *.
  rewrite (validate_user_unfold opts user_input _ _ Hup Hut).
  subst shown_prior shown_threshold. rewrite Hp0, Hp100, Ht0, Ht100.
  assert (Hok : is_Ok (_convert_percentages_to_fractions user_input))
    by (revert Hwhole; fractions_whole).
  destruct Hok as [out Hout]. exists out. split; [exact Hout|].
  assert (Hent : ∀ out, _convert_percentages_to_fractions user_input = Ok out →
                        converted_entries user_input out)
    by (unfold converted_entries, probability_keys; fractions_entries).
  destruct (Hent out Hout) as [Hdom Hentries].
  split; [done|]. split.
  - destruct (Hentries _ _ Hup) as [_ H]. rewrite H by decides.
    f_equal. f_equal. apply fraction_of_percent_resaved. lia.
  - destruct (Hentries _ _ Hut) as [_ H]. rewrite H by decides.
    f_equal. f_equal. apply fraction_of_percent_resaved. lia.
Qed.

(** X5 at a prior of 30 % and a threshold of 50 %. *)
Lemma base_options_resaved_witness :
  let opts : options_dict :=
    {[ "prior" := Field (VFloat 0x1.3333333333333p-2);
       "probability_threshold" := Field (VFloat 0x1p-1);
       "name" := Field (VStr "bayes") ]} in
  let user_input : pydict :=
    {[ "prior" := VFloat 30; "probability_threshold" := VFloat 50 ]} in
  _get_base_suggested_values opts
  = Ok {[ "prior" := Field (VFloat 30); "probability_threshold" := Field (VFloat 50);
          "name" := Field (VStr "bayes") ]}
  ∧ _validate_user opts user_input
    = Ok {[ "prior" := VFloat 0x1.3333333333333p-2;
            "probability_threshold" := VFloat 0x1p-1 ]}
  ∧ ∃ suggested out,
    _get_base_suggested_values opts = Ok suggested
    ∧ suggested !! "prior" = Some (Field (VFloat 30))
    ∧ suggested !! "probability_threshold" = Some (Field (VFloat 50))
    ∧ _validate_user opts user_input = Ok out
    ∧ out !! "prior" = Some (VFloat 0x1.3333333333333p-2)
    ∧ out !! "probability_threshold" = Some (VFloat 0x1p-1).
Proof.
  intros opts user_input.
  split; [vm_compute; reflexivity|]. split; [vm_compute; reflexivity|].
  destruct (base_options_resaved opts 30 50)
    as (suggested & Hrun & Hsp & Hst & Hresave); try lia; try reflexivity.
  destruct (Hresave user_input) as (out & Hout & _ & Hop & Hot);
    try reflexivity.
  { intros key z _ Hz. exfalso. unfold user_input in Hz.
    apply lookup_insert_Some in Hz as [[_ [=]]|[_ Hz]].
    apply lookup_singleton_Some in Hz as [_ [=]]. }
  exists suggested, out.
  split; [exact Hrun|]. split; [exact Hsp|]. split; [exact Hst|].
  split; [exact Hout|]. split; [exact Hop|exact Hot].
Defined.

(* ===================================================================== *)
(** ** Properties: the validation of the preview *)
(* ===================================================================== *)

(** What [_validate] raises, and when: the invariant of its loop. *)
Lemma validate_raises (schema : vol_schema) (user_input : pydict) :
  (∀ e, _validate schema user_input = Raise e →
     e = TypeError ∧ calls_static schema user_input)
  ∧ (calls_static schema user_input → _validate schema user_input = Raise TypeError)
  ∧ (is_Ok (_validate schema user_input) → statics_skipped schema user_input).
Proof.
  unfold _validate.
  apply (map_fold_weak_ind
           (λ r m, (∀ e, r = Raise e → e = TypeError ∧ calls_static m user_input)
                   ∧ (calls_static m user_input → r = Raise TypeError)
                   ∧ (is_Ok r → statics_skipped m user_input))).
  - split; [discriminate|]. split.
    + intros (key & static & Hkey & _). by rewrite lookup_empty in Hkey.
    + intros _ key static Hkey. by rewrite lookup_empty in Hkey.
  - intros i x m r Hi (Hraise & Hcalls & Hskip).
    destruct r as [errors|e]; simpl.
    + assert (Hm : statics_skipped m user_input) by (apply Hskip; by eexists).
      assert (Hquiet : ∀ r' : result error_dict,
                is_Ok r' →
                (∀ static, x = Static static →
                   i = CONF_PLATFORM ∨ user_input !! i = None) →
                (∀ e, r' = Raise e →
                   e = TypeError ∧ calls_static (<[i := x]> m) user_input)
                ∧ (calls_static (<[i := x]> m) user_input → r' = Raise TypeError)
                ∧ (is_Ok r' → statics_skipped (<[i := x]> m) user_input)).
      { intros r' [a ->] Hx. split; [discriminate|]. split.
        - intros (key & static & Hkey & Hne & Hin).
          apply lookup_insert_Some in Hkey as [[<- ->]|[_ Hkey]].
          + destruct (Hx static eq_refl) as [?|Hnone]; [done|].
            rewrite Hnone in Hin. by destruct Hin.
          + destruct (Hm key static Hkey) as [?|Hnone]; [done|].
            rewrite Hnone in Hin. by destruct Hin.
        - intros _ key static Hkey.
          apply lookup_insert_Some in Hkey as [[<- ->]|[_ Hkey]];
            [by apply (Hx static)|by apply (Hm key static)]. }
      unfold _validate_item.
      destruct (user_input !! i) as [value|] eqn:Hvalue.
      2:{ apply Hquiet; [by eexists|]. intros. by right. }
      destruct (decide (i = CONF_PLATFORM)) as [Hplat|Hplat].
      { rewrite bool_decide_eq_true_2 by done.
        apply Hquiet; [by eexists|]. intros. by left. }
      rewrite bool_decide_eq_false_2 by done.
      destruct x as [validate|static].
      * destruct (validate value); (apply Hquiet; [by eexists|discriminate]).
      * assert (Hcall : calls_static (<[i := Static static]> m) user_input).
        { exists i, static. split; [apply lookup_insert_eq|]. split; [done|].
          by rewrite Hvalue. }
        split; [by intros e [= <-]|]. split; [done|].
        intros [a Ha]. discriminate Ha.
    + destruct (Hraise e eq_refl) as [-> (key & static & Hkey & Hne & Hin)].
      assert (Hcall : calls_static (<[i := x]> m) user_input).
      { exists key, static. split; [|done].
        rewrite lookup_insert_ne; [done|]. intros <-. congruence. }
      split; [by intros e [= <-]|]. split; [done|].
      intros [a Ha]. discriminate Ha.
Qed.

Lemma collected_unique (schema : vol_schema) (user_input : pydict)
    (errors errors' : error_dict) :
  collected schema user_input errors →
  collected schema user_input errors' →
  errors = errors'.
Proof.
  intros H H'. apply map_eq. intros key.
  destruct (errors !! key) as [msg|] eqn:He.
  - symmetry. apply H'. by apply H.
  - destruct (errors' !! key) as [msg|] eqn:He'; [|done].
    apply H', H in He'. congruence.
Qed.

(** X6. The inner [_validate] of the preview handler, on any schema and
    input. It returns exactly when no static object of the schema would be
    called, that is when each sits under the platform key or under a key
    the input lacks; the dictionary it returns then holds, for each other
    field of the input that the schema validates, the message of the
    validator that rejected it, and nothing else (fields the schema does not
    name are ignored). Otherwise, when a static object sits under another
    key that the input has, it raises [TypeError], whatever the validators
    say; it raises nothing else. *)
Theorem validate_spec (schema : vol_schema) (user_input : pydict) :
  (∀ errors, _validate schema user_input = Ok errors ↔
     statics_skipped schema user_input ∧ collected schema user_input errors)
  ∧ (∀ e, _validate schema user_input = Raise e ↔
       e = TypeError ∧ calls_static schema user_input)
  ∧ (∀ errors key, _validate schema user_input = Ok errors →
       is_Some (errors !! key) →
       key ≠ CONF_PLATFORM ∧ is_Some (schema !! key) ∧ is_Some (user_input !! key)).
Proof.
  destruct (validate_raises schema user_input) as (Hraise & Hcalls & Hskip).
  split; [|split].
  - intros errors. split.
    + intros Hrun. assert (Hs : statics_skipped schema user_input).
      { apply Hskip. by eexists. }
      split; [exact Hs|].
      destruct (validate_collects schema user_input Hs) as (errors' & Hrun' & Hc).
      assert (errors' = errors) as -> by congruence. exact Hc.
    + intros [Hs Hc].
      destruct (validate_collects schema user_input Hs) as (errors' & Hrun' & Hc').
      rewrite Hrun'. f_equal. by apply (collected_unique schema user_input).
  - intros e. split; [apply Hraise|]. intros [-> Hc]. by apply Hcalls.
  - intros errors key Hrun [msg Hmsg].
    assert (Hs : statics_skipped schema user_input).
    { apply Hskip. by eexists. }
    destruct (validate_collects schema user_input Hs) as (errors' & Hrun' & Hc).
    assert (errors' = errors) as -> by congruence.
    apply Hc in Hmsg as (Hne & validate & value & Hschema & Hvalue & _).
    split; [done|]. split; by eexists.
Qed.

(** X6 at a schema with a validator and two static objects, one of them
    under the platform key: an input without the other static key is
    validated, an input with it makes [_validate] raise. *)
Lemma validate_spec_witness :
  let number (v : pyval) :=
    if isinstance_int_float v then None else Some "expected float" in
  let schema : vol_schema :=
    {[ "platform" := Static (VStr "state"); "kind" := Static (VStr "fixed");
       "prob_given_true" := Validator number ]} in
  let plain : pydict :=
    {[ "platform" := VStr "state"; "prob_given_true" := VStr "abc";
       "unknown" := VInt 1 ]} in
  let marked : pydict := <["kind" := VStr "fixed"]> plain in
  _validate schema plain = Ok {[ "prob_given_true" := "expected float" ]}
  ∧ _validate schema marked = Raise TypeError.
Proof.
  intros number schema plain marked.
  destruct (validate_spec schema marked) as (_ & Hraise & _).
  split; [vm_compute; reflexivity|].
  apply Hraise. split; [reflexivity|].
  exists "kind", (VStr "fixed"). split; [reflexivity|]. split; [discriminate|].
  by eexists.
Defined.

Section PreviewFailures.
Variables TemplateSelector NumberSelector TextSelector cv_boolean
  : pyval → option string.

Let schema : vol_schema :=
  template_step_schema TemplateSelector NumberSelector TextSelector cv_boolean.

Let start_preview : HomeAssistant → ws_msg → world → result unit * world :=
  ws_start_preview TemplateSelector NumberSelector TextSelector cv_boolean.

Let form_step : HomeAssistant → ws_msg → result (vol_schema * option string) :=
  preview_form_step TemplateSelector NumberSelector TextSelector cv_boolean.

(** The validation of the template step never raises. *)
Lemma template_step_validates (user_input : pydict) :
  ∃ errors, _validate schema user_input = Ok errors
            ∧ collected schema user_input errors.
Proof.
  apply validate_collects. intros key static Hkey. left.
  by apply (template_step_schema_static TemplateSelector NumberSelector
              TextSelector cv_boolean key static).
Qed.

(** No error is collected exactly when every validated field is accepted. *)
Lemma collected_empty (user_input : pydict) (errors : error_dict) :
  collected schema user_input errors →
  errors = ∅ ↔ all_accepted schema user_input.
Proof.
  intros Hc. split.
  - intros -> key validate value Hkey Hvalue Hne.
    destruct (validate value) as [msg|] eqn:Hmsg; [|done].
    assert (H : (∅ : error_dict) !! key = Some msg).
    { apply Hc. split; [done|]. by exists validate, value. }
    by rewrite lookup_empty in H.
  - intros Hall. apply map_eq. intros key. rewrite lookup_empty.
    destruct (errors !! key) as [msg|] eqn:He; [|done].
    apply Hc in He as (Hne & validate & value & Hkey & Hvalue & Hmsg).
    rewrite (Hall key validate value Hkey Hvalue Hne) in Hmsg. discriminate.
Qed.

Lemma flow_found_form_step (hass : HomeAssistant) (msg : ws_msg) :
  flow_found hass msg → is_Ok (form_step hass msg).
Proof.
  unfold form_step, preview_form_step.
  intros [[Htype [a Ha]]|(Htype & flow_status & Hget & [entry Hentry])].
  - rewrite bool_decide_eq_true_2 by exact Htype. rewrite Ha. by eexists.
  - rewrite bool_decide_eq_false_2 by exact Htype. rewrite Hget.
    cbn [mbind result_bind rbind]. rewrite Hentry. by eexists.
Qed.

(** X7. The preview handler fails silently. In each of these cases
    [ws_start_preview] raises and leaves the connection as it was: no
    message is sent, no preview is created, no subscription is registered.
    - The flow is not known: the exception of the look-up goes through.
    - The message is of an options flow whose config entry does not exist:
      [HomeAssistantError].
    - The flow is found and every field of the input that the template
      step validates is accepted, but the input has no ["value_template"]:
      [KeyError]. A valid form without a template gets no answer. *)
Theorem preview_fails_silently (hass : HomeAssistant) (msg : ws_msg) (w : world) :
  (∀ e, msg_flow_type msg = "config_flow" →
        flow_async_get hass (msg_flow_id msg) = Raise e →
        start_preview hass msg w = (Raise e, w))
  ∧ (∀ e, msg_flow_type msg ≠ "config_flow" →
          options_async_get hass (msg_flow_id msg) = Raise e →
          start_preview hass msg w = (Raise e, w))
  ∧ (∀ flow_status,
       msg_flow_type msg ≠ "config_flow" →
       options_async_get hass (msg_flow_id msg) = Ok flow_status →
       async_get_entry hass flow_status = None →
       start_preview hass msg w = (Raise HomeAssistantError, w))
  ∧ (flow_found hass msg →
     all_accepted schema (msg_user_input msg) →
     msg_user_input msg !! "value_template" = None →
     start_preview hass msg w = (Raise (KeyError "value_template"), w)).
Proof.
  split; [|split; [|split]].
  - intros e Htype Hget. unfold start_preview, ws_start_preview, preview_form_step.
    rewrite bool_decide_eq_true_2 by exact Htype. by rewrite Hget.
  - intros e Htype Hget. unfold start_preview, ws_start_preview, preview_form_step.
    rewrite bool_decide_eq_false_2 by exact Htype. by rewrite Hget.
  - intros flow_status Htype Hget Hentry.
    unfold start_preview, ws_start_preview, preview_form_step.
    rewrite bool_decide_eq_false_2 by exact Htype. rewrite Hget.
    cbn [mbind result_bind rbind]. by rewrite Hentry.
  - intros Hfound Hall Htemplate.
    destruct (flow_found_form_step hass msg Hfound) as [[chosen entry] Hstep].
    destruct (template_step_validates (msg_user_input msg)) as (errors & Hrun & Hc).
    assert (errors = ∅) as -> by by apply (collected_empty (msg_user_input msg)).
    unfold start_preview, ws_start_preview. fold form_step. rewrite Hstep.
    rewrite (preview_form_step_schema _ _ _ _ _ _ _ _ Hstep). fold schema.
    rewrite Hrun. rewrite bool_decide_eq_true_2 by reflexivity. cbn [negb].
    unfold getitem. by rewrite Htemplate.
Qed.
End PreviewFailures.

(** X7 at a valid message without a template, and at an options flow
    without a config entry. *)
Lemma preview_fails_silently_witness :
  let accept (v : pyval) : option string := None in
  let hass := Hass (λ _, Ok "bayesian") (λ _, Ok "entry") (λ _, None) (λ _, []) in
  let config := WsMsg 7 "flow" "config_flow" {[ "name" := VStr "sun" ]} in
  let options := WsMsg 8 "flow" "options_flow"
                   {[ "value_template" := VStr "{{ true }}" ]} in
  let w := World [] ∅ [] in
  ws_start_preview accept accept accept accept hass config w
    = (Raise (KeyError "value_template"), w)
  ∧ ws_start_preview accept accept accept accept hass options w
    = (Raise HomeAssistantError, w).
Proof.
  intros accept hass config options w.
  destruct (preview_fails_silently accept accept accept accept hass config w)
    as (_ & _ & _ & Htemplate).
  destruct (preview_fails_silently accept accept accept accept hass options w)
    as (_ & _ & Hentry & _).
  split.
  - apply Htemplate.
    + left. split; [reflexivity|by eexists].
    + intros key validate value Hkey _ _.
      unfold template_step_schema, TEMPLATE_SUBSCHEMA_schema, extend,
        ADD_ANOTHER_BOX_SCHEMA, SUBSCHEMA_BOILERPLATE in Hkey.
      repeat (first
        [ apply lookup_union_Some_raw in Hkey as [Hkey|[_ Hkey]]
        | apply lookup_insert_Some in Hkey as [[<- Hkey]|[_ Hkey]]
        | apply lookup_singleton_Some in Hkey as [<- Hkey] ]);
        try discriminate Hkey; by injection Hkey as <-.
    + reflexivity.
  - apply (Hentry "entry"); [discriminate|reflexivity|reflexivity].
Defined.

(* ===================================================================== *)
(** ** Properties: the store of the observation steps *)
(* ===================================================================== *)

(** Every outcome of [_validate_observation_setup]: the passed dictionary
    is as it was or has lost its flag; the options are as they were, or
    have gained an empty list, or have a new list of observations. *)
Lemma validate_observation_setup_outcome (s s' : store) (r : result pydict) :
  _validate_observation_setup s = (r, s') →
  (passed_input s' = passed_input s
   ∨ passed_input s' = delete "add_another" (passed_input s))
  ∧ (options s' = options s
     ∨ options s' = with_observations (options s)
     ∨ ∃ l', options s' = <[CONF_OBSERVATIONS := Observations l']> (options s)).
Proof.
  intros Hrun. destruct r as [ret|e].
  { apply validate_observation_setup_Ok in Hrun
      as (p_given_t & p_given_f & platform & _ & _ & _ & _ & Hstore).
    apply store_observation_Ok in Hstore as (converted & l' & _ & _ & _ & -> & _).
    split; [by right|]. right. right. by exists l'. }
  destruct (passed_input s !! CONF_P_GIVEN_T) as [p_given_t|] eqn:Ht.
  2:{ unfold _validate_observation_setup in Hrun.
      rewrite (bind_getitem_missing _ _ _ Ht) in Hrun. injection Hrun as _ <-.
      split; by left. }
  destruct (passed_input s !! CONF_P_GIVEN_F) as [p_given_f|] eqn:Hf.
  2:{ unfold _validate_observation_setup in Hrun.
      rewrite (bind_getitem _ _ _ _ Ht) in Hrun.
      rewrite (bind_getitem_missing _ _ _ Hf) in Hrun. injection Hrun as _ <-.
      split; by left. }
  destruct (py_eq p_given_t p_given_f) eqn:Heq.
  { rewrite (validate_observation_setup_equal _ _ _ Ht Hf Heq) in Hrun.
    injection Hrun as _ <-. split; by left. }
  destruct (passed_input s !! CONF_PLATFORM) as [platform|] eqn:Hp.
  2:{ rewrite (validate_observation_setup_no_platform _ _ _ Ht Hf Heq Hp) in Hrun.
      injection Hrun as _ <-. split; by left. }
  rewrite (validate_observation_setup_unfold _ _ _ _ Ht Hf Heq Hp) in Hrun.
  apply store_observation_Raise in Hrun as (_ & -> & [-> | ->]).
  - split; [by right|by left].
  - split; [by right|]. right. by left.
Qed.

(** X8. [_validate_observation_setup] touches nothing but the list of
    observations and the flag. Whatever it is given and however it ends,
    by a return or by an exception, every entry of [handler.options] other
    than ["observations"] is as it was, the ["index"] entry among them (so
    the options stay in editing mode after an edit), and every entry of the
    passed dictionary other than ["add_another"] is as it was. When it
    raises, the list of observations is as it was too; when it returns, the
    passed dictionary has no ["add_another"] entry. *)
Theorem validate_observation_setup_frame (s s' : store) (r : result pydict) :
  _validate_observation_setup s = (r, s') →
  (∀ key, key ≠ "observations" → options s' !! key = options s !! key)
  ∧ options s' !! "index" = options s !! "index"
  ∧ (∀ key, key ≠ "add_another" → passed_input s' !! key = passed_input s !! key)
  ∧ (∀ e, r = Raise e →
       observation_list (options s') = observation_list (options s))
  ∧ (∀ ret, r = Ok ret → passed_input s' !! "add_another" = None).
Proof.
  intros Hrun.
  destruct (validate_observation_setup_outcome s s' r Hrun) as [Hinput Hoptions].
  assert (Hframe : ∀ key, key ≠ "observations" →
            options s' !! key = options s !! key).
  { intros key Hkey. destruct Hoptions as [->|[->|[l' ->]]]; [done|..].
    - unfold with_observations.
      destruct (options s !! CONF_OBSERVATIONS); [done|].
      by rewrite lookup_insert_ne.
    - by rewrite lookup_insert_ne. }
  split; [exact Hframe|]. split; [by apply Hframe|]. split; [|split].
  - intros key Hkey. destruct Hinput as [->| ->]; [done|].
    by rewrite lookup_delete_ne.
  - intros e ->. by apply (validate_observation_setup_Raise s s' e).
  - intros ret ->.
    apply validate_observation_setup_stores in Hrun as (_ & _ & _ & -> & _).
    apply lookup_delete_eq.
Qed.

(** X8 at an edit of the first of two observations with a true flag. *)
Lemma validate_observation_setup_frame_witness :
  let door : pydict := {[ "platform" := VStr "state" ]} in
  let opts : options_dict :=
    {[ "observations" := Observations [door]; "index" := Field (VStr "0");
       "name" := Field (VStr "bayes") ]} in
  let submitted : pydict :=
    {[ "prob_given_true" := VFloat 80; "prob_given_false" := VFloat 20;
       "platform" := VStr "state"; "add_another" := VBool true ]} in
  ∃ s',
    _validate_observation_setup (Store opts submitted)
      = (Ok {[ "add_another" := VBool true ]}, s')
    ∧ options s' !! "index" = Some (Field (VStr "0"))
    ∧ options s' !! "name" = Some (Field (VStr "bayes"))
    ∧ passed_input s' !! "platform" = Some (VStr "state")
    ∧ passed_input s' !! "add_another" = None.
Proof.
  intros door opts submitted.
  destruct (_validate_observation_setup (Store opts submitted)) as [r s'] eqn:Hrun.
  assert (Hr : r = Ok {[ "add_another" := VBool true ]}).
  { assert (Heval : (_validate_observation_setup (Store opts submitted)).1
                    = Ok {[ "add_another" := VBool true ]})
      by (vm_compute; reflexivity).
    by rewrite Hrun in Heval. }
  subst r. exists s'. split; [reflexivity|].
  destruct (validate_observation_setup_frame _ _ _ Hrun)
    as (Hoptions & Hindex & Hinput & _ & Hflag).
  split; [exact Hindex|]. split; [|split].
  - rewrite Hoptions by discriminate. reflexivity.
  - rewrite Hinput by discriminate. reflexivity.
  - by apply (Hflag {[ "add_another" := VBool true ]}).
Defined.

(** A submittable form converts, with or without its flag. *)
Lemma submittable_converts (user_input : pydict) :
  submittable user_input →
  is_Ok (_convert_percentages_to_fractions (delete "add_another" user_input)).
Proof.
  intros (_ & _ & Hwhole).
  assert (Hpopped : ∀ key z, key ∈ probability_keys →
            delete "add_another" user_input !! key = Some (VInt z) → 0 ≤ z ≤ 100).
  { intros key z Hin Hkey. apply (Hwhole key z Hin).
    by apply lookup_delete_Some in Hkey as [_ Hkey]. }
  revert Hpopped. unfold probability_keys. fractions_whole.
Qed.

(** One pass of the loop: with no index, a submittable form is appended. *)
Lemma submittable_appends (opts : options_dict) (user_input : pydict) :
  submittable user_input →
  opts !! "index" = None →
  (∀ v, opts !! "observations" ≠ Some (Field v)) →
  ∃ converted ret,
    _convert_percentages_to_fractions (delete "add_another" user_input) = Ok converted
    ∧ _validate_observation_setup (Store opts user_input) =
        (Ok ret,
         Store (<["observations" :=
                    Observations (observation_list opts ++ [converted])]> opts)
               (delete "add_another" user_input)).
Proof.
  intros Hsub Hindex Hlist.
  destruct (submittable_converts user_input Hsub) as [converted Hconv].
  destruct Hsub as ((p_given_t & p_given_f & Ht & Hf & Hne) & [platform Hp] & _).
  exists converted. eexists. split; [exact Hconv|].
  apply (validate_observation_setup_appends (Store opts user_input)
           p_given_t p_given_f platform converted); try done.
  cbn [options]. by rewrite Hindex.
Qed.

(** X9. The observation steps store the observations in the order they are
    entered. Starting from options with no ["index"] entry (and no scalar
    under ["observations"]), [_validate_observation_setup] run on a
    sequence of submittable forms, the options carried from one to the
    next, returns each time, and the list of observations ends up as the
    list it was followed by one stored observation per form, in the order
    of the forms, each the dictionary [_convert_percentages_to_fractions]
    returns for the form without its ["add_another"] entry: that form with
    its numbers under the four probability keys divided by [100]. The other
    entries of the options are as they were. *)
Theorem submissions_append_in_order (inputs : list pydict) (opts : options_dict) :
  Forall submittable inputs →
  opts !! "index" = None →
  (∀ v, opts !! "observations" ≠ Some (Field v)) →
  ∃ opts' stored,
    submit_all inputs opts = Ok opts'
    ∧ observation_list opts' = (observation_list opts ++ stored)%list
    ∧ length stored = length inputs
    ∧ Forall2 (λ user_input observation,
                 _convert_percentages_to_fractions (delete "add_another" user_input)
                 = Ok observation
                 ∧ converted_entries (delete "add_another" user_input) observation)
              inputs stored
    ∧ ∀ key, key ≠ "observations" → opts' !! key = opts !! key.
Proof.
  intros Hall. revert opts.
  induction Hall as [|user_input inputs Hsub _ IH]; intros opts Hindex Hlist.
  - exists opts, []. split; [done|]. split; [by rewrite app_nil_r|].
    split; [done|]. split; [constructor|done].
  - destruct (submittable_appends opts user_input Hsub Hindex Hlist)
      as (converted & ret & Hconv & Hrun).
    destruct (IH (<["observations" :=
                      Observations (observation_list opts ++ [converted])]> opts))
      as (opts' & stored & Hrest & Hstored & Hlen & Hconvs & Hframe).
    { by rewrite lookup_insert_ne. }
    { intros v. rewrite lookup_insert_eq. discriminate. }
    exists opts', (converted :: stored).
    split; [|split; [|split; [|split]]].
    + cbn [submit_all]. by rewrite Hrun.
    + rewrite Hstored.
      change "observations" with CONF_OBSERVATIONS.
      rewrite observation_list_insert. by rewrite <- app_assoc.
    + simpl. by rewrite Hlen.
    + constructor; [|done]. split; [done|].
      clear - Hconv. revert converted Hconv.
      unfold converted_entries, probability_keys. fractions_entries.
    + intros key Hkey. rewrite (Hframe key Hkey). by rewrite lookup_insert_ne.
Qed.

(** X9 at two forms entered into fresh options. *)
Lemma submissions_append_in_order_witness :
  let door : pydict :=
    {[ "platform" := VStr "state"; "prob_given_true" := VFloat 80;
       "prob_given_false" := VFloat 20; "add_another" := VBool true ]} in
  let sun : pydict :=
    {[ "platform" := VStr "template"; "prob_given_true" := VInt 60;
       "prob_given_false" := VInt 30 ]} in
  let opts : options_dict := {[ "name" := Field (VStr "bayes") ]} in
  ∃ opts',
    submit_all [door; sun] opts = Ok opts'
    ∧ opts' !! "name" = Some (Field (VStr "bayes"))
    ∧ observation_list opts'
      = [ {[ "platform" := VStr "state"; "prob_given_true" := VFloat 0x1.999999999999ap-1;
             "prob_given_false" := VFloat 0x1.999999999999ap-3 ]};
          {[ "platform" := VStr "template"; "prob_given_true" := VFloat 0x1.3333333333333p-1;
             "prob_given_false" := VFloat 0x1.3333333333333p-2 ]} ].
Proof.
  intros door sun opts.
  assert (Hdoor : submittable door).
  { split; [exists (VFloat 80), (VFloat 20); by repeat split|].
    split; [by eexists|]. intros key z _ Hz. exfalso. unfold door in Hz.
    repeat (apply lookup_insert_Some in Hz as [[_ [=]]|[_ Hz]]).
    apply lookup_singleton_Some in Hz as [_ [=]]. }
  assert (Hsun : submittable sun).
  { split; [exists (VInt 60), (VInt 30); by repeat split|].
    split; [by eexists|]. intros key z _ Hz. unfold sun in Hz.
    apply lookup_insert_Some in Hz as [[_ [=]]|[_ Hz]].
    apply lookup_insert_Some in Hz as [[_ [= <-]]|[_ Hz]]; [lia|].
    apply lookup_singleton_Some in Hz as [_ [= <-]]. lia. }
  destruct (submissions_append_in_order [door; sun] opts)
    as (opts' & stored & Hrun & Hlist & _ & Hconvs & Hframe).
  - constructor; [exact Hdoor|]. constructor; [exact Hsun|]. constructor.
  - reflexivity.
  - intros v. discriminate.
  - exists opts'. split; [exact Hrun|]. split.
    + rewrite Hframe by discriminate. reflexivity.
    + rewrite Hlist.
      apply Forall2_cons_inv_l in Hconvs as (c1 & rest & [H1 _] & Hrest & ->).
      apply Forall2_cons_inv_l in Hrest as (c2 & rest' & [H2 _] & Hnil & ->).
      apply Forall2_nil_inv_l in Hnil as ->.
      assert (E1 : _convert_percentages_to_fractions (delete "add_another" door)
                   = Ok {[ "platform" := VStr "state";
                           "prob_given_true" := VFloat 0x1.999999999999ap-1;
                           "prob_given_false" := VFloat 0x1.999999999999ap-3 ]})
        by (vm_compute; reflexivity).
      assert (E2 : _convert_percentages_to_fractions (delete "add_another" sun)
                   = Ok {[ "platform" := VStr "template";
                           "prob_given_true" := VFloat 0x1.3333333333333p-1;
                           "prob_given_false" := VFloat 0x1.3333333333333p-2 ]})
        by (vm_compute; reflexivity).
      rewrite E1 in H1. rewrite E2 in H2.
      injection H1 as <-. injection H2 as <-. reflexivity.
Defined.

(** X10. A failed edit is not undone. Let the input be submittable and
    ["index"] hold a non-empty string. If [int()] cannot read the string,
    [_validate_observation_setup] raises the [ValueError] of the reading;
    if it reads a position outside the list, [-len .. len - 1],
    [IndexError]. In both cases nothing is stored, but the call has
    already changed what it was given: the passed dictionary has lost its
    ["add_another"] entry, and options without a list of observations
    have gained an empty one. *)
Theorem failed_edit_is_not_undone (s : store) (key : string) :
  let len := Z.of_nat (length (observation_list (options s))) in
  let left_behind :=
    Store (match options s !! "observations" with
           | Some _ => options s
           | None => <["observations" := Observations []]> (options s)
           end)
          (delete "add_another" (passed_input s)) in
  submittable (passed_input s) →
  (∀ v, options s !! "observations" ≠ Some (Field v)) →
  options s !! "index" = Some (Field (VStr key)) →
  key ≠ "" →
  (∀ e, int_of_str key = Raise e →
        e = ValueError ∧ _validate_observation_setup s = (Raise ValueError, left_behind))
  ∧ (∀ i, int_of_str key = Ok i → ¬ (- len ≤ i < len) →
          _validate_observation_setup s = (Raise IndexError, left_behind))
  ∧ observation_list (options left_behind) = observation_list (options s).
Proof.
  intros len left_behind Hsub Hlist Hindex Hkey.
  destruct (submittable_converts _ Hsub) as [converted Hconv].
  destruct Hsub as ((p_given_t & p_given_f & Ht & Hf & Hne) & [platform Hp] & _).
  assert (Hrun : _validate_observation_setup s =
            store_observation (options s)
              (dict_get (passed_input s) "add_another" (VBool false))
              (delete "add_another" (passed_input s))).
  { by apply (validate_observation_setup_unfold s p_given_t p_given_f platform). }
  assert (Htrue : optval_truthy (Field (VStr key)) = true).
  { simpl. apply negb_true_iff. by apply bool_decide_eq_false. }
  assert (Hleft : left_behind
                  = Store (with_observations (options s))
                          (delete "add_another" (passed_input s))) by reflexivity.
  assert (Hobs : with_observations (options s) !! CONF_OBSERVATIONS
                 = Some (Observations (observation_list (options s)))).
  { rewrite with_observations_lookup. unfold observation_list.
    destruct (options s !! CONF_OBSERVATIONS) as [[v|l]|] eqn:Hl; [|done|done].
    by destruct (Hlist v). }
  assert (Hstep : _validate_observation_setup s =
            match int_of_str key with
            | Raise e => (Raise e, left_behind)
            | Ok i =>
                match list_setitem (observation_list (options s)) i converted with
                | Ok l' =>
                    (Ok (add_another_result
                           (dict_get (passed_input s) "add_another" (VBool false))),
                     Store (<[CONF_OBSERVATIONS := Observations l']>
                              (with_observations (options s)))
                           (delete "add_another" (passed_input s)))
                | Raise e => (Raise e, left_behind)
                end
            end).
  { rewrite Hrun, Hleft. unfold store_observation. rewrite Hconv. cbv zeta.
    rewrite with_observations_index, Hindex. cbn [default from_option id].
    rewrite Htrue. cbn [optval_int py_int].
    destruct (int_of_str key) as [i|e]; [|done]. by rewrite Hobs. }
  split; [|split].
  - intros e He. assert (e = ValueError) as ->.
    { unfold int_of_str in He.
      repeat (case_match; try discriminate He); by injection He as <-. }
    rewrite He in Hstep. by split.
  - intros i Hi Hrange. rewrite Hi in Hstep.
    assert (Hnone : list_index (observation_list (options s)) i = None).
    { destruct (list_index (observation_list (options s)) i) as [n|] eqn:Hn; [|done].
      destruct Hrange. apply list_index_Some. by eexists. }
    unfold list_setitem in Hstep. by rewrite Hnone in Hstep.
  - rewrite Hleft. cbn [options]. apply observation_list_with_observations.
Qed.

(** X10 at an edit of position ["1"] of a list of one observation, with a
    true flag. *)
Lemma failed_edit_is_not_undone_witness :
  let door : pydict := {[ "platform" := VStr "state" ]} in
  let opts : options_dict :=
    {[ "observations" := Observations [door]; "index" := Field (VStr "1") ]} in
  let submitted : pydict :=
    {[ "prob_given_true" := VFloat 80; "prob_given_false" := VFloat 20;
       "platform" := VStr "state"; "add_another" := VBool true ]} in
  _validate_observation_setup (Store opts submitted)
  = (Raise IndexError, Store opts (delete "add_another" submitted))
  ∧ delete "add_another" submitted !! "add_another" = None
  ∧ submitted !! "add_another" = Some (VBool true).
Proof.
  intros door opts submitted.
  destruct (failed_edit_is_not_undone (Store opts submitted) "1") as (_ & Hrange & _).
  - split; [exists (VFloat 80), (VFloat 20); by repeat split|].
    split; [by eexists|]. intros key z _ Hz. exfalso. unfold submitted in Hz.
    cbn [passed_input] in Hz.
    repeat (apply lookup_insert_Some in Hz as [[_ [=]]|[_ Hz]]).
    apply lookup_singleton_Some in Hz as [_ [=]].
  - intros v. discriminate.
  - reflexivity.
  - discriminate.
  - split; [|split; reflexivity].
    apply (Hrange 1); [reflexivity|].
    intros [_ H]. vm_compute in H. discriminate H.
Defined.
